(** * number_to_text: integers written out in English words

    A shallow embedding of [src/number_to_text.py] together with the tables
    of [data/constants.py] and the messages of [data/error_messages.py],
    followed by the properties of the conversion that the specification
    states.

    Modelling conventions.
    - A Python [str] is a [string]; a character is a code point below 256
      (the Latin-1 range), classified as the interpreter classifies it:
      [Py.isspace] and [Py.isdigit] are [str.isspace] and [str.isdigit]
      restricted to that range.  Strings with larger code points are outside
      the model.
    - A Python [int] is a [Z].
    - An exception is a value of [exn]; a computation that may raise returns
      a [result].  The message of an error raised by the interpreter itself
      (a failed [int(...)]) is rendered for a plain printable argument.
    - The instance attributes that [_read_number] and its callees read and
      write are the fields of the record [attrs], passed explicitly.
    - CPython's limit on the length of int/str conversions (4300 digits by
      default) is not modelled: [Py.str_of_int] is [str] on the integers of
      at most that many digits ([str_within_limit]), and the properties of
      integers that are not bounded from below are stated within it.

    The statements quantified over arbitrary strings (validation, zero, the
    unused-suffix test) are proved without looking at which characters are
    whitespace or digits; the statements on integers concern the ten
    decimal digits only. *)

From stdpp Require Import gmap strings list.
From Stdlib Require Import ZArith Ascii ZifyNat.
Local Open Scope Z_scope.

(** ** Exceptions *)

Inductive exn : Type :=
  | ValueError (msg : string)
  | KeyError
  | IndexError.

Inductive result (A : Type) : Type :=
  | Ok (a : A)
  | Raise (e : exn).
Arguments Ok {A} a.
Arguments Raise {A} e.

Global Instance result_ret : MRet result := fun A a => Ok a.
Global Instance result_bind : MBind result := fun A B f m =>
  match m with
  | Ok a => f a
  | Raise e => Raise e
  end.
Global Instance result_fmap : FMap result := fun A B f m =>
  match m with
  | Ok a => Ok (f a)
  | Raise e => Raise e
  end.

Definition is_ok {A} (m : result A) : bool :=
  match m with Ok _ => true | Raise _ => false end.

(** Monadic left fold: the body of a [for] loop run over a list of indices,
    stopping at the first exception. *)
Fixpoint foldM {A S : Type} (body : S -> A -> result S) (l : list A) (st : S)
  : result S :=
  match l with
  | [] => Ok st
  | x :: l' => st' ← body st x; foldM body l' st'
  end.

(** ** The interpreter's string and integer primitives *)

Module Py.

Definition code (c : ascii) : N := N_of_ascii c.

(** [str.isspace] on one character. *)
Definition isspace (c : ascii) : bool :=
  let n := code c in
  ((9 <=? n) && (n <=? 13) || (28 <=? n) && (n <=? 32)
   || (n =? 133) || (n =? 160))%N.

(** [str.isdigit] on one character: the decimal digits and the
    superscripts two, three and one. *)
Definition isdigit_char (c : ascii) : bool :=
  let n := code c in
  ((48 <=? n) && (n <=? 57) || (n =? 178) || (n =? 179) || (n =? 185))%N.

(** The value of a decimal digit, as [int] reads it. *)
Definition digit_val (c : ascii) : option Z :=
  let n := code c in
  if ((48 <=? n) && (n <=? 57))%N then Some (Z.of_N n - 48) else None.

Definition digit_char (d : Z) : ascii := ascii_of_N (Z.to_N (48 + d)).

Fixpoint all_chars (p : ascii -> bool) (s : string) : bool :=
  match s with
  | EmptyString => true
  | String c s' => p c && all_chars p s'
  end.

(** [s.isdigit()] *)
Definition isdigit (s : string) : bool :=
  match s with
  | EmptyString => false
  | _ => all_chars isdigit_char s
  end.

Fixpoint in_chars (chars : string) (c : ascii) : bool :=
  match chars with
  | EmptyString => false
  | String c' chars' => bool_decide (c = c') || in_chars chars' c
  end.

Fixpoint lstrip_by (p : ascii -> bool) (s : string) : string :=
  match s with
  | EmptyString => EmptyString
  | String c s' => if p c then lstrip_by p s' else s
  end.

Fixpoint rstrip_by (p : ascii -> bool) (s : string) : string :=
  match s with
  | EmptyString => EmptyString
  | String c s' =>
      match rstrip_by p s' with
      | EmptyString => if p c then EmptyString else String c EmptyString
      | r => String c r
      end
  end.

(** [s.strip()], [s.strip(chars)] and [s.lstrip(chars)] *)
Definition strip (s : string) : string := rstrip_by isspace (lstrip_by isspace s).
Definition strip_chars (chars s : string) : string :=
  rstrip_by (in_chars chars) (lstrip_by (in_chars chars) s).
Definition lstrip_chars (chars s : string) : string :=
  lstrip_by (in_chars chars) s.

(** [len(s)] *)
Definition len (s : string) : Z := Z.of_nat (String.length s).

Fixpoint drop (n : nat) (s : string) : string :=
  match n, s with
  | O, _ => s
  | S n', String _ s' => drop n' s'
  | S _, EmptyString => EmptyString
  end.

Fixpoint take (n : nat) (s : string) : string :=
  match n, s with
  | S n', String c s' => String c (take n' s')
  | _, _ => EmptyString
  end.

(** [s[i]], negative indices counting from the end. *)
Definition getitem (s : string) (i : Z) : result ascii :=
  let j := if i <? 0 then i + len s else i in
  if (0 <=? j) && (j <? len s) then
    match String.get (Z.to_nat j) s with
    | Some c => Ok c
    | None => Raise IndexError
    end
  else Raise IndexError.

(** [s[i:]] *)
Definition slice_from (s : string) (i : Z) : string :=
  let j := if i <? 0 then Z.max 0 (i + len s) else i in
  drop (Z.to_nat j) s.

(** [sep.join(l)] *)
Fixpoint join (sep : string) (l : list string) : string :=
  match l with
  | [] => EmptyString
  | [x] => x
  | x :: l' => x +:+ sep +:+ join sep l'
  end.

(** [s.split(sep)] for a separator of one character: every occurrence
    separates, empty pieces are kept. *)
Fixpoint split_on (sep : ascii) (s : string) : list string :=
  match s with
  | EmptyString => [EmptyString]
  | String c s' =>
      if bool_decide (c = sep) then EmptyString :: split_on sep s'
      else match split_on sep s' with
           | h :: t => String c h :: t
           | [] => [String c EmptyString]
           end
  end.

(** [s.split()]: runs of whitespace separate, no empty pieces. *)
Fixpoint split (s : string) : list string :=
  match s with
  | EmptyString => []
  | String c s' =>
      if isspace c then split s'
      else match s' with
           | EmptyString => [String c EmptyString]
           | String c' _ =>
               if isspace c' then String c EmptyString :: split s'
               else match split s' with
                    | h :: t => String c h :: t
                    | [] => [String c EmptyString]
                    end
           end
  end.

Definition startswith (s pre : string) : bool := String.prefix pre s.

(** [s.endswith(suf)] *)
Definition endswith (s suf : string) : bool :=
  (String.length suf <=? String.length s)%nat
  && bool_decide (drop (String.length s - String.length suf) s = suf).

(** [s.removesuffix(suf)] *)
Definition removesuffix (s suf : string) : string :=
  if negb (bool_decide (suf = EmptyString)) && endswith s suf
  then take (String.length s - String.length suf) s
  else s.

(** [s.replace(old, new)], every occurrence from left to right without
    overlap; [skip] counts the characters of a match still to be dropped. *)
Fixpoint replace_go (old new : string) (skip : nat) (s : string) : string :=
  match s with
  | EmptyString => EmptyString
  | String c s' =>
      match skip with
      | S k => replace_go old new k s'
      | O =>
          if String.prefix old s
          then new +:+ replace_go old new (String.length old - 1) s'
          else String c (replace_go old new O s')
      end
  end.

Fixpoint intersperse (new s : string) : string :=
  match s with
  | EmptyString => new
  | String c s' => new +:+ String c (intersperse new s')
  end.

Definition replace (s old new : string) : string :=
  match old with
  | EmptyString => intersperse new s
  | _ => replace_go old new O s
  end.

(** [str(n)] for an [int]: the digits are produced from the right; the
    fuel exceeds the number of decimal digits. *)
Fixpoint digits_go (fuel : nat) (n : Z) (acc : string) : string :=
  let acc' := String (digit_char (n mod 10)) acc in
  match fuel with
  | O => acc'
  | S fuel' => if n <? 10 then acc' else digits_go fuel' (n / 10) acc'
  end.

Definition digits (n : Z) : string :=
  digits_go (Z.to_nat (Z.log2 n)) n EmptyString.

Definition str_of_int (n : Z) : string :=
  if n <? 0 then String "-" (digits (- n)) else digits n.

(** [int(s)]: optional surrounding blanks, an optional sign, then decimal
    digits, single underscores allowed between digits. *)
Definition int_space (c : ascii) : bool :=
  let n := code c in
  ((9 <=? n) && (n <=? 13) || (n =? 32) || (n =? 133) || (n =? 160))%N.

Fixpoint int_digits (acc : Z) (s : string) : option Z :=
  match s with
  | EmptyString => Some acc
  | String c s' =>
      if bool_decide (c = "_"%char) then
        match s' with
        | String c' s'' =>
            match digit_val c' with
            | Some d => int_digits (acc * 10 + d) s''
            | None => None
            end
        | EmptyString => None
        end
      else
        match digit_val c with
        | Some d => int_digits (acc * 10 + d) s'
        | None => None
        end
  end.

Definition int_unsigned (s : string) : option Z :=
  match s with
  | String c s' =>
      match digit_val c with
      | Some d => int_digits d s'
      | None => None
      end
  | EmptyString => None
  end.

Definition int_literal_error (s : string) : exn :=
  ValueError ("invalid literal for int() with base 10: '" +:+ s +:+ "'").

Definition int (s : string) : result Z :=
  let body := rstrip_by int_space (lstrip_by int_space s) in
  let parsed :=
    match body with
    | String c rest =>
        if bool_decide (c = "-"%char) then Z.opp <$> int_unsigned rest
        else if bool_decide (c = "+"%char) then int_unsigned rest
        else int_unsigned body
    | EmptyString => None
    end in
  match parsed with
  | Some n => Ok n
  | None => Raise (int_literal_error s)
  end.

(** [d[k]] for a dict: [KeyError] when the key is absent. *)
Definition dict_get {V} (d : gmap Z V) (k : Z) : result V :=
  match d !! k with
  | Some v => Ok v
  | None => Raise KeyError
  end.

(** [x in d.values()] *)
Definition in_values (x : string) (d : gmap Z string) : bool :=
  bool_decide (x ∈ (map_to_list d).*2).

(** [l[i]] for a list and a natural index. *)
Definition list_get {A} (l : list A) (i : nat) : result A :=
  match l !! i with
  | Some x => Ok x
  | None => Raise IndexError
  end.

End Py.

(** ** data/constants.py *)

Module dc.

Definition MINUS : string := "minus".
Definition HUNDRED : string := "hundred".
Definition MAX_SUPPORTED_NUMBER : Z := 999999999999999999999999999.
Definition MAX_SUPPORTED_NUMBER_LENGTH : Z := 27.

Definition ZERO : gmap Z string := list_to_map [(0, "zero")].

Definition SINGLES : gmap Z string :=
  list_to_map
    [(0, ""); (1, "one"); (2, "two"); (3, "three"); (4, "four");
     (5, "five"); (6, "six"); (7, "seven"); (8, "eight"); (9, "nine")].

Definition UNIQUES : gmap Z string :=
  list_to_map
    [(11, "eleven"); (12, "twelve"); (13, "thirteen"); (14, "fourteen");
     (15, "fifteen"); (16, "sixteen"); (17, "seventeen"); (18, "eighteen");
     (19, "nineteen")].

Definition DOUBLES : gmap Z string :=
  list_to_map
    [(10, "ten"); (20, "twenty"); (30, "thirty"); (40, "forty");
     (50, "fifty"); (60, "sixty"); (70, "seventy"); (80, "eighty");
     (90, "ninety")].

Definition LARGE : gmap Z string :=
  list_to_map
    [(2, " thousand"); (3, " million"); (4, " billion"); (5, " trillion");
     (6, " quadrillion"); (7, " quintillion"); (8, " sextillion");
     (9, " septillion")].

End dc.

(** ** data/error_messages.py *)

Module err.

Definition FLOATING_POINT_ERROR_MESSAGE : string :=
  "Floating point numbers are not supported".

Definition NUMBER_IS_NOT_DIGITS_ONLY : string :=
  "is not a valid number. It should contain digits only.".

Definition NUMBER_TOO_LARGE : string :=
  "Number is too large. The maximum number length is "
  +:+ Py.str_of_int dc.MAX_SUPPORTED_NUMBER_LENGTH +:+ " digits".

End err.

(** ** class NumberToText *)

(** The argument of the constructor: an [int], a [str] or a [float] (whose
    value the code never inspects). *)
Inductive pyobj : Type :=
  | PyInt (n : Z)
  | PyStr (s : string)
  | PyFloat.

(** The attributes assigned before [_read_number] runs. *)
Record attrs : Type := Attrs {
  numerical_value : string;
  numerical_split_value : option string;
  is_negative_number : bool;
  _cached_values : gmap string string
}.

(** The constructed object. *)
Record NumberToText : Type := Object {
  attributes : attrs;
  _text_value : string
}.

Definition set_is_negative_number (b : bool) (self : attrs) : attrs :=
  Attrs (numerical_value self) (numerical_split_value self) b
        (_cached_values self).

Definition set_numerical_split_value (v : string) (self : attrs) : attrs :=
  Attrs (numerical_value self) (Some v) (is_negative_number self)
        (_cached_values self).

Definition set_cached_value (k v : string) (self : attrs) : attrs :=
  Attrs (numerical_value self) (numerical_split_value self)
        (is_negative_number self) (<[k := v]> (_cached_values self)).

Definition validate_number (number : pyobj) : result string :=
  match number with
  | PyFloat => Raise (ValueError err.FLOATING_POINT_ERROR_MESSAGE)
  | PyStr s =>
      if negb (Py.isdigit (Py.lstrip_chars "-" (Py.strip s))) then
        Raise (ValueError ("'" +:+ s +:+ "' " +:+ err.NUMBER_IS_NOT_DIGITS_ONLY))
      else if Py.len s >? dc.MAX_SUPPORTED_NUMBER_LENGTH then
        Raise (ValueError err.NUMBER_TOO_LARGE)
      else Ok (Py.strip s)
  | PyInt n =>
      if n >? dc.MAX_SUPPORTED_NUMBER then
        Raise (ValueError err.NUMBER_TOO_LARGE)
      else Ok (Py.strip (Py.str_of_int n))
  end.

Definition _add_singles (numbers : string) : result string :=
  c ← Py.getitem numbers (-1);
  d ← Py.int (String c "");
  Py.dict_get dc.SINGLES d.

(** The [finally: return] makes the method return whatever was collected,
    whichever exception is in flight. *)
Definition _add_decimals (numbers : string) : string :=
  let last_two := Py.slice_from numbers (-2) in
  let collected : list string :=
    match Py.int last_two ≫= Py.dict_get dc.UNIQUES with
    | Ok w => [w]
    | Raise KeyError =>
        match Py.int last_two ≫= Py.dict_get dc.DOUBLES with
        | Ok w => [w]
        | Raise KeyError =>
            match (c ← Py.getitem numbers (-2);
                   d ← Py.int (String c "0");
                   Py.dict_get dc.DOUBLES d) with
            | Ok w =>
                match _add_singles numbers with
                | Ok u => [w; u]
                | Raise _ => [w]
                end
            | Raise _ =>
                match _add_singles numbers with
                | Ok u => [u]
                | Raise _ => []
                end
            end
        | Raise _ => []
        end
    | Raise _ => []
    end in
  Py.join " " collected.

(** [all(int(digit) == 0 for digit in s)] *)
Fixpoint all_int_zero (s : string) : result bool :=
  match s with
  | EmptyString => Ok true
  | String digit s' =>
      v ← Py.int (String digit "");
      if v =? 0 then all_int_zero s' else Ok false
  end.

Definition _all_digits_are_zeros (three_digit_string : string) : result bool :=
  if Py.len three_digit_string =? 3 then all_int_zero three_digit_string
  else Ok false.

Definition _add_hundreds (numbers : string) : result string :=
  let numbers := Py.lstrip_chars "0" numbers in
  collected ←
    (if Py.len numbers =? 3 then
       c ← Py.getitem numbers (-3);
       d ← Py.int (String c "");
       w ← Py.dict_get dc.SINGLES d;
       Ok [w +:+ " " +:+ dc.HUNDRED; _add_decimals numbers]
     else if Py.len numbers =? 2 then Ok [_add_decimals numbers]
     else if Py.len numbers =? 1 then w ← _add_singles numbers; Ok [w]
     else Ok []);
  first ← Py.list_get collected 0;
  needs_and ←
    (if Py.endswith first "hundred" then
       if (1 <? length collected)%nat then
         second ← Py.list_get collected 1;
         Ok (negb (bool_decide (second = "")))
       else Ok false
     else Ok false);
  let collected :=
    if needs_and : bool then <[0%nat := first +:+ " and"]> collected
    else collected in
  Ok (Py.join " " collected).

Definition _format_digits (numbers : string) : result string :=
  zeros ← _all_digits_are_zeros numbers;
  if zeros : bool then Ok ""
  else hundreds ← _add_hundreds numbers; Ok (Py.join " " [hundreds]).

(** One iteration of the loop of [_create_text_from_number]; the state is
    the list built so far and the object holding the cache. *)
Definition create_text_step (temp_result : list string)
    (st : list string * attrs) (substring_idx : nat)
  : result (list string * attrs) :=
  let '(collected, self) := st in
  key ← Py.list_get temp_result substring_idx;
  match _cached_values self !! key with
  | Some cached => Ok (collected ++ [cached], self)
  | None =>
      text_from_digits ← _format_digits key;
      Ok (collected ++ [text_from_digits],
          set_cached_value key text_from_digits self)
  end.

Definition _create_text_from_number (self : attrs) (number_text : string)
  : result (list string * attrs) :=
  let temp_result := Py.split_on " " number_text in
  foldM (create_text_step temp_result) (seq 0 (length temp_result)) ([], self).

(** The piece the comprehension of [_format_number_string] makes for
    [digit], counted from the right starting at 1. *)
Definition format_piece (number_string : string) (digit : Z) : result string :=
  c ← Py.getitem number_string (Py.len number_string - digit);
  Ok (if digit mod 3 =? 0 then String " " (String c "") else String c "").

Definition _format_number_string (number_string : string) : result string :=
  pieces ← mapM (format_piece number_string) (seqZ 1 (Py.len number_string));
  Ok (Py.join "" (reverse pieces)).

(** The test of the [if] inside the loop of [_final_format], with the
    short-circuit order of the source. *)
Definition suffix_wanted (additions : gset string) (grade : Z)
    (digit_groups_list : list string) (index : nat) : result bool :=
  if 1 <? grade then
    large ← Py.dict_get dc.LARGE grade;
    if bool_decide (large +:+ "s" ∉ additions) then
      large' ← Py.dict_get dc.LARGE grade;
      if bool_decide (large' ∉ additions) then
        group ← Py.list_get digit_groups_list index;
        negb <$> _all_digits_are_zeros group
      else Ok false
    else Ok false
  else Ok false.

(** The conditional expression that picks [suffix_to_add]. *)
Definition choose_suffix (grade : Z) (plural : bool) : result string :=
  if negb plural || (grade =? 2) then Py.dict_get dc.LARGE grade
  else large ← Py.dict_get dc.LARGE grade; Ok (large +:+ "s").

(** One iteration of the first loop of [_final_format]; the state is the
    list of words, updated in place, and the set [additions]. *)
Definition suffix_step (total : nat) (digit_groups_list : list string)
    (st : list string * gset string) (index : nat)
  : result (list string * gset string) :=
  let '(words_as_numbers_list, additions) := st in
  let grade := Z.of_nat total - Z.of_nat index in
  group ← Py.list_get digit_groups_list index;
  value ← Py.int group;
  let plural := 1 <? value in
  wanted ← suffix_wanted additions grade digit_groups_list index;
  if wanted : bool then
    suffix_to_add ← choose_suffix grade plural;
    word ← Py.list_get words_as_numbers_list index;
    Ok (<[index := Py.strip_chars " " word +:+ suffix_to_add]>
          words_as_numbers_list,
        {[suffix_to_add]} ∪ additions)
  else Ok (words_as_numbers_list, additions).

Definition add_suffixes (words_as_numbers_list digit_groups_list : list string)
  : result (list string * gset string) :=
  let total := length words_as_numbers_list in
  foldM (suffix_step total digit_groups_list) (seq 0 total)
        (words_as_numbers_list, ∅).

(** The element the comprehension of [_final_format] yields for one word,
    before the empty ones are dropped. *)
Definition and_prefixed (words_as_numbers_list : list string)
    (number_to_add_prefix_to : string) : string :=
  if (Py.in_values number_to_add_prefix_to dc.SINGLES
      || Py.in_values number_to_add_prefix_to dc.UNIQUES)
     && negb (bool_decide (number_to_add_prefix_to = ""))
     && (1 <? length words_as_numbers_list)%nat
     && negb (bool_decide (words_as_numbers_list !! 0%nat = Some ""))
  then Py.replace number_to_add_prefix_to number_to_add_prefix_to
                  ("and " +:+ number_to_add_prefix_to)
  else number_to_add_prefix_to.

(** [_final_format] after its first loop. *)
Definition join_words (self : attrs) (words_as_numbers_list : list string)
  : string :=
  let temp_result :=
    filter (fun non_empty_str => non_empty_str ≠ "")
           (and_prefixed words_as_numbers_list <$> words_as_numbers_list) in
  let joined :=
    if (2 <=? length temp_result)%nat then
      Py.join ", " ((fun x => Py.removesuffix x " ") <$> temp_result)
    else Py.strip (Py.join " " temp_result) in
  let replaced := Py.replace joined ", and" " and" in
  if is_negative_number self then dc.MINUS +:+ ", " +:+ replaced
  else replaced.

Definition _final_format (self : attrs)
    (words_as_numbers_list digit_groups_list : list string) : result string :=
  '(words, _) ← add_suffixes words_as_numbers_list digit_groups_list;
  Ok (join_words self words).

Definition _read_number (self : attrs) : result (string * attrs) :=
  value ← Py.int (numerical_value self);
  if value =? 0 then zero ← Py.dict_get dc.ZERO 0; Ok (zero, self)
  else
    value' ← Py.int (numerical_value self);
    let self := if value' <? 0 then set_is_negative_number true self
                else self in
    formatted ←
      _format_number_string (Py.lstrip_chars "-" (numerical_value self));
    let split_value :=
      if is_negative_number self
      then "-" +:+ Py.strip_chars " " formatted
      else Py.strip_chars " " formatted in
    let self := set_numerical_split_value split_value self in
    '(words_as_numbers_list, self) ←
      _create_text_from_number self (Py.lstrip_chars "-" split_value);
    text ← _final_format self words_as_numbers_list
             (Py.split (Py.lstrip_chars "-" split_value));
    Ok (text, self).

Definition __init__ (number : pyobj) : result NumberToText :=
  validated ← validate_number number;
  let self := Attrs validated None false ∅ in
  '(text, self) ← _read_number self;
  Ok (Object self text).

Definition __repr__ (self : NumberToText) : string := _text_value self.

(** The conversion the specification calls [convert]: construct the object
    and take its text. *)
Definition convert (number : pyobj) : result string :=
  __repr__ <$> __init__ number.

(** ** The conversion without the "suffix already used" test

    A second formatter, identical to [_final_format] except that the two
    membership tests on [additions] are deleted from the condition of the
    loop.  It is compared with the original below. *)

Definition suffix_wanted_unguarded (grade : Z)
    (digit_groups_list : list string) (index : nat) : result bool :=
  if 1 <? grade then
    group ← Py.list_get digit_groups_list index;
    negb <$> _all_digits_are_zeros group
  else Ok false.

Definition suffix_step_unguarded (total : nat) (digit_groups_list : list string)
    (st : list string * gset string) (index : nat)
  : result (list string * gset string) :=
  let '(words_as_numbers_list, additions) := st in
  let grade := Z.of_nat total - Z.of_nat index in
  group ← Py.list_get digit_groups_list index;
  value ← Py.int group;
  let plural := 1 <? value in
  wanted ← suffix_wanted_unguarded grade digit_groups_list index;
  if wanted : bool then
    suffix_to_add ← choose_suffix grade plural;
    word ← Py.list_get words_as_numbers_list index;
    Ok (<[index := Py.strip_chars " " word +:+ suffix_to_add]>
          words_as_numbers_list,
        {[suffix_to_add]} ∪ additions)
  else Ok (words_as_numbers_list, additions).

Definition add_suffixes_unguarded
    (words_as_numbers_list digit_groups_list : list string)
  : result (list string * gset string) :=
  let total := length words_as_numbers_list in
  foldM (suffix_step_unguarded total digit_groups_list) (seq 0 total)
        (words_as_numbers_list, ∅).

Definition _final_format_unguarded (self : attrs)
    (words_as_numbers_list digit_groups_list : list string) : result string :=
  '(words, _) ← add_suffixes_unguarded words_as_numbers_list digit_groups_list;
  Ok (join_words self words).

Definition _read_number_unguarded (self : attrs) : result (string * attrs) :=
  value ← Py.int (numerical_value self);
  if value =? 0 then zero ← Py.dict_get dc.ZERO 0; Ok (zero, self)
  else
    value' ← Py.int (numerical_value self);
    let self := if value' <? 0 then set_is_negative_number true self
                else self in
    formatted ←
      _format_number_string (Py.lstrip_chars "-" (numerical_value self));
    let split_value :=
      if is_negative_number self
      then "-" +:+ Py.strip_chars " " formatted
      else Py.strip_chars " " formatted in
    let self := set_numerical_split_value split_value self in
    '(words_as_numbers_list, self) ←
      _create_text_from_number self (Py.lstrip_chars "-" split_value);
    text ← _final_format_unguarded self words_as_numbers_list
             (Py.split (Py.lstrip_chars "-" split_value));
    Ok (text, self).

Definition convert_unguarded (number : pyobj) : result string :=
  validated ← validate_number number;
  '(text, _) ← _read_number_unguarded (Attrs validated None false ∅);
  Ok text.

(** ** Vocabulary of the statements *)

(** [sub in s] *)
Fixpoint contains (sub s : string) : bool :=
  String.prefix sub s
  || match s with
     | EmptyString => false
     | String _ s' => contains sub s'
     end.

(** A string with at most one leading minus sign removed. *)
Definition trim_one_minus (s : string) : string :=
  match s with
  | String c rest => if bool_decide (c = "-"%char) then rest else s
  | EmptyString => s
  end.

(** Some character of the string is not a digit. *)
Definition has_non_digit (s : string) : bool :=
  negb (Py.all_chars Py.isdigit_char s).

(** The inputs the statement on the not-digits error speaks about: a
    string carries at most one minus sign in front of its digits. *)
Definition at_most_one_minus (number : pyobj) : Prop :=
  match number with
  | PyStr s => Py.startswith (Py.strip s) "--" = false
  | _ => True
  end.

(** The error raised for a string that is not made of digits, carrying the
    literal [lit] in its message. *)
Definition not_digits_error (lit : string) : exn :=
  ValueError ("'" +:+ lit +:+ "' " +:+ err.NUMBER_IS_NOT_DIGITS_ONLY).

Definition too_large_error : exn := ValueError err.NUMBER_TOO_LARGE.

(** The phrases of the largest supported number: nine groups, the
    magnitude words from septillion down to thousand, none for the last. *)
Definition max_phrases : list string :=
  (fun suffix => "nine hundred and ninety nine" +:+ suffix)
    <$> [" septillions"; " sextillions"; " quintillions"; " quadrillions";
         " trillions"; " billions"; " millions"; " thousand"; ""].

(** Every suffix recorded so far belongs to a grade above the grade of
    [index]. *)
Definition earlier_suffixes (total index : nat) (additions : gset string) : Prop :=
  forall x, x ∈ additions ->
    exists g l, dc.LARGE !! g = Some l
                /\ (x = l \/ x = l +:+ "s")
                /\ Z.of_nat total - Z.of_nat index < g.

(** What the first loop of [_final_format] makes of the word of one group:
    [new_word] for the word [word] of the group [group], whose value is
    [value], at grade [grade]. *)
Definition suffix_rule (grade : Z) (word group : string) (value : Z)
    (new_word : string) : Prop :=
  (1 < grade -> _all_digits_are_zeros group = Ok false ->
   exists large, dc.LARGE !! grade = Some large
     /\ (1 < value /\ grade <> 2 ->
         new_word = Py.strip_chars " " word +:+ large +:+ "s")
     /\ (~ (1 < value /\ grade <> 2) ->
         new_word = Py.strip_chars " " word +:+ large))
  /\ (grade <= 1 \/ _all_digits_are_zeros group = Ok true -> new_word = word).

(** The digit groups of a string of digits, three by three from the right. *)
Fixpoint groups_of (digits : string) : list string :=
  match digits with
  | EmptyString => []
  | String c rest =>
      if (String.length rest mod 3 =? 0)%nat then String c "" :: groups_of rest
      else match groups_of rest with
           | g :: gs => String c g :: gs
           | [] => [String c ""]
           end
  end.

(** The string of [k] zeros. *)
Fixpoint zeros (k : nat) : string :=
  match k with
  | O => ""
  | S k' => String "0" (zeros k')
  end.

(** A decimal digit, and a string of decimal digits. *)
Definition decimal_char (c : ascii) : bool :=
  match Py.digit_val c with Some _ => true | None => false end.

Definition decimal_string (s : string) : bool := Py.all_chars decimal_char s.

(** What a decimal digit is not. *)
Definition plain_char (c : ascii) : bool :=
  Py.isdigit_char c && negb (Py.isspace c) && negb (Py.int_space c)
  && negb (bool_decide (c = "-"%char)) && negb (bool_decide (c = "+"%char))
  && negb (bool_decide (c = "_"%char)) && negb (bool_decide (c = " "%char)).

(** The blank [_format_number_string] leaves in front of a string whose
    length is a positive multiple of three. *)
Definition leading_blank (digits : string) : string :=
  if (String.length digits mod 3 =? 0)%nat
     && negb (bool_decide (digits = "")) then " " else "".

(** A group the grouping of a number without leading zeros produces: one
    to three decimal digits, fewer than three only without a zero in
    front. *)
Definition good_group (g : string) : bool :=
  decimal_string g
  && match g with
     | String c _ =>
         (String.length g =? 3)%nat
         || (String.length g <? 3)%nat && negb (bool_decide (c = "0"%char))
     | EmptyString => false
     end.

(** The words of a sentence: not empty and free of the characters [p]. *)
Definition words_without (p : ascii -> bool) (gs : list string) : Prop :=
  Forall (fun g => g <> "" /\ Py.all_chars (fun c => negb (p c)) g = true) gs.

(** The ten decimal digits. *)
Definition decimal_chars : list ascii :=
  ["0"; "1"; "2"; "3"; "4"; "5"; "6"; "7"; "8"; "9"]%char.

(** Everything the conversion computes from one group returns. *)
Definition group_ok (g : string) : bool :=
  is_ok (_format_digits g) && is_ok (Py.int g)
  && is_ok (_all_digits_are_zeros g).

(** [group_ok] on every good group, by enumeration. *)
Definition groups_checked : bool :=
  forallb (fun a =>
    (bool_decide (a = "0"%char) || group_ok (String a ""))
    && forallb (fun b =>
         (bool_decide (a = "0"%char) || group_ok (String a (String b "")))
         && forallb (fun c => group_ok (String a (String b (String c ""))))
                    decimal_chars)
       decimal_chars)
    decimal_chars.

(** Every entry of the cache is what [_format_digits] returns for its key. *)
Definition cache_sound (cache : gmap string string) : Prop :=
  forall key text, cache !! key = Some text -> _format_digits key = Ok text.

(** The words of a number whose digit groups are [groups]: one word per
    group, made from the phrase of the group by [suffix_rule] at the grade
    of the group, counted from 1 at the last group, with the value [int]
    reads from the group. *)
Definition suffixed_words (groups words : list string) : Prop :=
  length words = length groups
  /\ forall index group, groups !! index = Some group ->
       exists value phrase new_word,
         Py.int group = Ok value
         /\ _format_digits group = Ok phrase
         /\ words !! index = Some new_word
         /\ suffix_rule (Z.of_nat (length groups) - Z.of_nat index)
                        phrase group value new_word.

(** The text returned for [number] is "zero", or is joined from the words
    that [suffix_rule] gives for the digit groups of the validated number
    without its sign. *)
Definition follows_suffix_rule (number : pyobj) (text : string) : Prop :=
  exists validated value,
    validate_number number = Ok validated
    /\ Py.int validated = Ok value
    /\ (value = 0 -> text = "zero")
    /\ (value <> 0 ->
        exists self words,
          text = join_words self words
          /\ is_negative_number self = (value <? 0)
          /\ suffixed_words (groups_of (Py.lstrip_chars "-" validated)) words).

(** ** Vocabulary of the further properties *)

(** The number of digits above which [str] of an integer raises unless the
    interpreter's limit is lifted, and the integers within that limit, on
    which [Py.str_of_int] is [str]. *)
Definition int_max_str_digits : Z := 4300.
Definition str_within_limit (n : Z) : Prop := Z.abs n < 10 ^ int_max_str_digits.

(** The cache holds, for each of the first [count] pieces, the phrase
    collected at its position. *)
Definition cache_holds (temp_result collected : list string) (self : attrs)
    (count : nat) : Prop :=
  forall i key, (i < count)%nat -> temp_result !! i = Some key ->
    exists text, _cached_values self !! key = Some text
                 /\ collected !! i = Some text.

(** [int] reads the character as the number zero. *)
Definition is_zero_char (c : ascii) : bool :=
  match Py.int (String c "") with
  | Ok v => v =? 0
  | Raise _ => false
  end.

(** The word of a digit, of a teen and of a multiple of ten; the empty
    string where the table has no entry. *)
Definition single_word (d : Z) : string := default "" (dc.SINGLES !! d).
Definition unique_word (v : Z) : string := default "" (dc.UNIQUES !! v).
Definition double_word (v : Z) : string := default "" (dc.DOUBLES !! v).

(** The phrase of the two-digit number with the digits [tens] and [ones]. *)
Definition two_digit_phrase (tens ones : Z) : string :=
  let v := 10 * tens + ones in
  if (11 <=? v) && (v <=? 19) then unique_word v
  else if (ones =? 0) && negb (tens =? 0) then double_word v
  else if tens =? 0 then single_word ones
  else double_word (10 * tens) +:+ " " +:+ single_word ones.

(** The string is made of the character "0" only. *)
Definition all_zero_chars (s : string) : bool :=
  Py.all_chars (fun c => bool_decide (c = "0"%char)) s.


(** * Properties *)

(** ** Worked examples *)

(** C8: the "and" insertion and the comma joining reproduce the worked
    examples: 101, 1001, 1000001 and 9876543210 convert to exactly the
    phrases the specification lists. *)
Theorem worked_examples :
  convert (PyInt 101) = Ok "one hundred and one"
  /\ convert (PyInt 1001) = Ok "one thousand and one"
  /\ convert (PyInt 1000001) = Ok "one million and one"
  /\ convert (PyInt 9876543210)
     = Ok ("nine billions, eight hundred and seventy six millions, "
           +:+ "five hundred and forty three thousand, two hundred and ten").
Proof. vm_compute. repeat split; reflexivity. Qed.

(** C9: the largest supported number converts to its nine groups of
    "nine hundred and ninety nine", with the magnitude words from
    septillions down to thousand and the last group bare, joined by commas;
    the next integer is rejected with the too-large error, whose message
    names the maximal length of 27 digits. *)
Theorem maximum_boundary :
  convert (PyInt dc.MAX_SUPPORTED_NUMBER) = Ok (Py.join ", " max_phrases)
  /\ length max_phrases = 9%nat
  /\ convert (PyInt (dc.MAX_SUPPORTED_NUMBER + 1)) = Raise too_large_error
  /\ dc.MAX_SUPPORTED_NUMBER + 1 = 1000000000000000000000000000
  /\ too_large_error
     = ValueError "Number is too large. The maximum number length is 27 digits".
Proof. vm_compute. repeat split; reflexivity. Qed.

(** ** Where the code departs from the specification *)

(** C1 (the code departs from it): the integer [-MAX] converts, while its
    decimal string, 27 digits behind a minus sign, is rejected as too
    large, because the length test counts the sign. *)
Theorem int_and_str_differ_at_negative_maximum :
  convert (PyInt (- dc.MAX_SUPPORTED_NUMBER))
  = Ok ("minus, " +:+ Py.join ", " max_phrases)
  /\ Py.str_of_int (- dc.MAX_SUPPORTED_NUMBER) = "-999999999999999999999999999"
  /\ convert (PyStr (Py.str_of_int (- dc.MAX_SUPPORTED_NUMBER)))
     = Raise too_large_error.
Proof. vm_compute. repeat split; reflexivity. Qed.

(** C2 (the code departs from it): inputs that pass validation and make the
    conversion raise.  A leading group of one or two zeros makes
    [_add_hundreds] index an empty list; two minus signs pass validation
    and stop at [int]; a negative integer of 28 digits passes validation
    and has no entry in [LARGE]. *)
Theorem conversion_raises_after_validation :
  (validate_number (PyStr "0123") = Ok "0123"
   /\ convert (PyStr "0123") = Raise IndexError)
  /\ (validate_number (PyStr "--5") = Ok "--5"
      /\ convert (PyStr "--5") = Raise (Py.int_literal_error "--5"))
  /\ (validate_number (PyInt (-1000000000000000000000000000))
      = Ok "-1000000000000000000000000000"
      /\ convert (PyInt (-1000000000000000000000000000)) = Raise KeyError).
Proof. vm_compute. repeat split; reflexivity. Qed.

(** C3 (the code departs from it): leading zeros change the result.  One
    zero in front of 123 makes the conversion raise, six zeros in front of
    1001 lose the "and", and a blank in front of the 27 digits of the
    largest number makes it too long. *)
Theorem leading_zeros_change_the_result :
  convert (PyInt 123) = Ok "one hundred and twenty three"
  /\ convert (PyStr "0123") = Raise IndexError
  /\ convert (PyInt 1001) = Ok "one thousand and one"
  /\ convert (PyStr "000001001") = Ok "one thousand, one"
  /\ convert (PyStr (" " +:+ Py.str_of_int dc.MAX_SUPPORTED_NUMBER))
     = Raise too_large_error.
Proof. vm_compute. repeat split; reflexivity. Qed.

(** ** Zero *)

(** C5: whenever validation succeeds and the validated value reads as zero,
    the conversion returns exactly "zero": no magnitude word, no negative
    marker. *)
Theorem zero_converts_to_zero (number : pyobj) (validated : string) :
  validate_number number = Ok validated ->
  Py.int validated = Ok 0 ->
  convert number = Ok "zero".
Proof.
  intros Hval Hint.
  unfold convert, __init__. rewrite Hval. simpl.
  unfold _read_number. simpl. rewrite Hint. reflexivity.
Qed.

Lemma zero_converts_to_zero_witness :
  convert (PyInt 0) = Ok "zero"
  /\ convert (PyStr "0") = Ok "zero"
  /\ convert (PyInt (-0)) = Ok "zero"
  /\ convert (PyStr "-0") = Ok "zero"
  /\ convert (PyStr "000") = Ok "zero".
Proof.
  split; [apply (zero_converts_to_zero (PyInt 0) "0"); reflexivity|].
  split; [apply (zero_converts_to_zero (PyStr "0") "0"); reflexivity|].
  split; [apply (zero_converts_to_zero (PyInt (-0)) "0"); reflexivity|].
  split; [apply (zero_converts_to_zero (PyStr "-0") "-0"); reflexivity|].
  apply (zero_converts_to_zero (PyStr "000") "000"); reflexivity.
Defined.

(** Every string of one to 27 zeros converts to "zero". *)
Lemma zeros_convert_to_zero (k : nat) :
  (1 <= k <= 27)%nat -> convert (PyStr (zeros k)) = Ok "zero".
Proof.
  intros Hk.
  do 28 (destruct k as [|k]; [first [lia | vm_compute; reflexivity]|]).
  lia.
Qed.

(** ** Strings *)

Lemma app_empty_l (s : string) : "" +:+ s = s.
Proof. reflexivity. Qed.

Lemma app_cons (c : ascii) (s t : string) :
  String c s +:+ t = String c (s +:+ t).
Proof. reflexivity. Qed.

Lemma app_empty_r (s : string) : s +:+ "" = s.
Proof. induction s as [|c s IH]; [reflexivity|]. rewrite app_cons, IH. reflexivity. Qed.

Lemma app_assoc_str (a b c : string) : (a +:+ b) +:+ c = a +:+ (b +:+ c).
Proof.
  induction a as [|x a IH]; [reflexivity|].
  rewrite !app_cons, IH. reflexivity.
Qed.

Lemma length_app_str (a b : string) :
  String.length (a +:+ b) = (String.length a + String.length b)%nat.
Proof.
  induction a as [|x a IH]; [reflexivity|].
  rewrite app_cons. simpl. rewrite IH. reflexivity.
Qed.

Lemma app_inv_tail_str (a b c : string) : a +:+ c = b +:+ c -> a = b.
Proof.
  revert b. induction a as [|x a IH]; intros [|y b] H.
  - reflexivity.
  - apply (f_equal String.length) in H.
    rewrite app_empty_l, app_cons in H. simpl in H.
    rewrite length_app_str in H. lia.
  - apply (f_equal String.length) in H.
    rewrite app_empty_l, app_cons in H. simpl in H.
    rewrite length_app_str in H. lia.
  - rewrite !app_cons in H. injection H as -> H. f_equal. auto.
Qed.

(** ** Validation *)

Lemma not_digits_error_inj (a b : string) :
  not_digits_error a = not_digits_error b -> a = b.
Proof.
  unfold not_digits_error. intros H. injection H as H.
  rewrite !app_empty_l in H. apply app_inv_tail_str in H. exact H.
Qed.

Lemma lstrip_by_cons (p : ascii -> bool) (c : ascii) (s : string) :
  Py.lstrip_by p (String c s) = if p c then Py.lstrip_by p s else String c s.
Proof. reflexivity. Qed.

Lemma in_chars_single (x c : ascii) :
  Py.in_chars (String x "") c = bool_decide (c = x).
Proof. unfold Py.in_chars. apply orb_false_r. Qed.

Lemma lstrip_minus_once (s : string) :
  Py.startswith s "--" = false ->
  Py.lstrip_chars "-" s = trim_one_minus s.
Proof.
  unfold Py.startswith, Py.lstrip_chars, trim_one_minus.
  destruct s as [|c rest]; [reflexivity|]. intros H.
  rewrite lstrip_by_cons, in_chars_single.
  case_bool_decide as Hc; [subst c|reflexivity].
  destruct rest as [|c' rest']; [reflexivity|].
  rewrite lstrip_by_cons, in_chars_single.
  case_bool_decide as Hc'; [subst c'|reflexivity].
  destruct rest'; vm_compute in H; discriminate.
Qed.

Lemma isdigit_false_iff (s : string) :
  Py.isdigit s = false <-> s = "" \/ has_non_digit s = true.
Proof.
  unfold has_non_digit, Py.isdigit. destruct s as [|c s'].
  - split; [left; reflexivity | reflexivity].
  - rewrite negb_true_iff. split; [right; assumption|].
    intros [H|H]; [discriminate|exact H].
Qed.

(** C4, as the code has it: for an input with at most one leading minus
    sign, validation fails with the not-digits error carrying the literal
    [lit] exactly when the input is the string [lit] and what remains of it
    after trimming the surrounding whitespace and the minus sign is empty
    or contains a character that is not a digit. *)
Theorem not_digits_error_iff (number : pyobj) (lit : string) :
  at_most_one_minus number ->
  validate_number number = Raise (not_digits_error lit)
  <-> number = PyStr lit
      /\ (trim_one_minus (Py.strip lit) = ""
          \/ has_non_digit (trim_one_minus (Py.strip lit)) = true).
Proof.
  intros Hone. destruct number as [n|s|]; simpl in *.
  - split; [|intros [? _]; discriminate].
    destruct (n >? dc.MAX_SUPPORTED_NUMBER); discriminate.
  - rewrite (lstrip_minus_once _ Hone).
    destruct (Py.isdigit (trim_one_minus (Py.strip s))) eqn:Hd; simpl.
    + split.
      * destruct (Py.len s >? dc.MAX_SUPPORTED_NUMBER_LENGTH); discriminate.
      * intros [Heq Hrest]. injection Heq as ->.
        apply isdigit_false_iff in Hrest. congruence.
    + split.
      * intros H.
        assert (not_digits_error s = not_digits_error lit) as Heq
          by (unfold not_digits_error at 1; congruence).
        apply not_digits_error_inj in Heq. subst lit.
        split; [reflexivity|]. apply isdigit_false_iff. exact Hd.
      * intros [Heq _]. injection Heq as ->. reflexivity.
  - split; [discriminate | intros [? _]; discriminate].
Qed.

Lemma not_digits_error_iff_witness :
  validate_number (PyStr " -3.14 ") = Raise (not_digits_error " -3.14 ").
Proof.
  apply (not_digits_error_iff (PyStr " -3.14 ") " -3.14 ").
  - reflexivity.
  - split; [reflexivity | right; reflexivity].
Defined.

(** C4, as the specification words it, fails on the empty string: nothing
    remains after trimming, so no character is a non-digit, and validation
    still raises the not-digits error. *)
Lemma not_digits_error_on_empty_string :
  ~ (validate_number (PyStr "") = Raise (not_digits_error "")
     <-> has_non_digit (trim_one_minus (Py.strip "")) = true).
Proof.
  intros [H _]. specialize (H eq_refl). discriminate.
Qed.

(** ** The error monad *)

Lemma bind_Ok_inv {A B : Type} (m : result A) (f : A -> result B) (r : B) :
  m ≫= f = Ok r -> exists a, m = Ok a /\ f a = Ok r.
Proof. destruct m as [a|e]; [exists a; split; [reflexivity|assumption] | discriminate]. Qed.

Lemma bind_Ok {A B : Type} (m : result A) (f : A -> result B) (a : A) :
  m = Ok a -> m ≫= f = f a.
Proof. intros ->. reflexivity. Qed.

Lemma fmap_Ok_inv {A B : Type} (m : result A) (f : A -> B) (r : B) :
  f <$> m = Ok r -> exists a, m = Ok a /\ f a = r.
Proof.
  destruct m as [a|e]; [|discriminate].
  intros H. injection H as H. exists a. split; [reflexivity|assumption].
Qed.

Ltac use_bind Ha := rewrite (bind_Ok _ _ _ Ha).

Tactic Notation "inv_bind" hyp(H) "as" ident(a) ident(Ha) :=
  apply bind_Ok_inv in H as (a & Ha & H).

(** ** The magnitude table *)

Lemma LARGE_entries (grade : Z) (large : string) :
  dc.LARGE !! grade = Some large ->
  (grade, large) ∈ [(2, " thousand"); (3, " million"); (4, " billion");
                     (5, " trillion"); (6, " quadrillion");
                     (7, " quintillion"); (8, " sextillion");
                     (9, " septillion")].
Proof. apply elem_of_list_to_map_2. Qed.

Lemma LARGE_defined (grade : Z) :
  2 <= grade <= 9 -> exists large, dc.LARGE !! grade = Some large.
Proof.
  intros H.
  assert (grade = 2 \/ grade = 3 \/ grade = 4 \/ grade = 5 \/ grade = 6
          \/ grade = 7 \/ grade = 8 \/ grade = 9) as Hg by lia.
  repeat destruct Hg as [->|Hg]; try subst grade; eexists; reflexivity.
Qed.

(** The words of two different grades differ, with or without the plural
    "s". *)
Lemma LARGE_distinct (g g' : Z) (l l' : string) :
  dc.LARGE !! g = Some l -> dc.LARGE !! g' = Some l' -> g <> g' ->
  l <> l' /\ l <> l' +:+ "s" /\ l +:+ "s" <> l' /\ l +:+ "s" <> l' +:+ "s".
Proof.
  intros H H' Hne.
  apply LARGE_entries in H. apply LARGE_entries in H'.
  repeat (apply elem_of_cons in H as [H|H]); try (apply elem_of_nil in H; contradiction);
  injection H as -> ->;
  repeat (apply elem_of_cons in H' as [H'|H']); try (apply elem_of_nil in H'; contradiction);
  injection H' as -> ->;
  try (exfalso; apply Hne; reflexivity);
  repeat split; vm_compute; discriminate.
Qed.

(** ** The "suffix already used" test *)

Lemma dict_get_Ok_inv {V : Type} (d : gmap Z V) (k : Z) (v : V) :
  Py.dict_get d k = Ok v -> d !! k = Some v.
Proof. unfold Py.dict_get. destruct (d !! k); [congruence|discriminate]. Qed.

Lemma list_get_Ok_inv {A : Type} (l : list A) (i : nat) (x : A) :
  Py.list_get l i = Ok x -> l !! i = Some x.
Proof. unfold Py.list_get. destruct (l !! i); [congruence|discriminate]. Qed.

(** On every state the loop reaches, neither form of the suffix of the
    current grade has been used: the membership test never blocks. *)
Lemma suffix_never_used (total index : nat) (additions : gset string)
    (large : string) :
  earlier_suffixes total index additions ->
  dc.LARGE !! (Z.of_nat total - Z.of_nat index) = Some large ->
  (large ∉ additions) /\ (large +:+ "s" ∉ additions).
Proof.
  intros Hinv Hl.
  split; intros Hin; destruct (Hinv _ Hin) as (g & l & Hg & Hx & Hlt);
    assert (Z.of_nat total - Z.of_nat index <> g) as Hne by lia;
    destruct (LARGE_distinct _ _ _ _ Hl Hg Hne) as (H1 & H2 & H3 & H4);
    destruct Hx; contradiction.
Qed.

Lemma choose_suffix_Ok_inv (grade : Z) (plural : bool) (suffix : string) :
  choose_suffix grade plural = Ok suffix ->
  exists large, dc.LARGE !! grade = Some large
                /\ suffix = (if negb plural || (grade =? 2) then large
                             else large +:+ "s").
Proof.
  unfold choose_suffix. destruct (negb plural || (grade =? 2)); intros H.
  - apply dict_get_Ok_inv in H. eauto.
  - inv_bind H as large Hl. apply dict_get_Ok_inv in Hl. injection H as <-. eauto.
Qed.

Lemma suffix_wanted_unguarded_eq (total index : nat) (additions : gset string)
    (groups : list string) (wanted : bool) :
  earlier_suffixes total index additions ->
  suffix_wanted additions (Z.of_nat total - Z.of_nat index) groups index
  = Ok wanted ->
  suffix_wanted_unguarded (Z.of_nat total - Z.of_nat index) groups index
  = Ok wanted.
Proof.
  intros Hinv. unfold suffix_wanted, suffix_wanted_unguarded.
  destruct (1 <? Z.of_nat total - Z.of_nat index); [|trivial].
  intros H. inv_bind H as large Hl. apply dict_get_Ok_inv in Hl.
  destruct (suffix_never_used _ _ _ _ Hinv Hl) as [Hs Hp].
  rewrite bool_decide_eq_true_2 in H by exact Hp.
  inv_bind H as large' Hl'. apply dict_get_Ok_inv in Hl'.
  assert (large' = large) as -> by congruence.
  rewrite bool_decide_eq_true_2 in H by exact Hs.
  exact H.
Qed.

Lemma suffix_step_unguarded_eq (total : nat) (groups : list string)
    (index : nat) (words words' : list string) (additions additions' : gset string) :
  earlier_suffixes total index additions ->
  suffix_step total groups (words, additions) index = Ok (words', additions') ->
  suffix_step_unguarded total groups (words, additions) index
  = Ok (words', additions')
  /\ earlier_suffixes total (S index) additions'.
Proof.
  intros Hinv H. unfold suffix_step in H. unfold suffix_step_unguarded.
  inv_bind H as group Hgroup. use_bind Hgroup.
  inv_bind H as value Hvalue. use_bind Hvalue.
  inv_bind H as wanted Hwanted.
  use_bind (suffix_wanted_unguarded_eq _ _ _ _ _ Hinv Hwanted).
  destruct wanted.
  - inv_bind H as suffix Hsuffix. use_bind Hsuffix.
    inv_bind H as word Hword. use_bind Hword.
    injection H as <- <-. split; [reflexivity|].
    apply choose_suffix_Ok_inv in Hsuffix as (large & Hl & Hs).
    intros x Hx. apply elem_of_union in Hx as [Hx|Hx].
    + apply elem_of_singleton in Hx. subst x.
      exists (Z.of_nat total - Z.of_nat index), large.
      split; [exact Hl|]. split; [|lia].
      rewrite Hs.
      destruct (negb (1 <? value) || (Z.of_nat total - Z.of_nat index =? 2)); auto.
    + destruct (Hinv x Hx) as (g & l & Hg & Hxl & Hlt).
      exists g, l. repeat split; [assumption..|lia].
  - injection H as <- <-. split; [reflexivity|].
    intros x Hx. destruct (Hinv x Hx) as (g & l & Hg & Hxl & Hlt).
    exists g, l. repeat split; [assumption..|lia].
Qed.

Lemma suffix_loop_unguarded_eq (total : nat) (groups : list string)
    (count start : nat) (words : list string) (additions : gset string)
    (final : list string * gset string) :
  earlier_suffixes total start additions ->
  foldM (suffix_step total groups) (seq start count) (words, additions)
  = Ok final ->
  foldM (suffix_step_unguarded total groups) (seq start count) (words, additions)
  = Ok final.
Proof.
  revert start words additions.
  induction count as [|count IH]; intros start words additions Hinv H.
  - exact H.
  - simpl in *. inv_bind H as st Ha. destruct st as [words1 additions1].
    destruct (suffix_step_unguarded_eq _ _ _ _ _ _ _ Hinv Ha) as [Hstep Hinv1].
    use_bind Hstep. apply IH; assumption.
Qed.

Lemma add_suffixes_unguarded_eq (words groups : list string)
    (final : list string * gset string) :
  add_suffixes words groups = Ok final ->
  add_suffixes_unguarded words groups = Ok final.
Proof.
  apply suffix_loop_unguarded_eq. intros x Hx.
  apply not_elem_of_empty in Hx. contradiction.
Qed.

Lemma _final_format_unguarded_eq (self : attrs) (words groups : list string)
    (text : string) :
  _final_format self words groups = Ok text ->
  _final_format_unguarded self words groups = Ok text.
Proof.
  unfold _final_format, _final_format_unguarded. intros H.
  inv_bind H as st Ha. use_bind (add_suffixes_unguarded_eq _ _ _ Ha). exact H.
Qed.

Lemma _read_number_unguarded_eq (self : attrs) (final : string * attrs) :
  _read_number self = Ok final -> _read_number_unguarded self = Ok final.
Proof.
  unfold _read_number, _read_number_unguarded. intros H.
  inv_bind H as value Hvalue. use_bind Hvalue.
  destruct (value =? 0); [exact H|].
  inv_bind H as value' Hvalue'. use_bind Hvalue'.
  inv_bind H as formatted Hformatted. use_bind Hformatted.
  inv_bind H as st Hwords. use_bind Hwords. destruct st as [words self'].
  inv_bind H as text Htext.
  use_bind (_final_format_unguarded_eq _ _ _ _ Htext). exact H.
Qed.

(** C10: the "suffix already used" test is dead code.  Whenever the
    conversion returns a text, the conversion whose formatter has the two
    membership tests removed returns the same text: the grades of one
    conversion are pairwise different, so are their suffixes, and the test
    never blocks one. *)
Theorem suffix_guard_is_dead_code (number : pyobj) (text : string) :
  convert number = Ok text -> convert_unguarded number = Ok text.
Proof.
  unfold convert, convert_unguarded, __init__. intros H.
  apply fmap_Ok_inv in H as (object & H & Htext).
  inv_bind H as validated Hvalid. use_bind Hvalid.
  inv_bind H as st Hread. destruct st as [text' self'].
  use_bind (_read_number_unguarded_eq _ _ Hread).
  injection H as <-. simpl in Htext. subst text'. reflexivity.
Qed.

Lemma suffix_guard_is_dead_code_witness :
  convert_unguarded (PyInt 2002002)
  = Ok "two millions, two thousand and two".
Proof.
  apply (suffix_guard_is_dead_code (PyInt 2002002)). vm_compute. reflexivity.
Defined.

(** ** Singular and plural suffixes *)

Lemma suffix_step_frame (total : nat) (groups : list string) (index : nat)
    (words words' : list string) (additions additions' : gset string) :
  suffix_step total groups (words, additions) index = Ok (words', additions') ->
  forall j, j <> index -> words' !! j = words !! j.
Proof.
  intros H j Hj. unfold suffix_step in H.
  inv_bind H as g Hg. inv_bind H as v Hv.
  inv_bind H as wanted Hwanted. destruct wanted.
  - inv_bind H as suffix Hsuffix. inv_bind H as w Hw. injection H as <- <-.
    apply list_lookup_insert_ne. congruence.
  - injection H as <- <-. reflexivity.
Qed.

Lemma suffix_step_rule (total : nat) (groups : list string) (index : nat)
    (words words' : list string) (additions additions' : gset string)
    (word group : string) (value : Z) :
  suffix_step total groups (words, additions) index = Ok (words', additions') ->
  earlier_suffixes total index additions ->
  words !! index = Some word ->
  groups !! index = Some group ->
  Py.int group = Ok value ->
  exists new_word, words' !! index = Some new_word
    /\ suffix_rule (Z.of_nat total - Z.of_nat index) word group value new_word.
Proof.
  intros H Hinv Hword Hgroup Hvalue. unfold suffix_step in H.
  inv_bind H as g Hg. apply list_get_Ok_inv in Hg.
  assert (g = group) as -> by congruence.
  inv_bind H as v Hv. assert (v = value) as -> by congruence.
  inv_bind H as wanted Hwanted.
  apply (suffix_wanted_unguarded_eq _ _ _ _ _ Hinv) in Hwanted.
  unfold suffix_wanted_unguarded in Hwanted.
  destruct (Z.ltb_spec 1 (Z.of_nat total - Z.of_nat index)) as [Hgrade|Hgrade].
  - inv_bind Hwanted as g' Hg'. apply list_get_Ok_inv in Hg'.
    assert (g' = group) as -> by congruence.
    apply fmap_Ok_inv in Hwanted as (zeros & Hzeros & <-).
    destruct zeros; simpl in H.
    + injection H as <- <-. exists word. split; [assumption|].
      split; [congruence | reflexivity].
    + inv_bind H as suffix Hsuffix.
      apply choose_suffix_Ok_inv in Hsuffix as (large & Hl & ->).
      inv_bind H as w Hw. apply list_get_Ok_inv in Hw.
      assert (w = word) as -> by congruence.
      injection H as <- <-. eexists. split.
      * apply list_lookup_insert_eq. apply lookup_lt_Some in Hword. exact Hword.
      * split; [|intros [?|?]; [lia|congruence]].
        intros _ _. exists large. split; [exact Hl|]. split.
        -- intros [Hv1 Hg2].
           apply Z.ltb_lt in Hv1. apply Z.eqb_neq in Hg2. rewrite Hv1, Hg2.
           reflexivity.
        -- intros Hnot.
           destruct (Z.ltb_spec 1 value) as [Hv1|Hv1]; [|reflexivity].
           destruct (Z.eqb_spec (Z.of_nat total - Z.of_nat index) 2) as [Hg2|Hg2];
             [reflexivity|]. exfalso. apply Hnot. split; assumption.
  - injection Hwanted as <-. injection H as <- <-. exists word.
    split; [assumption|]. split; [lia | reflexivity].
Qed.

Lemma suffix_loop_rule (total : nat) (groups : list string) (count start : nat)
    (words words' : list string) (additions additions' : gset string) :
  foldM (suffix_step total groups) (seq start count) (words, additions)
  = Ok (words', additions') ->
  earlier_suffixes total start additions ->
  forall index word group value,
    words !! index = Some word ->
    groups !! index = Some group ->
    Py.int group = Ok value ->
    exists new_word, words' !! index = Some new_word
      /\ ((start <= index < start + count)%nat ->
          suffix_rule (Z.of_nat total - Z.of_nat index) word group value new_word)
      /\ (~ (start <= index < start + count)%nat -> new_word = word).
Proof.
  revert start words additions.
  induction count as [|count IH];
    intros start words additions H Hinv index word group value Hw Hg Hv.
  - injection H as <- <-. exists word. split; [assumption|].
    split; [lia | reflexivity].
  - simpl in H. inv_bind H as st Ha. destruct st as [words1 additions1].
    destruct (suffix_step_unguarded_eq _ _ _ _ _ _ _ Hinv Ha) as [_ Hinv1].
    destruct (decide (index = start)) as [->|Hne].
    + destruct (suffix_step_rule _ _ _ _ _ _ _ _ _ _ Ha Hinv Hw Hg Hv)
        as (mid & Hmid & Hrule).
      destruct (IH _ _ _ H Hinv1 start mid group value Hmid Hg Hv)
        as (new_word & Hnew & _ & Hout).
      exists new_word. split; [assumption|].
      rewrite Hout by lia. split; [intros _; exact Hrule | lia].
    + assert (words1 !! index = Some word) as Hw1
        by (rewrite (suffix_step_frame _ _ _ _ _ _ _ Ha index Hne); exact Hw).
      destruct (IH _ _ _ H Hinv1 index word group value Hw1 Hg Hv)
        as (new_word & Hnew & Hin & Hout).
      exists new_word. split; [assumption|]. split.
      * intros Hrange. apply Hin. lia.
      * intros Hrange. apply Hout. lia.
Qed.

(** In the list the first loop of [_final_format] returns, the word of
    every group follows [suffix_rule], whatever the lists are. *)
Lemma add_suffixes_rule (words groups words' : list string) (index : nat)
    (word group : string) (value : Z) :
  fst <$> add_suffixes words groups = Ok words' ->
  words !! index = Some word ->
  groups !! index = Some group ->
  Py.int group = Ok value ->
  exists new_word, words' !! index = Some new_word
    /\ suffix_rule (Z.of_nat (length words) - Z.of_nat index)
                   word group value new_word.
Proof.
  intros H Hw Hg Hv.
  apply fmap_Ok_inv in H as ([words'' additions] & H & Hfst).
  simpl in Hfst. subst words''. unfold add_suffixes in H.
  assert (earlier_suffixes (length words) 0 ∅) as Hinv
    by (intros x Hx; apply not_elem_of_empty in Hx; contradiction).
  destruct (suffix_loop_rule _ _ _ _ _ _ _ _ H Hinv index word group value
              Hw Hg Hv) as (new_word & Hnew & Hin & _).
  exists new_word. split; [assumption|]. apply Hin.
  apply lookup_lt_Some in Hw. lia.
Qed.

(** ** Decimal digits *)

Lemma decimal_char_plain (c : ascii) : decimal_char c = true -> plain_char c = true.
Proof.
  destruct c as [[] [] [] [] [] [] [] []]; vm_compute; congruence.
Qed.

Lemma digit_char_val (d : Z) :
  0 <= d <= 9 -> Py.digit_val (Py.digit_char d) = Some d.
Proof.
  intros H.
  assert (d = 0 \/ d = 1 \/ d = 2 \/ d = 3 \/ d = 4 \/ d = 5 \/ d = 6
          \/ d = 7 \/ d = 8 \/ d = 9) as Hd by lia.
  repeat destruct Hd as [->|Hd]; try subst d; reflexivity.
Qed.

Lemma digit_char_decimal (d : Z) :
  0 <= d <= 9 -> decimal_char (Py.digit_char d) = true.
Proof. intros H. unfold decimal_char. rewrite digit_char_val by exact H. reflexivity. Qed.

Lemma all_chars_cons (p : ascii -> bool) (c : ascii) (s : string) :
  Py.all_chars p (String c s) = p c && Py.all_chars p s.
Proof. reflexivity. Qed.

Lemma all_chars_impl (p q : ascii -> bool) (s : string) :
  (forall c, p c = true -> q c = true) ->
  Py.all_chars p s = true -> Py.all_chars q s = true.
Proof.
  intros Hpq. induction s as [|c s IH]; [reflexivity|].
  rewrite !all_chars_cons, !andb_true_iff. intros [Hc Hs]. auto.
Qed.

(** ** [str] of a natural number *)

Lemma digits_go_decimal (fuel : nat) (n : Z) (acc : string) :
  0 <= n -> decimal_string acc = true ->
  decimal_string (Py.digits_go fuel n acc) = true.
Proof.
  revert n acc. induction fuel as [|fuel IH]; intros n acc Hn Hacc; simpl.
  - unfold decimal_string. rewrite all_chars_cons, digit_char_decimal.
    + exact Hacc.
    + pose proof (Z.mod_pos_bound n 10). lia.
  - assert (decimal_string (String (Py.digit_char (n mod 10)) acc) = true) as Hacc'.
    { unfold decimal_string. rewrite all_chars_cons, digit_char_decimal.
      - exact Hacc.
      - pose proof (Z.mod_pos_bound n 10). lia. }
    destruct (n <? 10); [exact Hacc'|].
    apply IH; [|exact Hacc'].
    apply Z.div_pos; lia.
Qed.

Lemma digits_go_length (fuel : nat) (n : Z) (acc : string) (k : nat) :
  0 <= n < 10 ^ Z.of_nat (S k) ->
  (String.length (Py.digits_go fuel n acc) <= S k + String.length acc)%nat.
Proof.
  revert n acc k. induction fuel as [|fuel IH]; intros n acc k Hn; simpl.
  - lia.
  - destruct (Z.ltb_spec n 10) as [Hlt|Hge]; simpl; [lia|].
    destruct k as [|k].
    + change (10 ^ Z.of_nat 1) with 10 in Hn. lia.
    + specialize (IH (n / 10) (String (Py.digit_char (n mod 10)) acc) k).
      simpl in IH. etransitivity; [apply IH|lia].
      split; [apply Z.div_pos; lia|].
      apply Z.div_lt_upper_bound; [lia|].
      rewrite <- Z.pow_succ_r by lia. rewrite <- Nat2Z.inj_succ. lia.
Qed.

Lemma digits_go_leading (fuel : nat) (n : Z) (acc : string) :
  0 < n < 10 ^ Z.of_nat (S fuel) ->
  exists d rest, 1 <= d <= 9
                 /\ Py.digits_go fuel n acc = String (Py.digit_char d) rest.
Proof.
  revert n acc. induction fuel as [|fuel IH]; intros n acc Hn; simpl.
  - change (10 ^ Z.of_nat 1) with 10 in Hn.
    exists (n mod 10), acc. rewrite Z.mod_small by lia. split; [lia|reflexivity].
  - destruct (Z.ltb_spec n 10) as [Hlt|Hge].
    + exists (n mod 10), acc. rewrite Z.mod_small by lia.
      split; [lia|reflexivity].
    + apply IH. split.
      * apply Z.div_str_pos. lia.
      * apply Z.div_lt_upper_bound; [lia|].
        rewrite <- Z.pow_succ_r by lia. rewrite <- Nat2Z.inj_succ. lia.
Qed.

Lemma int_digits_decimal_cons (a : Z) (c : ascii) (s : string) (d : Z) :
  Py.digit_val c = Some d ->
  Py.int_digits a (String c s) = Py.int_digits (a * 10 + d) s.
Proof.
  intros Hd. simpl.
  assert (plain_char c = true) as Hp
    by (apply decimal_char_plain; unfold decimal_char; rewrite Hd; reflexivity).
  unfold plain_char in Hp. rewrite !andb_true_iff, !negb_true_iff in Hp.
  destruct Hp as [[[[[[_ _] _] _] _] Hu] _].
  rewrite Hu, Hd. reflexivity.
Qed.

Lemma digits_go_O (n : Z) (acc : string) :
  Py.digits_go 0 n acc = String (Py.digit_char (n mod 10)) acc.
Proof. reflexivity. Qed.

Lemma digits_go_S (fuel : nat) (n : Z) (acc : string) :
  Py.digits_go (S fuel) n acc
  = if n <? 10 then String (Py.digit_char (n mod 10)) acc
    else Py.digits_go fuel (n / 10) (String (Py.digit_char (n mod 10)) acc).
Proof. reflexivity. Qed.

(** Reading back the digits written for [n]. *)
Lemma digits_go_value (fuel : nat) (n : Z) (acc : string) :
  0 <= n < 10 ^ Z.of_nat (S fuel) ->
  exists k : Z, 0 <= k /\ forall a,
    Py.int_digits a (Py.digits_go fuel n acc)
    = Py.int_digits (a * 10 ^ k + n) acc.
Proof.
  revert n acc. induction fuel as [|fuel IH]; intros n acc Hn.
  - change (10 ^ Z.of_nat 1) with 10 in Hn. exists 1. split; [lia|]. intros a.
    rewrite digits_go_O, (int_digits_decimal_cons _ _ _ (n mod 10)).
    + rewrite Z.mod_small by lia. rewrite Z.pow_1_r. reflexivity.
    + apply digit_char_val. rewrite Z.mod_small; lia.
  - rewrite digits_go_S. destruct (Z.ltb_spec n 10) as [Hlt|Hge].
    + exists 1. split; [lia|]. intros a.
      rewrite (int_digits_decimal_cons _ _ _ (n mod 10)).
      * rewrite Z.mod_small by lia. rewrite Z.pow_1_r. reflexivity.
      * apply digit_char_val. rewrite Z.mod_small; lia.
    + destruct (IH (n / 10) (String (Py.digit_char (n mod 10)) acc))
        as (k & Hk & Hval).
      { split; [apply Z.div_pos; lia|].
        apply Z.div_lt_upper_bound; [lia|].
        rewrite <- Z.pow_succ_r by lia. rewrite <- Nat2Z.inj_succ. lia. }
      exists (k + 1). split; [lia|]. intros a. rewrite Hval.
      rewrite (int_digits_decimal_cons _ _ _ (n mod 10)).
      * f_equal. rewrite Z.pow_add_r, Z.pow_1_r by lia.
        pose proof (Z.div_mod n 10). lia.
      * apply digit_char_val. pose proof (Z.mod_pos_bound n 10). lia.
Qed.

Lemma digits_fuel_suffices (n : Z) :
  0 <= n -> n < 10 ^ Z.of_nat (S (Z.to_nat (Z.log2 n))).
Proof.
  intros Hn. destruct (Z.eq_dec n 0) as [->|Hne]; [reflexivity|].
  pose proof (Z.log2_nonneg n) as Hlog.
  destruct (Z.log2_spec n) as [_ Hup]; [lia|].
  rewrite Nat2Z.inj_succ, Z2Nat.id by lia.
  eapply Z.lt_le_trans; [exact Hup|].
  apply Z.pow_le_mono_l. lia.
Qed.

Lemma digits_decimal (n : Z) : 0 <= n -> decimal_string (Py.digits n) = true.
Proof. intros Hn. apply digits_go_decimal; [exact Hn | reflexivity]. Qed.

Lemma digits_length (n : Z) (k : nat) :
  0 <= n < 10 ^ Z.of_nat (S k) -> (String.length (Py.digits n) <= S k)%nat.
Proof.
  intros Hn. unfold Py.digits.
  pose proof (digits_go_length (Z.to_nat (Z.log2 n)) n "" k Hn) as H.
  simpl in H. lia.
Qed.

Lemma digits_leading (n : Z) :
  0 < n ->
  exists d rest, 1 <= d <= 9 /\ Py.digits n = String (Py.digit_char d) rest.
Proof.
  intros Hn. apply digits_go_leading.
  split; [exact Hn | apply digits_fuel_suffices; lia].
Qed.

Lemma digits_nonempty (n : Z) :
  exists c rest, Py.digits n = String c rest.
Proof.
  unfold Py.digits. destruct (Z.to_nat (Z.log2 n)) as [|fuel].
  - rewrite digits_go_O. eauto.
  - rewrite digits_go_S. destruct (n <? 10); [eauto|].
    generalize (n / 10) (String (Py.digit_char (n mod 10)) "").
    induction fuel as [|fuel IH]; intros m acc.
    + rewrite digits_go_O. eauto.
    + rewrite digits_go_S. destruct (m <? 10); [eauto|]. apply IH.
Qed.

Lemma int_unsigned_digits (n : Z) :
  0 <= n -> Py.int_unsigned (Py.digits n) = Some n.
Proof.
  intros Hn.
  destruct (digits_go_value (Z.to_nat (Z.log2 n)) n "") as (k & Hk & Hval).
  { split; [exact Hn | apply digits_fuel_suffices; exact Hn]. }
  specialize (Hval 0). fold (Py.digits n) in Hval.
  pose proof (digits_decimal n Hn) as Hdec.
  destruct (digits_nonempty n) as (c & rest & Heq). rewrite Heq in *.
  unfold decimal_string in Hdec. rewrite all_chars_cons in Hdec.
  apply andb_true_iff in Hdec as [Hc _]. unfold decimal_char in Hc.
  unfold Py.int_unsigned. destruct (Py.digit_val c) as [d|] eqn:Hd; [|discriminate].
  rewrite (int_digits_decimal_cons _ _ _ d Hd) in Hval.
  rewrite Z.mul_0_l, Z.add_0_l in Hval. rewrite Hval. simpl. f_equal; lia.
Qed.

(** ** Stripping *)

Lemma lstrip_by_head (p : ascii -> bool) (c : ascii) (s : string) :
  p c = false -> Py.lstrip_by p (String c s) = String c s.
Proof. intros H. rewrite lstrip_by_cons, H. reflexivity. Qed.

Lemma rstrip_by_cons (p : ascii -> bool) (c : ascii) (s : string) :
  Py.rstrip_by p (String c s)
  = match Py.rstrip_by p s with
    | EmptyString => if p c then EmptyString else String c EmptyString
    | r => String c r
    end.
Proof. reflexivity. Qed.

Lemma rstrip_by_none (p : ascii -> bool) (s : string) :
  Py.all_chars (fun c => negb (p c)) s = true -> Py.rstrip_by p s = s.
Proof.
  induction s as [|c s IH]; [reflexivity|].
  rewrite all_chars_cons, andb_true_iff, negb_true_iff. intros [Hc Hs].
  rewrite rstrip_by_cons, IH by exact Hs.
  destruct s; [rewrite Hc|]; reflexivity.
Qed.

Lemma decimal_string_none (p : ascii -> bool) (s : string) :
  (forall c, plain_char c = true -> p c = false) ->
  decimal_string s = true ->
  Py.all_chars (fun c => negb (p c)) s = true.
Proof.
  intros Hp. apply all_chars_impl. intros c Hc.
  rewrite (Hp c (decimal_char_plain c Hc)). reflexivity.
Qed.

Lemma plain_char_not_isspace (c : ascii) : plain_char c = true -> Py.isspace c = false.
Proof.
  unfold plain_char. rewrite !andb_true_iff, !negb_true_iff. tauto.
Qed.

Lemma plain_char_not_int_space (c : ascii) :
  plain_char c = true -> Py.int_space c = false.
Proof.
  unfold plain_char. rewrite !andb_true_iff, !negb_true_iff. tauto.
Qed.

(** ** [int] of the validated value *)

Lemma int_digits_value (n : Z) : 0 <= n -> Py.int (Py.digits n) = Ok n.
Proof.
  intros Hn. unfold Py.int.
  pose proof (digits_decimal n Hn) as Hdec.
  pose proof (int_unsigned_digits n Hn) as Hvalue.
  destruct (digits_nonempty n) as (c & rest & Heq). rewrite Heq in *.
  assert (plain_char c = true) as Hc.
  { unfold decimal_string in Hdec. rewrite all_chars_cons in Hdec.
    apply andb_true_iff in Hdec as [Hc _]. apply decimal_char_plain. exact Hc. }
  rewrite lstrip_by_head by (apply plain_char_not_int_space; exact Hc).
  rewrite rstrip_by_none
    by (apply decimal_string_none; [apply plain_char_not_int_space | exact Hdec]).
  unfold plain_char in Hc. rewrite !andb_true_iff, !negb_true_iff in Hc.
  destruct Hc as [[[[[[_ _] _] Hm] Hp] _] _]. rewrite Hm, Hp, Hvalue.
  reflexivity.
Qed.

Lemma int_minus_digits_value (n : Z) :
  0 <= n -> Py.int (String "-" (Py.digits n)) = Ok (- n).
Proof.
  intros Hn. unfold Py.int.
  pose proof (digits_decimal n Hn) as Hdec.
  rewrite lstrip_by_head by reflexivity.
  rewrite rstrip_by_none.
  - rewrite bool_decide_eq_true_2 by reflexivity.
    rewrite int_unsigned_digits by exact Hn. reflexivity.
  - rewrite all_chars_cons. apply andb_true_iff. split; [reflexivity|].
    apply decimal_string_none; [apply plain_char_not_int_space | exact Hdec].
Qed.

(** ** Lists of results *)

Lemma mapM_result_app {A B : Type} (f : A -> result B) (l1 l2 : list A) :
  mapM f (l1 ++ l2)
  = (ys1 ← mapM f l1; ys2 ← mapM f l2; Ok (ys1 ++ ys2)).
Proof.
  induction l1 as [|x l1 IH]; simpl.
  - destruct (mapM f l2); reflexivity.
  - destruct (f x) as [y|e]; simpl; [|reflexivity].
    rewrite IH. destruct (mapM f l1) as [ys1|e]; simpl; [|reflexivity].
    destruct (mapM f l2); reflexivity.
Qed.

Lemma mapM_result_ext {A B : Type} (f g : A -> result B) (l : list A) :
  Forall (fun x => f x = g x) l -> mapM f l = mapM g l.
Proof.
  induction 1 as [|x l Hx _ IH]; simpl; [reflexivity|].
  rewrite Hx, IH. reflexivity.
Qed.

Lemma mapM_result_Ok {A B : Type} (f : A -> result B) (l : list A) :
  Forall (fun x => is_ok (f x) = true) l ->
  exists ys, mapM f l = Ok ys /\ length ys = length l.
Proof.
  induction 1 as [|x l Hx _ (ys & IH & Hlen)]; simpl.
  - exists []. split; reflexivity.
  - destruct (f x) as [y|e]; [|discriminate]. simpl. rewrite IH. simpl.
    exists (y :: ys). split; [reflexivity|]. simpl. rewrite Hlen. reflexivity.
Qed.

(** ** Grouping the digits *)

Lemma join_empty_cons (p : string) (l : list string) :
  Py.join "" (p :: l) = p +:+ Py.join "" l.
Proof.
  destruct l as [|y l]; simpl.
  - rewrite app_empty_r. reflexivity.
  - reflexivity.
Qed.

Lemma join_cons_cons (sep x y : string) (l : list string) :
  Py.join sep (x :: y :: l) = x +:+ sep +:+ Py.join sep (y :: l).
Proof. reflexivity. Qed.

Lemma join_head_cons (sep : string) (c : ascii) (g : string) (gs : list string) :
  Py.join sep (String c g :: gs) = String c (Py.join sep (g :: gs)).
Proof. destruct gs; reflexivity. Qed.

Lemma getitem_cons (c : ascii) (s : string) (i : Z) :
  0 < i -> Py.getitem (String c s) i = Py.getitem s (i - 1).
Proof.
  intros Hi. unfold Py.getitem, Py.len. simpl String.length.
  destruct (Z.ltb_spec i 0) as [?|_]; [lia|].
  destruct (Z.ltb_spec (i - 1) 0) as [?|_]; [lia|].
  replace ((0 <=? i) && (i <? Z.of_nat (S (String.length s))))
    with ((0 <=? i - 1) && (i - 1 <? Z.of_nat (String.length s)))
    by (destruct (Z.leb_spec 0 i), (Z.leb_spec 0 (i - 1)),
          (Z.ltb_spec i (Z.of_nat (S (String.length s)))),
          (Z.ltb_spec (i - 1) (Z.of_nat (String.length s))); simpl; lia).
  replace (Z.to_nat i) with (S (Z.to_nat (i - 1))) by lia.
  reflexivity.
Qed.

Lemma getitem_head (c : ascii) (s : string) : Py.getitem (String c s) 0 = Ok c.
Proof. unfold Py.getitem, Py.len. simpl. reflexivity. Qed.

Lemma format_piece_cons (c : ascii) (s : string) (digit : Z) :
  1 <= digit <= Py.len s ->
  format_piece (String c s) digit = format_piece s digit.
Proof.
  intros Hd. unfold format_piece.
  replace (Py.len (String c s)) with (Py.len s + 1)
    by (unfold Py.len; simpl String.length; lia).
  rewrite getitem_cons by lia.
  replace (Py.len s + 1 - digit - 1) with (Py.len s - digit) by lia.
  reflexivity.
Qed.

(** One more digit in front adds one piece in front. *)
Lemma _format_number_string_cons (c : ascii) (s formatted : string) :
  _format_number_string s = Ok formatted ->
  _format_number_string (String c s)
  = Ok ((if (Py.len s + 1) mod 3 =? 0 then String " " (String c "")
         else String c "") +:+ formatted).
Proof.
  unfold _format_number_string. intros H.
  inv_bind H as pieces Hpieces. injection H as <-.
  replace (Py.len (String c s)) with (Z.of_nat (S (String.length s)))
    by reflexivity.
  rewrite seqZ_S, mapM_result_app.
  rewrite (mapM_result_ext (format_piece (String c s)) (format_piece s)
             (seqZ 1 (Z.of_nat (String.length s)))).
  - fold (Py.len s). use_bind Hpieces. simpl mapM.
    unfold format_piece at 1.
    replace (Py.len (String c s) - (1 + Py.len s)) with 0
      by (unfold Py.len; simpl String.length; lia).
    rewrite getitem_head. simpl.
    rewrite reverse_app, reverse_singleton. cbn [app]. rewrite join_empty_cons.
    replace (1 + Py.len s) with (Py.len s + 1) by lia. reflexivity.
  - apply Forall_forall. intros digit Hin.
    apply elem_of_seqZ in Hin. apply format_piece_cons.
    unfold Py.len. lia.
Qed.

Lemma groups_of_cons (c : ascii) (rest : string) :
  groups_of (String c rest)
  = if (String.length rest mod 3 =? 0)%nat then String c "" :: groups_of rest
    else match groups_of rest with
         | g :: gs => String c g :: gs
         | [] => [String c ""]
         end.
Proof. reflexivity. Qed.

Lemma groups_of_nonempty (c : ascii) (s : string) : groups_of (String c s) <> [].
Proof.
  rewrite groups_of_cons.
  destruct (String.length s mod 3 =? 0)%nat; [discriminate|].
  destruct (groups_of s); discriminate.
Qed.

Lemma leading_blank_cons (c : ascii) (s : string) :
  leading_blank (String c s)
  = if (S (String.length s) mod 3 =? 0)%nat then " " else "".
Proof.
  unfold leading_blank.
  change (String.length (String c s)) with (S (String.length s)).
  rewrite bool_decide_eq_false_2 by discriminate. rewrite andb_true_r.
  reflexivity.
Qed.

Lemma leading_blank_full (c : ascii) (s : string) :
  (String.length (String c s) mod 3)%nat = 0%nat ->
  leading_blank (String c s) = " ".
Proof.
  intros H. unfold leading_blank.
  rewrite (proj2 (Nat.eqb_eq _ _) H), bool_decide_eq_false_2 by discriminate.
  reflexivity.
Qed.

Lemma leading_blank_partial (s : string) :
  (String.length s mod 3)%nat <> 0%nat -> leading_blank s = "".
Proof.
  intros H. unfold leading_blank.
  rewrite (proj2 (Nat.eqb_neq _ _) H). reflexivity.
Qed.

(** The formatted string: the groups separated by single blanks, behind a
    blank when the first group is full. *)
Lemma _format_number_string_groups (s : string) :
  _format_number_string s
  = Ok (leading_blank s +:+ Py.join " " (groups_of s)).
Proof.
  induction s as [|c s IH]; [reflexivity|].
  rewrite (_format_number_string_cons _ _ _ IH). f_equal.
  rewrite groups_of_cons, leading_blank_cons.
  replace ((Py.len s + 1) mod 3 =? 0) with (S (String.length s) mod 3 =? 0)%nat
    by (unfold Py.len;
        destruct (Nat.eqb_spec (S (String.length s) mod 3) 0),
          (Z.eqb_spec ((Z.of_nat (String.length s) + 1) mod 3) 0);
        [reflexivity | lia | lia | reflexivity]).
  destruct (Nat.eqb_spec (String.length s mod 3) 0) as [H0|H0].
  - assert ((S (String.length s) mod 3 =? 0)%nat = false) as ->
      by (apply Nat.eqb_neq; lia).
    destruct s as [|c' s']; [reflexivity|].
    rewrite (leading_blank_full _ _ H0).
    pose proof (groups_of_nonempty c' s') as Hne.
    destruct (groups_of (String c' s')) as [|g gs]; [contradiction|].
    rewrite join_cons_cons. reflexivity.
  - rewrite (leading_blank_partial _ H0).
    assert (s <> "") as Hs by (intros ->; apply H0; reflexivity).
    destruct s as [|c' s']; [contradiction|]. clear Hs.
    pose proof (groups_of_nonempty c' s') as Hne.
    destruct (groups_of (String c' s')) as [|g gs]; [contradiction|].
    rewrite join_head_cons.
    destruct (S (String.length (String c' s')) mod 3 =? 0)%nat; reflexivity.
Qed.

Lemma groups_of_decimal (s : string) :
  decimal_string s = true ->
  Forall (fun g => decimal_string g = true) (groups_of s).
Proof.
  induction s as [|c s IH]; [constructor|].
  unfold decimal_string in *. rewrite all_chars_cons, andb_true_iff.
  intros [Hc Hs]. specialize (IH Hs). rewrite groups_of_cons.
  destruct (String.length s mod 3 =? 0)%nat.
  - constructor; [|exact IH]. rewrite all_chars_cons, Hc. reflexivity.
  - destruct (groups_of s) as [|g gs].
    + constructor; [|constructor]. rewrite all_chars_cons, Hc. reflexivity.
    + inversion IH as [|? ? Hg Hgs]; subst. constructor; [|exact Hgs].
      rewrite all_chars_cons, Hc. exact Hg.
Qed.

(** The first group starts with the first digit and holds the digits left
    over by the full groups of three behind it. *)
Lemma groups_of_shape (s : string) (c : ascii) :
  exists g gs,
    groups_of (String c s) = String c g :: gs
    /\ String.length (String c g) = (String.length s mod 3 + 1)%nat
    /\ Forall (fun x => String.length x = 3%nat) gs
    /\ S (String.length s) = (String.length (String c g) + 3 * length gs)%nat.
Proof.
  revert c. induction s as [|c' s IH]; intros c.
  - exists "", []. repeat split. constructor.
  - destruct (IH c') as (g & gs & Heq & Hlen & Hfull & Htotal).
    rewrite groups_of_cons, Heq.
    change (String.length (String c' s)) with (S (String.length s)) in *.
    change (String.length (String c (String c' g)))
      with (S (String.length (String c' g))).
    destruct (Nat.eqb_spec (S (String.length s) mod 3) 0) as [H0|H0].
    + exists "", (String c' g :: gs). split; [reflexivity|].
      cbn [String.length length] in *.
      split; [lia|].
      split; [constructor; [cbn [String.length]; lia|exact Hfull]|]. lia.
    + exists (String c' g), gs. split; [reflexivity|].
      cbn [String.length length] in *.
      split; [lia|]. split; [exact Hfull|]. lia.
Qed.

Lemma good_group_full (g : string) :
  decimal_string g = true -> String.length g = 3%nat -> good_group g = true.
Proof.
  intros Hd Hl. unfold good_group. rewrite Hd.
  destruct g as [|c g']; [discriminate|]. rewrite Hl. reflexivity.
Qed.

(** The groups of a number of at most 27 digits without a leading zero: at
    most nine, all of them good. *)
Lemma groups_of_good (c : ascii) (s : string) :
  decimal_string (String c s) = true ->
  c <> "0"%char ->
  (String.length (String c s) <= 27)%nat ->
  Forall (fun g => good_group g = true) (groups_of (String c s))
  /\ (1 <= length (groups_of (String c s)) <= 9)%nat.
Proof.
  intros Hdec Hc Hlen.
  pose proof (groups_of_decimal _ Hdec) as Hall.
  destruct (groups_of_shape s c) as (g & gs & Heq & Hfirst & Hfull & Htotal).
  rewrite Heq in *. simpl String.length in Hlen. simpl length.
  inversion Hall as [|? ? Hg Hgs]; subst. split; [|lia].
  constructor.
  - unfold good_group. rewrite Hg. rewrite Hfirst.
    rewrite (bool_decide_eq_false_2 _ Hc).
    change (negb false) with true. rewrite andb_true_r, andb_true_l.
    destruct (Nat.eqb_spec (String.length s mod 3 + 1) 3);
      [reflexivity|]. rewrite orb_false_l. apply Nat.ltb_lt. lia.
  - apply Forall_forall. intros x Hx.
    rewrite Forall_forall in Hgs, Hfull.
    apply good_group_full; auto.
Qed.

Lemma good_group_decimal (g : string) :
  good_group g = true -> decimal_string g = true /\ g <> "".
Proof.
  unfold good_group. rewrite andb_true_iff. intros [Hd Hg].
  split; [exact Hd|]. intros ->. discriminate.
Qed.

(** ** Splitting what was joined *)

Lemma rstrip_by_app_nonempty (p : ascii -> bool) (a b : string) :
  Py.rstrip_by p b <> "" -> Py.rstrip_by p (a +:+ b) = a +:+ Py.rstrip_by p b.
Proof.
  intros Hb. induction a as [|x a IH]; [reflexivity|].
  rewrite !app_cons, rstrip_by_cons, IH.
  destruct (a +:+ Py.rstrip_by p b) eqn:Heq; [|reflexivity].
  exfalso. destruct a; [rewrite app_empty_l in Heq; contradiction|].
  rewrite app_cons in Heq. discriminate.
Qed.

Lemma join_nonempty (sep g : string) (gs : list string) :
  g <> "" -> Py.join sep (g :: gs) <> "".
Proof.
  destruct g as [|c g]; [contradiction|]. intros _.
  rewrite join_head_cons. discriminate.
Qed.

Lemma rstrip_by_join (p : ascii -> bool) (sep : string) (gs : list string) :
  words_without p gs -> Py.rstrip_by p (Py.join sep gs) = Py.join sep gs.
Proof.
  induction 1 as [|g gs [Hne Hg] Hgs IH]; [reflexivity|].
  destruct gs as [|g2 gs].
  - apply rstrip_by_none. exact Hg.
  - rewrite join_cons_cons, <- app_assoc_str.
    inversion Hgs as [|? ? [Hne2 _] _]; subst.
    rewrite rstrip_by_app_nonempty; rewrite IH; [reflexivity|].
    apply join_nonempty. exact Hne2.
Qed.

Lemma split_on_cons (sep c : ascii) (s : string) :
  Py.split_on sep (String c s)
  = if bool_decide (c = sep) then "" :: Py.split_on sep s
    else match Py.split_on sep s with
         | h :: t => String c h :: t
         | [] => [String c ""]
         end.
Proof. reflexivity. Qed.

Lemma split_on_word (sep : ascii) (g : string) :
  Py.all_chars (fun c => negb (bool_decide (c = sep))) g = true ->
  Py.split_on sep g = [g].
Proof.
  induction g as [|c g IH]; [reflexivity|].
  rewrite all_chars_cons, andb_true_iff, negb_true_iff. intros [Hc Hg].
  rewrite split_on_cons, Hc, IH by exact Hg. reflexivity.
Qed.

Lemma split_on_app (sep : ascii) (g rest : string) :
  Py.all_chars (fun c => negb (bool_decide (c = sep))) g = true ->
  Py.split_on sep (g +:+ String sep rest) = g :: Py.split_on sep rest.
Proof.
  induction g as [|c g IH].
  - intros _. rewrite app_empty_l, split_on_cons.
    rewrite bool_decide_eq_true_2 by reflexivity. reflexivity.
  - rewrite all_chars_cons, andb_true_iff, negb_true_iff. intros [Hc Hg].
    rewrite app_cons, split_on_cons, Hc, IH by exact Hg. reflexivity.
Qed.

Lemma split_on_join (sep : ascii) (g : string) (gs : list string) :
  Forall (fun x => Py.all_chars (fun c => negb (bool_decide (c = sep))) x = true)
         (g :: gs) ->
  Py.split_on sep (Py.join (String sep "") (g :: gs)) = g :: gs.
Proof.
  revert g. induction gs as [|g2 gs IH]; intros g Hall.
  - inversion Hall; subst. apply split_on_word. assumption.
  - inversion Hall as [|? ? Hg Hrest]; subst.
    rewrite join_cons_cons.
    change (String sep "" +:+ Py.join (String sep "") (g2 :: gs))
      with (String sep (Py.join (String sep "") (g2 :: gs))).
    rewrite split_on_app by exact Hg. rewrite IH by exact Hrest. reflexivity.
Qed.

Lemma split_cons (c : ascii) (s : string) :
  Py.split (String c s)
  = if Py.isspace c then Py.split s
    else match s with
         | EmptyString => [String c ""]
         | String c' _ =>
             if Py.isspace c' then String c "" :: Py.split s
             else match Py.split s with
                  | h :: t => String c h :: t
                  | [] => [String c ""]
                  end
         end.
Proof. reflexivity. Qed.

Lemma split_word (g : string) :
  g <> "" -> Py.all_chars (fun c => negb (Py.isspace c)) g = true ->
  Py.split g = [g].
Proof.
  induction g as [|c g IH]; [contradiction|]. intros _.
  rewrite all_chars_cons, andb_true_iff, negb_true_iff. intros [Hc Hg].
  rewrite split_cons, Hc. destruct g as [|c' g']; [reflexivity|].
  pose proof Hg as Hg'. rewrite all_chars_cons, andb_true_iff, negb_true_iff in Hg'.
  destruct Hg' as [Hc' _]. rewrite Hc'. rewrite IH; [reflexivity|discriminate|exact Hg].
Qed.

Lemma split_word_app (g rest : string) (sep : ascii) :
  g <> "" -> Py.all_chars (fun c => negb (Py.isspace c)) g = true ->
  Py.isspace sep = true ->
  Py.split (g +:+ String sep rest) = g :: Py.split rest.
Proof.
  intros Hne Hg Hsep. induction g as [|c g IH]; [contradiction|].
  rewrite all_chars_cons, andb_true_iff, negb_true_iff in Hg.
  destruct Hg as [Hc Hg]. rewrite app_cons, split_cons, Hc.
  destruct g as [|c' g'].
  - rewrite app_empty_l, Hsep, split_cons, Hsep. reflexivity.
  - pose proof Hg as Hg'.
    rewrite all_chars_cons, andb_true_iff, negb_true_iff in Hg'.
    destruct Hg' as [Hc' _]. rewrite app_cons, Hc'. rewrite <- app_cons.
    rewrite IH; [reflexivity|discriminate|exact Hg].
Qed.

Lemma split_join (gs : list string) :
  words_without Py.isspace gs -> Py.split (Py.join " " gs) = gs.
Proof.
  induction 1 as [|g gs [Hne Hg] Hgs IH]; [reflexivity|].
  destruct gs as [|g2 gs].
  - apply split_word; assumption.
  - rewrite join_cons_cons.
    change (" " +:+ Py.join " " (g2 :: gs))
      with (String " " (Py.join " " (g2 :: gs))).
    rewrite split_word_app; [|assumption|assumption|reflexivity].
    rewrite IH. reflexivity.
Qed.

(** ** The phrase of one group *)

Lemma decimal_char_cases (c : ascii) :
  decimal_char c = true -> In c decimal_chars.
Proof.
  destruct c as [[] [] [] [] [] [] [] []]; vm_compute; intros H;
    try discriminate; tauto.
Qed.

Lemma groups_checked_true : groups_checked = true.
Proof. vm_compute. reflexivity. Qed.

Lemma good_group_ok (g : string) : good_group g = true -> group_ok g = true.
Proof.
  unfold good_group, decimal_string. intros H.
  apply andb_true_iff in H as [Hdec Hshape].
  pose proof groups_checked_true as Hall. unfold groups_checked in Hall.
  rewrite forallb_forall in Hall.
  destruct g as [|a g]; [discriminate|].
  rewrite all_chars_cons in Hdec. apply andb_true_iff in Hdec as [Ha Hdec].
  specialize (Hall a (decimal_char_cases a Ha)).
  apply andb_true_iff in Hall as [H1 Hall]. rewrite forallb_forall in Hall.
  destruct g as [|b g].
  - cbn [String.length] in Hshape.
    change (1 =? 3)%nat with false in Hshape.
    change (1 <? 3)%nat with true in Hshape.
    rewrite orb_false_l, andb_true_l, negb_true_iff in Hshape.
    rewrite Hshape in H1. exact H1.
  - rewrite all_chars_cons in Hdec. apply andb_true_iff in Hdec as [Hb Hdec].
    specialize (Hall b (decimal_char_cases b Hb)).
    apply andb_true_iff in Hall as [H2 Hall]. rewrite forallb_forall in Hall.
    destruct g as [|c g].
    + cbn [String.length] in Hshape.
      change (2 =? 3)%nat with false in Hshape.
      change (2 <? 3)%nat with true in Hshape.
      rewrite orb_false_l, andb_true_l, negb_true_iff in Hshape.
      rewrite Hshape in H2. exact H2.
    + rewrite all_chars_cons in Hdec. apply andb_true_iff in Hdec as [Hc Hdec].
      specialize (Hall c (decimal_char_cases c Hc)).
      destruct g as [|d g]; [exact Hall|].
      exfalso. cbn [String.length] in Hshape.
      apply orb_true_iff in Hshape as [Hshape|Hshape].
      * apply Nat.eqb_eq in Hshape. lia.
      * apply andb_true_iff in Hshape as [Hshape _].
        apply Nat.ltb_lt in Hshape. lia.
Qed.

(** ** The cache *)

(** The loop of [_create_text_from_number] computes what [_format_digits]
    gives for each substring in turn: a cached phrase is the one an
    uncached computation returns. *)
Lemma create_text_loop (temp_result : list string) (count start : nat)
    (collected : list string) (self : attrs) :
  cache_sound (_cached_values self) ->
  (start + count <= length temp_result)%nat ->
  match mapM _format_digits (take count (drop start temp_result)) with
  | Ok texts =>
      exists self',
        foldM (create_text_step temp_result) (seq start count) (collected, self)
        = Ok (collected ++ texts, self')
        /\ is_negative_number self' = is_negative_number self
        /\ cache_sound (_cached_values self')
  | Raise e =>
      foldM (create_text_step temp_result) (seq start count) (collected, self)
      = Raise e
  end.
Proof.
  revert start collected self.
  induction count as [|count IH]; intros start collected self Hsound Hlen.
  - simpl. exists self. rewrite app_nil_r. repeat split. exact Hsound.
  - destruct (lookup_lt_is_Some_2 temp_result start) as [key Hkey]; [lia|].
    rewrite (drop_S _ _ _ Hkey).
    change (mapM _format_digits (take (S count) (key :: drop (S start) temp_result)))
      with (y ← _format_digits key;
            k ← mapM _format_digits (take count (drop (S start) temp_result));
            Ok (y :: k)).
    change (foldM (create_text_step temp_result) (seq start (S count))
              (collected, self))
      with (st ← create_text_step temp_result (collected, self) start;
            foldM (create_text_step temp_result) (seq (S start) count) st).
    assert (create_text_step temp_result (collected, self) start
            = match _cached_values self !! key with
              | Some cached => Ok (collected ++ [cached], self)
              | None =>
                  text_from_digits ← _format_digits key;
                  Ok (collected ++ [text_from_digits],
                      set_cached_value key text_from_digits self)
              end) as ->
      by (unfold create_text_step, Py.list_get; rewrite Hkey; reflexivity).
    destruct (_cached_values self !! key) as [cached|] eqn:Hcache.
    + rewrite (Hsound _ _ Hcache). cbn [mbind result_bind].
      specialize (IH (S start) (collected ++ [cached]) self Hsound).
      destruct (mapM _format_digits (take count (drop (S start) temp_result)))
        as [texts|e]; cbn [mbind result_bind].
      * destruct IH as (self' & Hfold & Hneg & Hsound'); [lia|].
        exists self'. rewrite <- app_assoc in Hfold. auto.
      * apply IH. lia.
    + destruct (_format_digits key) as [text|e] eqn:Htext;
        cbn [mbind result_bind]; [|reflexivity].
      specialize (IH (S start) (collected ++ [text])
                    (set_cached_value key text self)).
      destruct (mapM _format_digits (take count (drop (S start) temp_result)))
        as [texts|e]; cbn [mbind result_bind].
      * destruct IH as (self' & Hfold & Hneg & Hsound').
        { intros k v. simpl. rewrite lookup_insert. case_decide.
          - intros Hv. injection Hv as <-. subst k. exact Htext.
          - apply Hsound. }
        { lia. }
        exists self'. rewrite <- app_assoc in Hfold. auto.
      * apply IH; [|lia].
        intros k v. simpl. rewrite lookup_insert. case_decide.
        -- intros Hv. injection Hv as <-. subst k. exact Htext.
        -- apply Hsound.
Qed.

Lemma _create_text_from_number_Ok (self : attrs) (number_text : string)
    (texts : list string) :
  cache_sound (_cached_values self) ->
  mapM _format_digits (Py.split_on " " number_text) = Ok texts ->
  exists self',
    _create_text_from_number self number_text = Ok (texts, self')
    /\ is_negative_number self' = is_negative_number self.
Proof.
  intros Hsound Htexts. unfold _create_text_from_number.
  pose proof (create_text_loop (Py.split_on " " number_text)
                (length (Py.split_on " " number_text)) 0 [] self Hsound) as H.
  rewrite drop_0, take_ge, Htexts in H by lia.
  destruct H as (self' & Hfold & Hneg & _); [lia|].
  exists self'. split; assumption.
Qed.

(** ** The conversion returns *)

Lemma group_ok_inv (g : string) :
  group_ok g = true ->
  (exists text, _format_digits g = Ok text)
  /\ (exists value, Py.int g = Ok value)
  /\ (exists zeros, _all_digits_are_zeros g = Ok zeros).
Proof.
  unfold group_ok. rewrite !andb_true_iff. intros [[H1 H2] H3].
  destruct (_format_digits g); [|discriminate].
  destruct (Py.int g); [|discriminate].
  destruct (_all_digits_are_zeros g); [|discriminate].
  repeat split; eexists; reflexivity.
Qed.

Lemma suffix_step_Ok (total : nat) (groups words : list string)
    (additions : gset string) (index : nat) :
  (index < total <= 9)%nat ->
  length words = total ->
  length groups = total ->
  Forall (fun g => group_ok g = true) groups ->
  exists words' additions',
    suffix_step total groups (words, additions) index = Ok (words', additions')
    /\ length words' = total.
Proof.
  intros Hindex Hwords Hgroups Hok. unfold suffix_step.
  destruct (lookup_lt_is_Some_2 groups index) as [group Hgroup]; [lia|].
  destruct (lookup_lt_is_Some_2 words index) as [word Hword]; [lia|].
  rewrite Forall_forall in Hok.
  destruct (group_ok_inv group) as (_ & [value Hvalue] & [zeros Hzeros]).
  { apply Hok. eapply list_elem_of_lookup_2. exact Hgroup. }
  unfold suffix_wanted, choose_suffix, Py.list_get. rewrite Hgroup, Hword.
  cbn [mbind result_bind]. rewrite Hvalue, Hzeros. cbn [mbind result_bind].
  destruct (Z.ltb_spec 1 (Z.of_nat total - Z.of_nat index)) as [Hgrade|Hgrade].
  - destruct (LARGE_defined (Z.of_nat total - Z.of_nat index)) as [large Hlarge];
      [lia|].
    unfold Py.dict_get. rewrite Hlarge. cbn [mbind result_bind].
    destruct (bool_decide (large +:+ "s" ∉ additions)),
      (bool_decide (large ∉ additions)), zeros;
      cbn [mbind result_bind fmap result_fmap negb];
      try (exists words, additions; split; [reflexivity|assumption]);
      destruct (negb (1 <? value) || (Z.of_nat total - Z.of_nat index =? 2));
      cbn [mbind result_bind];
      eexists _, _; (split; [reflexivity|]); rewrite length_insert; assumption.
  - cbn [mbind result_bind]. exists words, additions.
    split; [reflexivity|assumption].
Qed.

Lemma suffix_loop_Ok (total : nat) (groups : list string) (count start : nat)
    (words : list string) (additions : gset string) :
  (start + count <= total <= 9)%nat ->
  length words = total ->
  length groups = total ->
  Forall (fun g => group_ok g = true) groups ->
  exists final,
    foldM (suffix_step total groups) (seq start count) (words, additions)
    = Ok final.
Proof.
  revert start words additions.
  induction count as [|count IH]; intros start words additions Hrange Hw Hg Hok.
  - eexists. reflexivity.
  - destruct (suffix_step_Ok total groups words additions start)
      as (words' & additions' & Hstep & Hlen); [lia|assumption..|].
    cbn [seq foldM]. use_bind Hstep. apply IH; [lia|assumption..].
Qed.

Lemma add_suffixes_Ok (words groups : list string) :
  length words = length groups ->
  (length groups <= 9)%nat ->
  Forall (fun g => group_ok g = true) groups ->
  exists words' additions, add_suffixes words groups = Ok (words', additions).
Proof.
  intros Hlen Hnine Hok. unfold add_suffixes.
  destruct (suffix_loop_Ok (length words) groups (length words) 0 words ∅)
    as ([words' additions] & H); [lia|reflexivity|congruence|assumption|].
  eauto.
Qed.

Lemma join_words_negative (self self' : attrs) (words : list string) :
  is_negative_number self = true ->
  is_negative_number self' = false ->
  join_words self words = dc.MINUS +:+ ", " +:+ join_words self' words.
Proof. unfold join_words. intros -> ->. reflexivity. Qed.

Lemma good_groups_words (gs : list string) (p : ascii -> bool) :
  (forall c, plain_char c = true -> p c = false) ->
  Forall (fun g => good_group g = true) gs -> words_without p gs.
Proof.
  intros Hp Hgs. eapply Forall_impl; [exact Hgs|]. intros g Hg.
  destruct (good_group_decimal g Hg) as [Hdec Hne].
  split; [exact Hne|]. apply decimal_string_none; assumption.
Qed.

Lemma plain_char_not (x c : ascii) :
  plain_char x = false -> plain_char c = true -> bool_decide (c = x) = false.
Proof. intros Hx Hc. apply bool_decide_eq_false_2. intros ->. congruence. Qed.

(** What [_read_number] does with the digits [c s] of a number without
    leading zeros, behind an optional sign. *)
Lemma _read_number_groups (value : string) (v : Z) (c : ascii) (s : string)
    (texts words : list string) (additions : gset string) :
  Py.int value = Ok v ->
  v <> 0 ->
  Py.lstrip_chars "-" value = String c s ->
  Forall (fun g => good_group g = true) (groups_of (String c s)) ->
  mapM _format_digits (groups_of (String c s)) = Ok texts ->
  add_suffixes texts (groups_of (String c s)) = Ok (words, additions) ->
  exists self',
    _read_number (Attrs value None false ∅) = Ok (join_words self' words, self')
    /\ is_negative_number self' = (v <? 0).
Proof.
  intros Hint Hv Hstrip Hgood Htexts Hwords.
  pose proof (groups_of_nonempty c s) as Hne.
  destruct (groups_of (String c s)) as [|g gs] eqn:Hgroups; [contradiction|].
  clear Hne.
  assert (Py.strip_chars " " (leading_blank (String c s) +:+ Py.join " " (g :: gs))
          = Py.join " " (g :: gs)) as Hstripped.
  { unfold Py.strip_chars.
    assert (Py.lstrip_by (Py.in_chars " ")
              (leading_blank (String c s) +:+ Py.join " " (g :: gs))
            = Py.join " " (g :: gs)) as ->.
    { inversion Hgood as [|? ? Hg _]; subst.
      destruct (good_group_decimal g Hg) as [Hdec Hgne].
      destruct g as [|c' g']; [contradiction|].
      unfold decimal_string in Hdec. rewrite all_chars_cons in Hdec.
      apply andb_true_iff in Hdec as [Hc' _].
      apply decimal_char_plain in Hc'.
      rewrite join_head_cons. unfold leading_blank.
      destruct ((String.length (String c s) mod 3 =? 0)%nat
                && negb (bool_decide (String c s = ""))).
      - change (" " +:+ ?x) with (String " " x).
        rewrite lstrip_by_cons. change (Py.in_chars " " " ") with true.
        cbn iota. apply lstrip_by_head. rewrite in_chars_single.
        apply plain_char_not; [reflexivity|exact Hc'].
      - rewrite app_empty_l. apply lstrip_by_head. rewrite in_chars_single.
        apply plain_char_not; [reflexivity|exact Hc']. }
    apply rstrip_by_join. apply good_groups_words; [|exact Hgood].
    intros x Hx. rewrite in_chars_single.
    apply plain_char_not; [reflexivity|exact Hx]. }
  assert (Py.lstrip_chars "-" (Py.join " " (g :: gs)) = Py.join " " (g :: gs))
    as Hunsigned.
  { inversion Hgood as [|? ? Hg _]; subst.
    destruct (good_group_decimal g Hg) as [Hdec Hgne].
    destruct g as [|c' g']; [contradiction|].
    unfold decimal_string in Hdec. rewrite all_chars_cons in Hdec.
    apply andb_true_iff in Hdec as [Hc' _]. apply decimal_char_plain in Hc'.
    rewrite join_head_cons. unfold Py.lstrip_chars. apply lstrip_by_head.
    rewrite in_chars_single. apply plain_char_not; [reflexivity|exact Hc']. }
  assert (Py.split_on " " (Py.join " " (g :: gs)) = g :: gs) as Hsplit_on.
  { apply split_on_join.
    eapply Forall_impl;
      [apply (good_groups_words _ (fun x => bool_decide (x = " "%char)));
         [|exact Hgood];
       intros x Hx; apply plain_char_not; [reflexivity|exact Hx]
      |intros x [_ Hx]; exact Hx]. }
  assert (Py.split (Py.join " " (g :: gs)) = g :: gs) as Hsplit.
  { apply split_join. apply good_groups_words; [|exact Hgood].
    apply plain_char_not_isspace. }
  unfold _read_number. cbn [numerical_value].
  use_bind Hint. rewrite (proj2 (Z.eqb_neq v 0) Hv). use_bind Hint.
  set (self1 := if v <? 0 then set_is_negative_number true (Attrs value None false ∅)
                else Attrs value None false ∅).
  assert (numerical_value self1 = value) as Hnv
    by (unfold self1; destruct (v <? 0); reflexivity).
  assert (is_negative_number self1 = (v <? 0)) as Hneg1
    by (unfold self1; destruct (v <? 0); reflexivity).
  rewrite Hnv, Hstrip, _format_number_string_groups, Hgroups.
  cbn [mbind result_bind]. rewrite Hstripped.
  set (split_value := if is_negative_number self1
                      then "-" +:+ Py.join " " (g :: gs)
                      else Py.join " " (g :: gs)).
  assert (Py.lstrip_chars "-" split_value = Py.join " " (g :: gs)) as Hsv.
  { unfold split_value. destruct (is_negative_number self1); [|exact Hunsigned].
    change ("-" +:+ ?x) with (String "-" x).
    unfold Py.lstrip_chars. rewrite lstrip_by_cons.
    change (Py.in_chars "-" "-") with true. cbn iota. exact Hunsigned. }
  rewrite Hsv.
  destruct (_create_text_from_number_Ok
              (set_numerical_split_value split_value self1)
              (Py.join " " (g :: gs)) texts) as (self' & Hcreate & Hneg).
  { intros k t Hk. simpl in Hk. unfold self1 in Hk.
    destruct (v <? 0); simpl in Hk; rewrite lookup_empty in Hk; discriminate. }
  { rewrite Hsplit_on. exact Htexts. }
  use_bind Hcreate. rewrite Hsplit. unfold _final_format.
  use_bind Hwords. cbn [mbind result_bind].
  exists self'. split; [reflexivity|]. rewrite Hneg. exact Hneg1.
Qed.

(** ** Validation of an integer *)

Lemma digit_char_nonzero (d : Z) : 1 <= d <= 9 -> Py.digit_char d <> "0"%char.
Proof.
  intros Hd Heq. pose proof (digit_char_val d) as H.
  rewrite Heq in H. specialize (H ltac:(lia)). vm_compute in H.
  injection H as H. lia.
Qed.

(** The decimal digits of a supported positive number: at most 27, without
    a zero in front. *)
Lemma digits_supported (n : Z) :
  0 < n <= dc.MAX_SUPPORTED_NUMBER ->
  exists c s,
    Py.digits n = String c s
    /\ decimal_string (String c s) = true
    /\ c <> "0"%char
    /\ (String.length (String c s) <= 27)%nat.
Proof.
  intros Hn. destruct (digits_leading n) as (d & rest & Hd & Heq); [lia|].
  exists (Py.digit_char d), rest. split; [exact Heq|]. rewrite <- Heq.
  split; [apply digits_decimal; lia|].
  split; [apply digit_char_nonzero; exact Hd|].
  apply digits_length.
  assert (10 ^ Z.of_nat 27 = 1000000000000000000000000000) as -> by reflexivity.
  unfold dc.MAX_SUPPORTED_NUMBER in Hn. lia.
Qed.

Lemma strip_unchanged (c : ascii) (s : string) :
  Py.isspace c = false ->
  Py.all_chars (fun x => negb (Py.isspace x)) (String c s) = true ->
  Py.strip (String c s) = String c s.
Proof.
  intros Hc Hall. unfold Py.strip.
  rewrite lstrip_by_head by exact Hc. apply rstrip_by_none. exact Hall.
Qed.

Lemma validate_number_positive (n : Z) :
  0 < n <= dc.MAX_SUPPORTED_NUMBER ->
  validate_number (PyInt n) = Ok (Py.digits n).
Proof.
  intros Hn. unfold validate_number.
  destruct (Z.gtb_spec n dc.MAX_SUPPORTED_NUMBER) as [?|_]; [lia|].
  unfold Py.str_of_int. destruct (Z.ltb_spec n 0) as [?|_]; [lia|].
  destruct (digits_supported n Hn) as (c & s & Heq & Hdec & _ & _).
  rewrite Heq. f_equal.
  assert (Py.all_chars (fun x => negb (Py.isspace x)) (String c s) = true) as Hall
    by (apply decimal_string_none; [apply plain_char_not_isspace | exact Hdec]).
  apply strip_unchanged; [|exact Hall].
  rewrite all_chars_cons in Hall. apply andb_true_iff in Hall as [Hc _].
  apply negb_true_iff in Hc. exact Hc.
Qed.

Lemma validate_number_negative (n : Z) :
  0 < n <= dc.MAX_SUPPORTED_NUMBER ->
  validate_number (PyInt (- n)) = Ok (String "-" (Py.digits n)).
Proof.
  intros Hn. unfold validate_number.
  destruct (Z.gtb_spec (- n) dc.MAX_SUPPORTED_NUMBER) as [?|_];
    [unfold dc.MAX_SUPPORTED_NUMBER in *; lia|].
  unfold Py.str_of_int. destruct (Z.ltb_spec (- n) 0) as [_|?]; [|lia].
  rewrite Z.opp_involutive. f_equal.
  destruct (digits_supported n Hn) as (c & s & Heq & Hdec & _ & _).
  apply strip_unchanged; [reflexivity|].
  rewrite all_chars_cons. apply andb_true_iff. split; [reflexivity|].
  rewrite Heq.
  apply decimal_string_none; [apply plain_char_not_isspace | exact Hdec].
Qed.

(** The conversion of the groups of a supported number returns. *)
Lemma groups_convert (c : ascii) (s : string) :
  decimal_string (String c s) = true ->
  c <> "0"%char ->
  (String.length (String c s) <= 27)%nat ->
  exists texts words additions,
    mapM _format_digits (groups_of (String c s)) = Ok texts
    /\ add_suffixes texts (groups_of (String c s)) = Ok (words, additions).
Proof.
  intros Hdec Hc Hlen.
  destruct (groups_of_good c s Hdec Hc Hlen) as [Hgood Hcount].
  assert (Forall (fun g => group_ok g = true) (groups_of (String c s))) as Hok
    by (eapply Forall_impl; [exact Hgood | apply good_group_ok]).
  destruct (mapM_result_Ok _format_digits (groups_of (String c s)))
    as (texts & Htexts & Hlength).
  { eapply Forall_impl; [exact Hok|]. intros g Hg.
    unfold group_ok in Hg. rewrite !andb_true_iff in Hg. tauto. }
  destruct (add_suffixes_Ok texts (groups_of (String c s)))
    as (words & additions & Hwords); [assumption|lia|assumption|].
  exists texts, words, additions. split; assumption.
Qed.

(** ** Negative numbers *)

(** A supported positive integer and its opposite go through the same
    words; only the sign flag of the object differs. *)
Lemma convert_supported (n : Z) :
  0 < n <= dc.MAX_SUPPORTED_NUMBER ->
  exists self_pos self_neg words,
    convert (PyInt n) = Ok (join_words self_pos words)
    /\ convert (PyInt (- n)) = Ok (join_words self_neg words)
    /\ is_negative_number self_pos = false
    /\ is_negative_number self_neg = true.
Proof.
  intros Hn.
  destruct (digits_supported n Hn) as (c & s & Heq & Hdec & Hc & Hlen).
  destruct (groups_convert c s Hdec Hc Hlen)
    as (texts & words & additions & Htexts & Hwords).
  destruct (groups_of_good c s Hdec Hc Hlen) as [Hgood _].
  assert (plain_char c = true) as Hplain.
  { unfold decimal_string in Hdec. rewrite all_chars_cons in Hdec.
    apply andb_true_iff in Hdec as [Hd _]. apply decimal_char_plain. exact Hd. }
  assert (Py.lstrip_chars "-" (String c s) = String c s) as Hunsigned.
  { unfold Py.lstrip_chars. apply lstrip_by_head. rewrite in_chars_single.
    apply plain_char_not; [reflexivity|exact Hplain]. }
  destruct (_read_number_groups (Py.digits n) n c s texts words additions)
    as (self_pos & Hpos & Hsign_pos);
    [apply int_digits_value; lia | lia | rewrite Heq; exact Hunsigned
     | assumption..|].
  destruct (_read_number_groups (String "-" (Py.digits n)) (- n) c s
              texts words additions)
    as (self_neg & Hneg & Hsign_neg);
    [apply int_minus_digits_value; lia | lia | | assumption..|].
  { unfold Py.lstrip_chars. rewrite lstrip_by_cons.
    change (Py.in_chars "-" "-") with true. cbn iota.
    rewrite Heq. exact Hunsigned. }
  exists self_pos, self_neg, words. repeat split.
  - unfold convert, __init__.
    use_bind (validate_number_positive n Hn). use_bind Hpos. reflexivity.
  - unfold convert, __init__.
    use_bind (validate_number_negative n Hn). use_bind Hneg. reflexivity.
  - rewrite Hsign_pos. apply Z.ltb_ge. lia.
  - rewrite Hsign_neg. apply Z.ltb_lt. lia.
Qed.

(** C6: for every nonzero integer [n] with [|n| <= MAX], the conversion of
    [|n|] returns a text, and the conversion of the negative number of that
    magnitude, [-|n|], returns exactly "minus, " followed by that text. *)
Theorem negative_is_minus_then_positive (n : Z) :
  n <> 0 ->
  Z.abs n <= dc.MAX_SUPPORTED_NUMBER ->
  exists text,
    convert (PyInt (Z.abs n)) = Ok text
    /\ convert (PyInt (- Z.abs n)) = Ok ("minus, " +:+ text).
Proof.
  intros Hne Hn.
  destruct (convert_supported (Z.abs n))
    as (self_pos & self_neg & words & Hpos & Hneg & Hsign_pos & Hsign_neg);
    [lia|].
  exists (join_words self_pos words). split; [exact Hpos|].
  rewrite Hneg, (join_words_negative self_neg self_pos) by assumption.
  reflexivity.
Qed.

Lemma negative_is_minus_then_positive_witness :
  convert (PyInt 4567) = Ok "four thousand, five hundred and sixty seven"
  /\ convert (PyInt (-4567))
     = Ok "minus, four thousand, five hundred and sixty seven".
Proof.
  destruct (negative_is_minus_then_positive (-4567)) as (text & Hpos & Hneg);
    [lia | unfold dc.MAX_SUPPORTED_NUMBER; simpl; lia |].
  assert (text = "four thousand, five hundred and sixty seven") as ->
    by (vm_compute in Hpos; congruence).
  split; [exact Hpos | exact Hneg].
Defined.

(** ** Where the conversion is safe *)

(** On every integer between [-MAX] and [MAX] the conversion returns a
    text. *)
Lemma convert_returns_on_supported_integers (n : Z) :
  - dc.MAX_SUPPORTED_NUMBER <= n <= dc.MAX_SUPPORTED_NUMBER ->
  exists text, convert (PyInt n) = Ok text.
Proof.
  intros Hn.
  destruct (Z.lt_trichotomy n 0) as [Hneg|[->|Hpos]].
  - destruct (convert_supported (- n))
      as (_ & self_neg & words & _ & H & _); [lia|].
    rewrite Z.opp_involutive in H. eauto.
  - exists "zero". reflexivity.
  - destruct (convert_supported n) as (self_pos & _ & words & H & _); [lia|].
    eauto.
Qed.

(** The integer and its decimal string convert alike wherever the string
    is at most 27 characters long: from [-(10^26 - 1)] to [MAX]. *)
Lemma int_and_str_agree (n : Z) :
  - 10 ^ 26 < n <= dc.MAX_SUPPORTED_NUMBER ->
  convert (PyStr (Py.str_of_int n)) = convert (PyInt n).
Proof.
  intros Hn. unfold convert, __init__. f_equal. f_equal.
  assert (10 ^ 26 = 100000000000000000000000000) as Hpow by reflexivity.
  rewrite Hpow in Hn. clear Hpow.
  assert (decimal_string (Py.digits (Z.abs n)) = true) as Hdec
    by (apply digits_decimal; lia).
  assert (String.length (Py.digits (Z.abs n))
          <= (if (n <? 0)%Z then 26 else 27))%nat as Hlen.
  { destruct (Z.ltb_spec n 0).
    - apply digits_length.
      assert (10 ^ Z.of_nat 26 = 100000000000000000000000000) as ->
        by reflexivity. lia.
    - apply digits_length.
      assert (10 ^ Z.of_nat 27 = 1000000000000000000000000000) as ->
        by reflexivity. unfold dc.MAX_SUPPORTED_NUMBER in Hn. lia. }
  destruct (digits_nonempty (Z.abs n)) as (c & rest & Hshape).
  assert (plain_char c = true) as Hplain.
  { unfold decimal_string in Hdec. rewrite Hshape, all_chars_cons in Hdec.
    apply andb_true_iff in Hdec as [Hd _]. apply decimal_char_plain. exact Hd. }
  assert (Py.all_chars (fun x => negb (Py.isspace x)) (Py.digits (Z.abs n)) = true)
    as Hnospace
    by (apply decimal_string_none; [apply plain_char_not_isspace | exact Hdec]).
  assert (Py.isdigit (Py.digits (Z.abs n)) = true) as Hisdigit.
  { unfold Py.isdigit. rewrite Hshape. rewrite <- Hshape.
    revert Hdec. apply all_chars_impl. intros x Hx.
    apply decimal_char_plain in Hx. unfold plain_char in Hx.
    rewrite !andb_true_iff in Hx. tauto. }
  assert (Py.lstrip_chars "-" (Py.digits (Z.abs n)) = Py.digits (Z.abs n))
    as Hunsigned.
  { rewrite Hshape. unfold Py.lstrip_chars. apply lstrip_by_head.
    rewrite in_chars_single. apply plain_char_not; [reflexivity|exact Hplain]. }
  unfold validate_number, Py.str_of_int.
  destruct (Z.gtb_spec n dc.MAX_SUPPORTED_NUMBER) as [?|_]; [lia|].
  destruct (Z.ltb_spec n 0) as [Hneg|Hpos].
  - replace (- n) with (Z.abs n) by lia.
    assert (Py.strip (String "-" (Py.digits (Z.abs n)))
            = String "-" (Py.digits (Z.abs n))) as ->.
    { apply strip_unchanged; [reflexivity|].
      rewrite all_chars_cons, Hnospace. reflexivity. }
    unfold Py.lstrip_chars at 1. rewrite lstrip_by_cons.
    change (Py.in_chars "-" "-") with true. cbn iota.
    fold (Py.lstrip_chars "-" (Py.digits (Z.abs n))).
    rewrite Hunsigned, Hisdigit. cbn [negb].
    destruct (Z.gtb_spec (Py.len (String "-" (Py.digits (Z.abs n))))
                dc.MAX_SUPPORTED_NUMBER_LENGTH) as [Hlong|_]; [|reflexivity].
    unfold Py.len, dc.MAX_SUPPORTED_NUMBER_LENGTH in Hlong.
    cbn [String.length] in Hlong. lia.
  - replace (Z.abs n) with n in * by lia.
    assert (Py.strip (Py.digits n) = Py.digits n) as ->.
    { rewrite Hshape. apply strip_unchanged.
      - apply plain_char_not_isspace. exact Hplain.
      - rewrite <- Hshape. exact Hnospace. }
    rewrite Hunsigned, Hisdigit. cbn [negb].
    destruct (Z.gtb_spec (Py.len (Py.digits n)) dc.MAX_SUPPORTED_NUMBER_LENGTH)
      as [Hlong|_]; [|reflexivity].
    unfold Py.len, dc.MAX_SUPPORTED_NUMBER_LENGTH in Hlong. lia.
Qed.

(** * Further properties of the code *)

(** ** Validation: what it returns *)

Lemma str_of_int_shape (n : Z) :
  exists c s,
    Py.str_of_int n = String c s
    /\ Py.isspace c = false
    /\ Py.all_chars (fun x => negb (Py.isspace x)) (String c s) = true.
Proof.
  unfold Py.str_of_int. destruct (Z.ltb_spec n 0) as [Hneg|Hpos].
  - exists "-"%char, (Py.digits (- n)). split; [reflexivity|].
    split; [reflexivity|]. rewrite all_chars_cons. apply andb_true_iff.
    split; [reflexivity|].
    apply decimal_string_none; [apply plain_char_not_isspace|].
    apply digits_decimal. lia.
  - destruct (digits_nonempty n) as (c & s & Heq). exists c, s.
    split; [exact Heq|].
    assert (Py.all_chars (fun x => negb (Py.isspace x)) (String c s) = true) as Hall.
    { rewrite <- Heq.
      apply decimal_string_none; [apply plain_char_not_isspace|].
      apply digits_decimal. exact Hpos. }
    split; [|exact Hall].
    rewrite all_chars_cons in Hall. apply andb_true_iff in Hall as [Hc _].
    apply negb_true_iff in Hc. exact Hc.
Qed.

(** X1: an integer above the maximum is rejected as too large, before
    [str] is called.  Every other integer within the limit of [str],
    however negative, validates to its decimal string, [strip] finds
    nothing to remove, and [int] reads the validated string back as the
    integer. *)
Theorem validate_number_int_round_trip (n : Z) :
  (dc.MAX_SUPPORTED_NUMBER < n -> validate_number (PyInt n) = Raise too_large_error)
  /\ (str_within_limit n -> n <= dc.MAX_SUPPORTED_NUMBER ->
      exists validated,
        validate_number (PyInt n) = Ok validated
        /\ validated = Py.str_of_int n
        /\ Py.int validated = Ok n).
Proof.
  split.
  - intros Hn. unfold validate_number.
    destruct (Z.gtb_spec n dc.MAX_SUPPORTED_NUMBER) as [_|?]; [reflexivity|lia].
  - intros _ Hn. exists (Py.str_of_int n). split; [|split; [reflexivity|]].
    + unfold validate_number.
      destruct (Z.gtb_spec n dc.MAX_SUPPORTED_NUMBER) as [?|_]; [lia|].
      destruct (str_of_int_shape n) as (c & s & Heq & Hc & Hall).
      rewrite Heq. f_equal. apply strip_unchanged; assumption.
    + unfold Py.str_of_int. destruct (Z.ltb_spec n 0) as [Hneg|Hpos].
      * rewrite int_minus_digits_value by lia. f_equal. lia.
      * apply int_digits_value. exact Hpos.
Qed.

Lemma validate_number_int_round_trip_witness :
  exists validated,
    validate_number (PyInt (- 10 ^ 27)) = Ok validated
    /\ validated = Py.str_of_int (- 10 ^ 27)
    /\ Py.int validated = Ok (- 10 ^ 27).
Proof.
  apply (proj2 (validate_number_int_round_trip (- 10 ^ 27))).
  - unfold str_within_limit. vm_compute. reflexivity.
  - vm_compute. discriminate.
Defined.

Lemma rstrip_by_idempotent (p : ascii -> bool) (s : string) :
  Py.rstrip_by p (Py.rstrip_by p s) = Py.rstrip_by p s.
Proof.
  induction s as [|c s IH]; [reflexivity|].
  rewrite rstrip_by_cons. destruct (Py.rstrip_by p s) as [|c' r] eqn:Hr.
  - destruct (p c) eqn:Hc; [reflexivity|].
    rewrite rstrip_by_cons. cbn [Py.rstrip_by]. rewrite Hc. reflexivity.
  - rewrite rstrip_by_cons, IH. reflexivity.
Qed.

Lemma lstrip_by_head_or_empty (p : ascii -> bool) (s : string) :
  Py.lstrip_by p s = ""
  \/ exists c r, Py.lstrip_by p s = String c r /\ p c = false.
Proof.
  induction s as [|c s IH]; [left; reflexivity|].
  rewrite lstrip_by_cons. destruct (p c) eqn:Hc; [exact IH|].
  right. exists c, s. split; [reflexivity|exact Hc].
Qed.

Lemma rstrip_by_keeps_head (p : ascii -> bool) (c : ascii) (s : string) :
  p c = false -> exists r, Py.rstrip_by p (String c s) = String c r.
Proof.
  intros Hc. rewrite rstrip_by_cons.
  destruct (Py.rstrip_by p s) as [|c' r]; [rewrite Hc|]; eauto.
Qed.

Lemma strip_by_idempotent (p : ascii -> bool) (s : string) :
  Py.rstrip_by p (Py.lstrip_by p (Py.rstrip_by p (Py.lstrip_by p s)))
  = Py.rstrip_by p (Py.lstrip_by p s).
Proof.
  destruct (lstrip_by_head_or_empty p s) as [->|(c & r & -> & Hc)];
    [reflexivity|].
  destruct (rstrip_by_keeps_head p c r Hc) as [r' Hr'].
  rewrite Hr', lstrip_by_head by exact Hc. rewrite <- Hr'.
  apply rstrip_by_idempotent.
Qed.

Lemma lstrip_by_length (p : ascii -> bool) (s : string) :
  (String.length (Py.lstrip_by p s) <= String.length s)%nat.
Proof.
  induction s as [|c s IH]; [reflexivity|].
  rewrite lstrip_by_cons. destruct (p c); cbn [String.length]; lia.
Qed.

Lemma rstrip_by_length (p : ascii -> bool) (s : string) :
  (String.length (Py.rstrip_by p s) <= String.length s)%nat.
Proof.
  induction s as [|c s IH]; [reflexivity|].
  rewrite rstrip_by_cons. destruct (Py.rstrip_by p s) as [|c' r].
  - destruct (p c); cbn [String.length]; lia.
  - cbn [String.length] in *. lia.
Qed.

(** X2: a string that validates is returned stripped; the value returned
    is at most 27 characters long, is made of minus signs followed by
    digits, and validates to itself. *)
Theorem validate_number_str_normal_form (s validated : string) :
  validate_number (PyStr s) = Ok validated ->
  validated = Py.strip s
  /\ Py.isdigit (Py.lstrip_chars "-" validated) = true
  /\ Py.len validated <= dc.MAX_SUPPORTED_NUMBER_LENGTH
  /\ validate_number (PyStr validated) = Ok validated.
Proof.
  unfold validate_number.
  destruct (Py.isdigit (Py.lstrip_chars "-" (Py.strip s))) eqn:Hdigit;
    [|discriminate]. cbn [negb].
  destruct (Z.gtb_spec (Py.len s) dc.MAX_SUPPORTED_NUMBER_LENGTH) as [|Hlen];
    [discriminate|].
  intros H. injection H as <-.
  assert (Py.strip (Py.strip s) = Py.strip s) as Hidem
    by apply strip_by_idempotent.
  assert (Py.len (Py.strip s) <= dc.MAX_SUPPORTED_NUMBER_LENGTH) as Hshort.
  { unfold Py.len, Py.strip in *.
    pose proof (rstrip_by_length Py.isspace (Py.lstrip_by Py.isspace s)).
    pose proof (lstrip_by_length Py.isspace s). lia. }
  split; [reflexivity|]. split; [exact Hdigit|]. split; [exact Hshort|].
  rewrite Hidem, Hdigit. cbn [negb].
  destruct (Z.gtb_spec (Py.len (Py.strip s)) dc.MAX_SUPPORTED_NUMBER_LENGTH);
    [lia|reflexivity].
Qed.

Lemma validate_number_str_normal_form_witness :
  validate_number (PyStr "-042") = Ok "-042".
Proof.
  apply (validate_number_str_normal_form "  -042 " "-042"). reflexivity.
Defined.

(** ** Grouping: what [_format_number_string] returns *)

Lemma groups_of_concat (s : string) : Py.join "" (groups_of s) = s.
Proof.
  induction s as [|c s IH]; [reflexivity|].
  rewrite groups_of_cons. destruct (String.length s mod 3 =? 0)%nat.
  - rewrite join_empty_cons, IH. reflexivity.
  - destruct s as [|c' s']; [reflexivity|].
    pose proof (groups_of_nonempty c' s') as Hne.
    destruct (groups_of (String c' s')) as [|g gs]; [contradiction|].
    rewrite join_head_cons, IH. reflexivity.
Qed.

(** X3: [_format_number_string] never raises.  It returns the groups of
    its argument joined by single blanks, behind one more blank when the
    length is a positive multiple of three; the groups, put together, are
    the argument; the first group has one to three characters and every
    other group exactly three. *)
Theorem _format_number_string_shape (c : ascii) (s : string) :
  _format_number_string (String c s)
  = Ok (leading_blank (String c s) +:+ Py.join " " (groups_of (String c s)))
  /\ Py.join "" (groups_of (String c s)) = String c s
  /\ exists first others,
       groups_of (String c s) = first :: others
       /\ (1 <= String.length first <= 3)%nat
       /\ Forall (fun g => String.length g = 3%nat) others.
Proof.
  split; [apply _format_number_string_groups|].
  split; [apply groups_of_concat|].
  destruct (groups_of_shape s c) as (g & gs & Heq & Hfirst & Hfull & _).
  exists (String c g), gs. split; [exact Heq|]. split; [|exact Hfull].
  rewrite Hfirst. lia.
Qed.

(** ** The cache of [_create_text_from_number] *)

(** X4: the cache is transparent.  From a cache whose entries are what
    [_format_digits] returns, [_create_text_from_number] returns the
    phrases of the pieces of its argument in order, or raises what the
    first failing piece raises: the same as an uncached computation. *)
Theorem _create_text_from_number_uncached (self : attrs) (number_text : string) :
  cache_sound (_cached_values self) ->
  fst <$> _create_text_from_number self number_text
  = mapM _format_digits (Py.split_on " " number_text).
Proof.
  intros Hsound. unfold _create_text_from_number.
  pose proof (create_text_loop (Py.split_on " " number_text)
                (length (Py.split_on " " number_text)) 0 [] self Hsound) as H.
  rewrite drop_0, take_ge in H by lia.
  destruct (mapM _format_digits (Py.split_on " " number_text)) as [texts|e].
  - destruct H as (self' & -> & _); [lia|]. reflexivity.
  - rewrite H by lia. reflexivity.
Qed.

Lemma _create_text_from_number_uncached_witness :
  fst <$> _create_text_from_number (Attrs "" None false ∅) "007 123 007 0"
  = Raise IndexError.
Proof.
  rewrite (_create_text_from_number_uncached (Attrs "" None false ∅)).
  - vm_compute. reflexivity.
  - intros key text Hkey. vm_compute in Hkey. discriminate.
Defined.

Lemma create_text_step_holds (temp_result collected collected' : list string)
    (self self' : attrs) (start : nat) :
  create_text_step temp_result (collected, self) start = Ok (collected', self') ->
  length collected = start ->
  cache_holds temp_result collected self start ->
  length collected' = S start
  /\ cache_holds temp_result collected' self' (S start)
  /\ numerical_value self' = numerical_value self
  /\ numerical_split_value self' = numerical_split_value self
  /\ is_negative_number self' = is_negative_number self.
Proof.
  intros H Hlen Hholds. unfold create_text_step in H.
  inv_bind H as key Hkey. apply list_get_Ok_inv in Hkey.
  destruct (_cached_values self !! key) as [cached|] eqn:Hcache.
  - injection H as <- <-. split; [rewrite length_app; simpl; lia|].
    split; [|repeat split].
    intros i k Hi Hk. destruct (decide (i = start)) as [->|Hne].
    + assert (k = key) as -> by congruence. exists cached. split; [exact Hcache|].
      rewrite lookup_app_r by lia. rewrite Hlen, Nat.sub_diag. reflexivity.
    + destruct (Hholds i k) as (text & Hc & Ht); [lia|exact Hk|].
      exists text. split; [exact Hc|]. rewrite lookup_app_l by lia. exact Ht.
  - inv_bind H as text Htext. injection H as <- <-.
    split; [rewrite length_app; simpl; lia|]. split; [|repeat split].
    intros i k Hi Hk. destruct (decide (i = start)) as [->|Hne].
    + assert (k = key) as -> by congruence. exists text. split.
      * simpl. apply lookup_insert_eq.
      * rewrite lookup_app_r by lia. rewrite Hlen, Nat.sub_diag. reflexivity.
    + destruct (Hholds i k) as (text' & Hc & Ht); [lia|exact Hk|].
      exists text'. split.
      * simpl. rewrite lookup_insert_ne; [exact Hc|]. congruence.
      * rewrite lookup_app_l by lia. exact Ht.
Qed.

Lemma create_text_loop_holds (temp_result : list string) (count start : nat)
    (collected texts : list string) (self self' : attrs) :
  foldM (create_text_step temp_result) (seq start count) (collected, self)
  = Ok (texts, self') ->
  length collected = start ->
  cache_holds temp_result collected self start ->
  length texts = (start + count)%nat
  /\ cache_holds temp_result texts self' (start + count)
  /\ numerical_value self' = numerical_value self
  /\ numerical_split_value self' = numerical_split_value self
  /\ is_negative_number self' = is_negative_number self.
Proof.
  revert start collected self.
  induction count as [|count IH]; intros start collected self H Hlen Hholds.
  - injection H as <- <-. rewrite Nat.add_0_r. repeat split; assumption.
  - cbn [seq foldM] in H. inv_bind H as st Hstep. destruct st as [collected1 self1].
    destruct (create_text_step_holds _ _ _ _ _ _ Hstep Hlen Hholds)
      as (Hlen1 & Hholds1 & Hnv & Hsv & Hneg).
    destruct (IH _ _ _ H Hlen1 Hholds1) as (Hlen' & Hholds' & Hnv' & Hsv' & Hneg').
    replace (start + S count)%nat with (S start + count)%nat by lia.
    repeat split; [assumption..|congruence|congruence|congruence].
Qed.

(** X5: when [_create_text_from_number] returns, it returns one phrase
    per piece of its argument, the cache maps every piece to the phrase
    returned at its position, and the other attributes of the object are
    unchanged. *)
Theorem _create_text_from_number_fills_cache (self self' : attrs)
    (number_text : string) (texts : list string) :
  _create_text_from_number self number_text = Ok (texts, self') ->
  length texts = length (Py.split_on " " number_text)
  /\ (forall i key, Py.split_on " " number_text !! i = Some key ->
        exists text, _cached_values self' !! key = Some text
                     /\ texts !! i = Some text)
  /\ numerical_value self' = numerical_value self
  /\ numerical_split_value self' = numerical_split_value self
  /\ is_negative_number self' = is_negative_number self.
Proof.
  unfold _create_text_from_number. intros H.
  destruct (create_text_loop_holds _ _ _ _ _ _ _ H) as (Hlen & Hholds & Hrest).
  - reflexivity.
  - intros i key Hi. lia.
  - split; [exact Hlen|]. split; [|exact Hrest].
    intros i key Hkey. apply (Hholds i key); [|exact Hkey].
    apply lookup_lt_Some in Hkey. lia.
Qed.

Lemma _create_text_from_number_fills_cache_witness :
  length ["one hundred and twenty three"; "seven"; "one hundred and twenty three"]
  = length (Py.split_on " " "123 007 123").
Proof.
  apply (_create_text_from_number_fills_cache
           (Attrs "" None false ∅)
           (Attrs "" None false
              (<["007" := "seven"]>
                 (<["123" := "one hundred and twenty three"]> ∅)))
           "123 007 123"
           ["one hundred and twenty three"; "seven";
            "one hundred and twenty three"]).
  vm_compute. reflexivity.
Defined.

(** ** The phrase of one group: edge cases *)

Lemma all_int_zero_cons (c : ascii) (s : string) :
  all_int_zero (String c s)
  = (v ← Py.int (String c ""); if v =? 0 then all_int_zero s else Ok false).
Proof. reflexivity. Qed.

Lemma all_int_zero_true_iff (s : string) :
  all_int_zero s = Ok true <-> Py.all_chars is_zero_char s = true.
Proof.
  induction s as [|c s IH]; [split; reflexivity|].
  rewrite all_int_zero_cons, all_chars_cons, andb_true_iff, <- IH.
  unfold is_zero_char.
  destruct (Py.int (String c "")) as [v|e]; cbn [mbind result_bind].
  - destruct (v =? 0).
    + split; [intros H; split; [reflexivity|exact H] | intros [_ H]; exact H].
    + split; [discriminate | intros [H _]; discriminate].
  - split; [discriminate | intros [H _]; discriminate].
Qed.

(** X6: [_all_digits_are_zeros] answers True exactly on the strings of
    three characters each of which [int] reads as zero; on a string that
    has not exactly three characters it answers False without reading it,
    so it never raises there; on a string of the decimal digits 0 to 9 it
    never raises, and answers True on "000" only. *)
Theorem _all_digits_are_zeros_iff (s : string) :
  (_all_digits_are_zeros s = Ok true
   <-> String.length s = 3%nat /\ Py.all_chars is_zero_char s = true)
  /\ (String.length s <> 3%nat -> _all_digits_are_zeros s = Ok false)
  /\ (decimal_string s = true ->
      _all_digits_are_zeros s = Ok (bool_decide (s = "000"))).
Proof.
  split; [|split].
  - unfold _all_digits_are_zeros, Py.len. rewrite <- all_int_zero_true_iff.
    destruct (Z.eqb_spec (Z.of_nat (String.length s)) 3) as [Hlen|Hlen].
    + split; [intros H; split; [lia|exact H] | intros [_ H]; exact H].
    + split; [discriminate | intros [H _]; lia].
  - intros Hlen. unfold _all_digits_are_zeros, Py.len.
    destruct (Z.eqb_spec (Z.of_nat (String.length s)) 3); [lia|reflexivity].
  - intros Hdec. destruct (decide (String.length s = 3%nat)) as [Hlen|Hlen].
    + destruct s as [|a [|b [|c [|d r]]]]; try discriminate Hlen.
      unfold decimal_string in Hdec. rewrite !all_chars_cons in Hdec.
      apply andb_true_iff in Hdec as [Ha Hdec].
      apply andb_true_iff in Hdec as [Hb Hdec].
      apply andb_true_iff in Hdec as [Hc _].
      apply decimal_char_cases in Ha, Hb, Hc. unfold decimal_chars in Ha, Hb, Hc.
      cbn [In] in Ha, Hb, Hc.
      destruct Ha as [<-|[<-|[<-|[<-|[<-|[<-|[<-|[<-|[<-|[<-|[]]]]]]]]]]];
      destruct Hb as [<-|[<-|[<-|[<-|[<-|[<-|[<-|[<-|[<-|[<-|[]]]]]]]]]]];
      destruct Hc as [<-|[<-|[<-|[<-|[<-|[<-|[<-|[<-|[<-|[<-|[]]]]]]]]]]];
      vm_compute; reflexivity.
    + unfold _all_digits_are_zeros, Py.len.
      destruct (Z.eqb_spec (Z.of_nat (String.length s)) 3) as [?|_]; [lia|].
      rewrite bool_decide_eq_false_2; [reflexivity|].
      intros ->. apply Hlen. reflexivity.
Qed.

Lemma _all_digits_are_zeros_iff_witness : _all_digits_are_zeros "00" = Ok false.
Proof.
  apply (proj1 (proj2 (_all_digits_are_zeros_iff "00"))). vm_compute. discriminate.
Defined.

Lemma int_raises_ValueError (s : string) (e : exn) :
  Py.int s = Raise e -> e = Py.int_literal_error s.
Proof.
  unfold Py.int.
  destruct (match Py.rstrip_by Py.int_space (Py.lstrip_by Py.int_space s) with
            | EmptyString => None
            | String c rest =>
                if bool_decide (c = "-"%char) then Z.opp <$> Py.int_unsigned rest
                else if bool_decide (c = "+"%char) then Py.int_unsigned rest
                else Py.int_unsigned
                       (Py.rstrip_by Py.int_space (Py.lstrip_by Py.int_space s))
            end); [discriminate|].
  intros H. injection H as <-. reflexivity.
Qed.

(** X7: [_add_decimals] swallows the error of [int]: when the last two
    characters of its argument do not read as a number, it returns the
    empty string instead of raising. *)
Theorem _add_decimals_swallows_errors (numbers : string) (e : exn) :
  Py.int (Py.slice_from numbers (-2)) = Raise e ->
  _add_decimals numbers = "".
Proof.
  intros H. pose proof (int_raises_ValueError _ _ H) as ->.
  unfold _add_decimals. rewrite H. reflexivity.
Qed.

Lemma _add_decimals_swallows_errors_witness : _add_decimals "1x" = "".
Proof.
  apply (_add_decimals_swallows_errors "1x" (Py.int_literal_error "1x")).
  reflexivity.
Defined.

Lemma len_app (p t : string) : Py.len (p +:+ t) = Py.len p + Py.len t.
Proof. unfold Py.len. rewrite length_app_str. lia. Qed.

Lemma getitem_cons_negative (c : ascii) (s : string) (i : Z) :
  - Py.len s <= i < 0 -> Py.getitem (String c s) i = Py.getitem s i.
Proof.
  intros Hi. unfold Py.getitem, Py.len in *. cbn [String.length].
  destruct (Z.ltb_spec i 0) as [_|?]; [|lia].
  replace ((0 <=? i + Z.of_nat (S (String.length s)))
           && (i + Z.of_nat (S (String.length s)) <? Z.of_nat (S (String.length s))))
    with true
    by (symmetry; apply andb_true_iff; split;
        [apply Z.leb_le | apply Z.ltb_lt]; lia).
  replace ((0 <=? i + Z.of_nat (String.length s))
           && (i + Z.of_nat (String.length s) <? Z.of_nat (String.length s)))
    with true
    by (symmetry; apply andb_true_iff; split;
        [apply Z.leb_le | apply Z.ltb_lt]; lia).
  replace (Z.to_nat (i + Z.of_nat (S (String.length s))))
    with (S (Z.to_nat (i + Z.of_nat (String.length s)))) by lia.
  reflexivity.
Qed.

Lemma getitem_app_negative (p t : string) (i : Z) :
  - Py.len t <= i < 0 -> Py.getitem (p +:+ t) i = Py.getitem t i.
Proof.
  intros Hi. induction p as [|c p IH]; [reflexivity|].
  rewrite app_cons, getitem_cons_negative; [exact IH|].
  rewrite len_app. unfold Py.len in *. lia.
Qed.

Lemma slice_from_cons_negative (c : ascii) (s : string) (i : Z) :
  - Py.len s <= i < 0 -> Py.slice_from (String c s) i = Py.slice_from s i.
Proof.
  intros Hi. unfold Py.slice_from, Py.len in *. cbn [String.length].
  destruct (Z.ltb_spec i 0) as [_|?]; [|lia].
  replace (Z.to_nat (Z.max 0 (i + Z.of_nat (S (String.length s)))))
    with (S (Z.to_nat (Z.max 0 (i + Z.of_nat (String.length s))))) by lia.
  reflexivity.
Qed.

Lemma slice_from_app_negative (p t : string) (i : Z) :
  - Py.len t <= i < 0 -> Py.slice_from (p +:+ t) i = Py.slice_from t i.
Proof.
  intros Hi. induction p as [|c p IH]; [reflexivity|].
  rewrite app_cons, slice_from_cons_negative; [exact IH|].
  rewrite len_app. unfold Py.len in *. lia.
Qed.

Lemma _add_singles_suffix (p t : string) :
  1 <= Py.len t -> _add_singles (p +:+ t) = _add_singles t.
Proof.
  intros Ht. unfold _add_singles. rewrite getitem_app_negative by lia.
  reflexivity.
Qed.

Lemma _add_decimals_suffix (p t : string) :
  2 <= Py.len t -> _add_decimals (p +:+ t) = _add_decimals t.
Proof.
  intros Ht. unfold _add_decimals.
  rewrite slice_from_app_negative, getitem_app_negative, _add_singles_suffix
    by lia.
  reflexivity.
Qed.

Ltac digit_cases H :=
  apply decimal_char_cases in H; unfold decimal_chars in H;
  cbn [In] in H;
  destruct H as [<-|[<-|[<-|[<-|[<-|[<-|[<-|[<-|[<-|[<-|[]]]]]]]]]]].

Lemma digit_val_decimal (c : ascii) (d : Z) :
  Py.digit_val c = Some d -> decimal_char c = true.
Proof. intros H. unfold decimal_char. rewrite H. reflexivity. Qed.

Lemma _add_decimals_two_digits (a b : ascii) (tens ones : Z) :
  Py.digit_val a = Some tens ->
  Py.digit_val b = Some ones ->
  _add_decimals (String a (String b "")) = two_digit_phrase tens ones.
Proof.
  intros Ha Hb.
  pose proof (digit_val_decimal _ _ Ha) as Hda.
  pose proof (digit_val_decimal _ _ Hb) as Hdb.
  digit_cases Hda; digit_cases Hdb;
    vm_compute in Ha; vm_compute in Hb;
    injection Ha as <-; injection Hb as <-; vm_compute; reflexivity.
Qed.

(** X8: [_add_decimals] reads the last two characters of its argument
    only.  For the digits [tens] and [ones] there it returns the teen word
    from 11 to 19, the tens word for a multiple of ten, the word of the
    ones digit when the tens digit is zero (the empty string for 00), and
    otherwise the tens word, a blank and the word of the ones digit. *)
Theorem _add_decimals_reads_last_two (prefix : string) (a b : ascii)
    (tens ones : Z) :
  Py.digit_val a = Some tens ->
  Py.digit_val b = Some ones ->
  _add_decimals (prefix +:+ String a (String b ""))
  = two_digit_phrase tens ones.
Proof.
  intros Ha Hb. rewrite _add_decimals_suffix by (vm_compute; discriminate).
  apply _add_decimals_two_digits; assumption.
Qed.

Lemma _add_decimals_reads_last_two_witness :
  _add_decimals "9987" = "eighty seven".
Proof.
  apply (_add_decimals_reads_last_two "99" "8" "7" 8 7); reflexivity.
Defined.

(** X9: [_add_hundreds] raises [IndexError] when nothing is left of its
    argument once the leading zeros are stripped, and when more than
    three characters are left: no branch fills the list it then indexes. *)
Theorem _add_hundreds_out_of_range (numbers : string) :
  Py.len (Py.lstrip_chars "0" numbers) = 0
  \/ 3 < Py.len (Py.lstrip_chars "0" numbers) ->
  _add_hundreds numbers = Raise IndexError.
Proof.
  intros H. unfold _add_hundreds.
  destruct (Z.eqb_spec (Py.len (Py.lstrip_chars "0" numbers)) 3); [lia|].
  destruct (Z.eqb_spec (Py.len (Py.lstrip_chars "0" numbers)) 2); [lia|].
  destruct (Z.eqb_spec (Py.len (Py.lstrip_chars "0" numbers)) 1); [lia|].
  reflexivity.
Qed.

Lemma _add_hundreds_out_of_range_witness :
  _add_hundreds "00" = Raise IndexError /\ _add_hundreds "01234" = Raise IndexError.
Proof.
  split.
  - apply (_add_hundreds_out_of_range "00"). left. reflexivity.
  - apply (_add_hundreds_out_of_range "01234"). right. reflexivity.
Defined.

(** X10: for three digits with a first digit from 1 to 9, [_add_hundreds]
    returns the word of the first digit and "hundred", followed by " and "
    and the phrase of the last two digits, or by a single blank when the
    last two digits are 00. *)
Theorem _add_hundreds_three_digits (a b c : ascii) (hundreds tens ones : Z) :
  Py.digit_val a = Some hundreds ->
  Py.digit_val b = Some tens ->
  Py.digit_val c = Some ones ->
  hundreds <> 0 ->
  _add_hundreds (String a (String b (String c "")))
  = Ok (single_word hundreds +:+ " " +:+ dc.HUNDRED
        +:+ (if (tens =? 0) && (ones =? 0) then " "
             else " and " +:+ two_digit_phrase tens ones)).
Proof.
  intros Ha Hb Hc Hne.
  pose proof (digit_val_decimal _ _ Ha) as Hda.
  pose proof (digit_val_decimal _ _ Hb) as Hdb.
  pose proof (digit_val_decimal _ _ Hc) as Hdc.
  digit_cases Hda; digit_cases Hdb; digit_cases Hdc;
    vm_compute in Ha; vm_compute in Hb; vm_compute in Hc;
    injection Ha as <-; injection Hb as <-; injection Hc as <-;
    first [exfalso; apply Hne; reflexivity | vm_compute; reflexivity].
Qed.

Lemma _add_hundreds_three_digits_witness :
  _add_hundreds "700" = Ok "seven hundred "
  /\ _add_hundreds "712" = Ok "seven hundred and twelve".
Proof.
  split.
  - apply (_add_hundreds_three_digits "7" "0" "0" 7 0 0); [reflexivity..|lia].
  - apply (_add_hundreds_three_digits "7" "1" "2" 7 1 2); [reflexivity..|lia].
Defined.

Lemma short_decimal_cases (g : string) :
  decimal_string g = true ->
  (1 <= String.length g <= 3)%nat ->
  (exists a, g = String a "" /\ decimal_char a = true)
  \/ (exists a b, g = String a (String b "")
                  /\ decimal_char a = true /\ decimal_char b = true)
  \/ (exists a b c, g = String a (String b (String c ""))
                    /\ decimal_char a = true /\ decimal_char b = true
                    /\ decimal_char c = true).
Proof.
  unfold decimal_string. intros Hdec Hlen.
  destruct g as [|a [|b [|c [|d r]]]]; cbn [String.length] in Hlen; try lia;
    rewrite ?all_chars_cons, ?andb_true_iff in Hdec.
  - left. exists a. tauto.
  - right. left. exists a, b. tauto.
  - right. right. exists a, b, c. tauto.
Qed.

(** X11: the phrase of a group of one to three decimal digits.  A group of
    one or two zeros makes [_format_digits] raise [IndexError]; the group
    "000" has the empty phrase; every other group has a phrase that is not
    empty, the phrase of the group without its leading zeros. *)
Theorem _format_digits_short_group (g : string) :
  decimal_string g = true ->
  (1 <= String.length g <= 3)%nat ->
  if all_zero_chars g then
    _format_digits g
    = (if (String.length g =? 3)%nat then Ok "" else Raise IndexError)
  else
    exists phrase,
      phrase <> ""
      /\ _format_digits g = Ok phrase
      /\ _format_digits (Py.lstrip_chars "0" g) = Ok phrase.
Proof.
  intros Hdec Hlen.
  destruct (short_decimal_cases g Hdec Hlen)
    as [(a & -> & Ha)|[(a & b & -> & Ha & Hb)|(a & b & c & -> & Ha & Hb & Hc)]].
  - digit_cases Ha;
      (destruct (all_zero_chars _) eqn:Hz; vm_compute in Hz;
       [first [discriminate | vm_compute; reflexivity]
       |first [discriminate
              | eexists; split; [|split; vm_compute; reflexivity];
                discriminate]]).
  - digit_cases Ha; digit_cases Hb;
      (destruct (all_zero_chars _) eqn:Hz; vm_compute in Hz;
       [first [discriminate | vm_compute; reflexivity]
       |first [discriminate
              | eexists; split; [|split; vm_compute; reflexivity];
                discriminate]]).
  - digit_cases Ha; digit_cases Hb; digit_cases Hc;
      (destruct (all_zero_chars _) eqn:Hz; vm_compute in Hz;
       [first [discriminate | vm_compute; reflexivity]
       |first [discriminate
              | eexists; split; [|split; vm_compute; reflexivity];
                discriminate]]).
Qed.

Lemma _format_digits_short_group_witness :
  _format_digits "00" = Raise IndexError
  /\ exists phrase, phrase <> "" /\ _format_digits "012" = Ok phrase
                    /\ _format_digits "12" = Ok phrase.
Proof.
  split.
  - apply (_format_digits_short_group "00"); [reflexivity | vm_compute; lia].
  - apply (_format_digits_short_group "012"); [reflexivity | vm_compute; lia].
Defined.

(** ** Validated inputs on which the conversion raises *)

Lemma groups_of_words (c : ascii) (s : string) (p : ascii -> bool) :
  (forall x, plain_char x = true -> p x = false) ->
  decimal_string (String c s) = true ->
  words_without p (groups_of (String c s)).
Proof.
  intros Hp Hdec. pose proof (groups_of_decimal _ Hdec) as Hall.
  destruct (groups_of_shape s c) as (g & gs & Heq & _ & Hfull & _).
  rewrite Heq in *. inversion Hall as [|? ? Hg Hgs]; subst.
  constructor.
  - split; [discriminate | apply decimal_string_none; assumption].
  - rewrite Forall_forall in Hgs, Hfull. apply Forall_forall. intros x Hx.
    split.
    + intros ->. specialize (Hfull _ Hx). discriminate.
    + apply decimal_string_none; [exact Hp | apply Hgs; exact Hx].
Qed.

(** [_read_number] on the decimal digits [c s] behind an optional sign,
    up to the translation of the groups. *)
Lemma _read_number_decimal (value : string) (v : Z) (c : ascii) (s : string) :
  Py.int value = Ok v ->
  v <> 0 ->
  Py.lstrip_chars "-" value = String c s ->
  decimal_string (String c s) = true ->
  exists self2,
    is_negative_number self2 = (v <? 0)
    /\ _cached_values self2 = ∅
    /\ Py.split_on " " (Py.join " " (groups_of (String c s)))
       = groups_of (String c s)
    /\ _read_number (Attrs value None false ∅)
       = ('(words, self) ←
            _create_text_from_number self2
              (Py.join " " (groups_of (String c s)));
          text ← _final_format self words (groups_of (String c s));
          Ok (text, self)).
Proof.
  intros Hint Hv Hstrip Hdec.
  assert (plain_char c = true) as Hplain.
  { unfold decimal_string in Hdec. rewrite all_chars_cons in Hdec.
    apply andb_true_iff in Hdec as [Hd _]. apply decimal_char_plain. exact Hd. }
  pose proof (fun p Hp => groups_of_words c s p Hp Hdec) as Hwords.
  destruct (groups_of_shape s c) as (g & gs & Hgroups & _).
  rewrite Hgroups in *.
  assert (Py.lstrip_by (Py.in_chars " ")
            (leading_blank (String c s) +:+ Py.join " " (String c g :: gs))
          = Py.join " " (String c g :: gs)) as Hleft.
  { rewrite join_head_cons. unfold leading_blank.
    destruct ((String.length (String c s) mod 3 =? 0)%nat
              && negb (bool_decide (String c s = ""))).
    - change (" " +:+ ?x) with (String " " x).
      rewrite lstrip_by_cons. change (Py.in_chars " " " ") with true.
      cbn iota. apply lstrip_by_head. rewrite in_chars_single.
      apply plain_char_not; [reflexivity|exact Hplain].
    - rewrite app_empty_l. apply lstrip_by_head. rewrite in_chars_single.
      apply plain_char_not; [reflexivity|exact Hplain]. }
  assert (Py.strip_chars " "
            (leading_blank (String c s) +:+ Py.join " " (String c g :: gs))
          = Py.join " " (String c g :: gs)) as Hstripped.
  { unfold Py.strip_chars. rewrite Hleft. apply rstrip_by_join. apply Hwords.
    intros x Hx. rewrite in_chars_single.
    apply plain_char_not; [reflexivity|exact Hx]. }
  assert (Py.lstrip_chars "-" (Py.join " " (String c g :: gs))
          = Py.join " " (String c g :: gs)) as Hunsigned.
  { rewrite join_head_cons. unfold Py.lstrip_chars. apply lstrip_by_head.
    rewrite in_chars_single. apply plain_char_not; [reflexivity|exact Hplain]. }
  assert (Py.split_on " " (Py.join " " (String c g :: gs)) = String c g :: gs)
    as Hsplit_on.
  { apply split_on_join.
    eapply Forall_impl;
      [apply (Hwords (fun x => bool_decide (x = " "%char)));
       intros x Hx; apply plain_char_not; [reflexivity|exact Hx]
      |intros x [_ Hx]; exact Hx]. }
  assert (Py.split (Py.join " " (String c g :: gs)) = String c g :: gs) as Hsplit.
  { apply split_join. apply Hwords. apply plain_char_not_isspace. }
  set (self1 := if v <? 0 then set_is_negative_number true (Attrs value None false ∅)
                else Attrs value None false ∅).
  set (split_value := if is_negative_number self1
                      then "-" +:+ Py.join " " (String c g :: gs)
                      else Py.join " " (String c g :: gs)).
  exists (set_numerical_split_value split_value self1).
  split; [unfold self1; destruct (v <? 0); reflexivity|].
  split; [unfold self1; destruct (v <? 0); reflexivity|].
  split; [exact Hsplit_on|].
  unfold _read_number. cbn [numerical_value].
  use_bind Hint. rewrite (proj2 (Z.eqb_neq v 0) Hv). use_bind Hint.
  fold self1.
  assert (numerical_value self1 = value) as Hnv
    by (unfold self1; destruct (v <? 0); reflexivity).
  rewrite Hnv, Hstrip, _format_number_string_groups, Hgroups.
  cbn [mbind result_bind]. rewrite Hstripped. fold split_value.
  assert (Py.lstrip_chars "-" split_value = Py.join " " (String c g :: gs)) as Hsv.
  { unfold split_value. destruct (is_negative_number self1); [|exact Hunsigned].
    change ("-" +:+ ?x) with (String "-" x).
    unfold Py.lstrip_chars. rewrite lstrip_by_cons.
    change (Py.in_chars "-" "-") with true. cbn iota. exact Hunsigned. }
  rewrite Hsv, Hsplit. reflexivity.
Qed.

Lemma pow10_succ (k : nat) : 10 ^ Z.of_nat (S k) = 10 * 10 ^ Z.of_nat k.
Proof. rewrite Nat2Z.inj_succ, Z.pow_succ_r by lia. reflexivity. Qed.

Lemma pow10_pos (k : nat) : 1 <= 10 ^ Z.of_nat k.
Proof.
  induction k as [|k IH]; [reflexivity|]. rewrite pow10_succ. lia.
Qed.

Lemma digits_go_long (fuel : nat) (n : Z) (acc : string) (k : nat) :
  10 ^ Z.of_nat k <= n < 10 ^ Z.of_nat (S fuel) ->
  (k + 1 + String.length acc <= String.length (Py.digits_go fuel n acc))%nat.
Proof.
  revert n acc k. induction fuel as [|fuel IH]; intros n acc k Hn.
  - rewrite digits_go_O. cbn [String.length].
    destruct k as [|k]; [lia|].
    rewrite pow10_succ in Hn. pose proof (pow10_pos k).
    change (10 ^ Z.of_nat 1) with 10 in Hn. lia.
  - rewrite digits_go_S. destruct (Z.ltb_spec n 10) as [Hlt|Hge].
    + cbn [String.length]. destruct k as [|k]; [lia|].
      rewrite pow10_succ in Hn. pose proof (pow10_pos k). lia.
    + destruct k as [|k].
      * specialize (IH (n / 10) (String (Py.digit_char (n mod 10)) acc) 0%nat).
        cbn [String.length] in IH. etransitivity; [|apply IH]; [lia|].
        split.
        -- change (10 ^ Z.of_nat 0) with 1. apply Z.div_le_lower_bound; lia.
        -- apply Z.div_lt_upper_bound; [lia|]. rewrite <- pow10_succ. lia.
      * specialize (IH (n / 10) (String (Py.digit_char (n mod 10)) acc) k).
        cbn [String.length] in IH. etransitivity; [|apply IH]; [lia|].
        split.
        -- apply Z.div_le_lower_bound; [lia|]. rewrite <- pow10_succ. lia.
        -- apply Z.div_lt_upper_bound; [lia|]. rewrite <- pow10_succ. lia.
Qed.

Lemma digits_long (n : Z) (k : nat) :
  10 ^ Z.of_nat k <= n -> (k + 1 <= String.length (Py.digits n))%nat.
Proof.
  intros Hn. pose proof (pow10_pos k) as Hk.
  pose proof (digits_go_long (Z.to_nat (Z.log2 n)) n "" k) as H.
  cbn [String.length] in H. unfold Py.digits.
  etransitivity; [|apply H]; [lia|].
  split; [exact Hn | apply digits_fuel_suffices; lia].
Qed.

Lemma groups_of_good_groups (c : ascii) (s : string) :
  decimal_string (String c s) = true ->
  c <> "0"%char ->
  Forall (fun g => good_group g = true) (groups_of (String c s)).
Proof.
  intros Hdec Hc.
  pose proof (groups_of_decimal _ Hdec) as Hall.
  destruct (groups_of_shape s c) as (g & gs & Heq & Hfirst & Hfull & _).
  rewrite Heq in *. inversion Hall as [|? ? Hg Hgs]; subst.
  constructor.
  - unfold good_group. rewrite Hg, Hfirst, (bool_decide_eq_false_2 _ Hc).
    change (negb false) with true. rewrite andb_true_r, andb_true_l.
    destruct (Nat.eqb_spec (String.length s mod 3 + 1) 3); [reflexivity|].
    rewrite orb_false_l. apply Nat.ltb_lt. lia.
  - apply Forall_forall. intros x Hx. rewrite Forall_forall in Hgs, Hfull.
    apply good_group_full; auto.
Qed.

Lemma LARGE_undefined (grade : Z) : 9 < grade -> dc.LARGE !! grade = None.
Proof.
  intros Hgrade. destruct (dc.LARGE !! grade) as [large|] eqn:H; [|reflexivity].
  apply LARGE_entries in H.
  repeat (apply elem_of_cons in H as [H|H]); try (injection H as -> _; lia).
  apply elem_of_nil in H. contradiction.
Qed.

(** With more than nine words the first round of the suffix loop looks up
    a grade that [LARGE] does not have. *)
Lemma add_suffixes_KeyError (texts groups : list string) (g : string) (v : Z) :
  (9 < length texts)%nat ->
  groups !! 0%nat = Some g ->
  Py.int g = Ok v ->
  add_suffixes texts groups = Raise KeyError.
Proof.
  intros Hlen Hg Hv. unfold add_suffixes.
  destruct (length texts) as [|total] eqn:Htotal; [lia|].
  assert (suffix_step (S total) groups (texts, ∅) 0 = Raise KeyError) as Hstep.
  { unfold suffix_step, suffix_wanted, Py.list_get. rewrite Hg.
    cbn [mbind result_bind]. rewrite Hv. cbn [mbind result_bind].
    destruct (Z.ltb_spec 1 (Z.of_nat (S total) - Z.of_nat 0)) as [_|?]; [|lia].
    unfold Py.dict_get. rewrite LARGE_undefined by lia. reflexivity. }
  change (foldM (suffix_step (S total) groups) (seq 0 (S total)) (texts, ∅))
    with (st ← suffix_step (S total) groups (texts, ∅) 0;
          foldM (suffix_step (S total) groups) (seq 1 total) st).
  rewrite Hstep. reflexivity.
Qed.

(** X12: every integer at or below [-10^27], within the limit of [str],
    passes validation, which bounds integers from above only, and makes
    the conversion raise [KeyError]: its digits form ten groups or more,
    and [LARGE] ends at grade 9. *)
Theorem convert_KeyError_below_minimum (n : Z) :
  str_within_limit n ->
  n <= - 10 ^ 27 ->
  validate_number (PyInt n) = Ok (Py.str_of_int n)
  /\ convert (PyInt n) = Raise KeyError.
Proof.
  intros _ Hn.
  assert (10 ^ 27 = 10 ^ Z.of_nat 27) as Hpow by reflexivity.
  assert (0 < 10 ^ 27) as Hpos by reflexivity.
  assert (validate_number (PyInt n) = Ok (String "-" (Py.digits (- n)))) as Hvalid.
  { unfold validate_number.
    destruct (Z.gtb_spec n dc.MAX_SUPPORTED_NUMBER) as [Hgt|_];
      [unfold dc.MAX_SUPPORTED_NUMBER in Hgt; lia|].
    unfold Py.str_of_int. destruct (Z.ltb_spec n 0) as [_|?]; [|lia].
    f_equal. apply strip_unchanged; [reflexivity|].
    rewrite all_chars_cons. apply andb_true_iff. split; [reflexivity|].
    apply decimal_string_none; [apply plain_char_not_isspace|].
    apply digits_decimal. lia. }
  split.
  { rewrite Hvalid. unfold Py.str_of_int.
    destruct (Z.ltb_spec n 0) as [_|?]; [reflexivity|lia]. }
  destruct (digits_leading (- n)) as (d & rest & Hd & Heq); [lia|].
  assert (decimal_string (String (Py.digit_char d) rest) = true) as Hdec
    by (rewrite <- Heq; apply digits_decimal; lia).
  assert (28 <= String.length (String (Py.digit_char d) rest))%nat as Hlong.
  { rewrite <- Heq. apply (digits_long (- n) 27). lia. }
  pose proof (groups_of_good_groups _ _ Hdec (digit_char_nonzero d Hd)) as Hgood.
  destruct (_read_number_decimal (String "-" (Py.digits (- n))) (- - n)
              (Py.digit_char d) rest)
    as (self2 & _ & Hcache & Hsplit & Hread).
  { apply int_minus_digits_value. lia. }
  { lia. }
  { unfold Py.lstrip_chars. rewrite lstrip_by_cons.
    change (Py.in_chars "-" "-") with true. cbn iota. rewrite Heq.
    apply lstrip_by_head. rewrite in_chars_single. apply plain_char_not;
      [reflexivity|].
    apply decimal_char_plain. apply digit_char_decimal. lia. }
  { exact Hdec. }
  assert (Forall (fun g => group_ok g = true)
                 (groups_of (String (Py.digit_char d) rest))) as Hok
    by (eapply Forall_impl; [exact Hgood | apply good_group_ok]).
  destruct (mapM_result_Ok _format_digits
              (groups_of (String (Py.digit_char d) rest)))
    as (texts & Htexts & Hlength).
  { eapply Forall_impl; [exact Hok|]. intros g Hg.
    unfold group_ok in Hg. rewrite !andb_true_iff in Hg. tauto. }
  destruct (_create_text_from_number_Ok self2
              (Py.join " " (groups_of (String (Py.digit_char d) rest))) texts)
    as (self' & Hcreate & _).
  { rewrite Hcache. intros k t Hk. rewrite lookup_empty in Hk. discriminate. }
  { rewrite Hsplit. exact Htexts. }
  destruct (groups_of_shape rest (Py.digit_char d))
    as (g & gs & Hgroups & Hfirst & _ & Htotal).
  assert (exists v, Py.int (String (Py.digit_char d) g) = Ok v) as [v Hv].
  { rewrite Hgroups in Hok. inversion Hok as [|? ? Hg _]; subst.
    apply group_ok_inv in Hg. tauto. }
  unfold convert, __init__. use_bind Hvalid. rewrite Hread.
  use_bind Hcreate. unfold _final_format.
  rewrite (add_suffixes_KeyError texts _ (String (Py.digit_char d) g) v).
  - reflexivity.
  - rewrite Hlength, Hgroups. cbn [length String.length] in *. lia.
  - rewrite Hgroups. reflexivity.
  - exact Hv.
Qed.

Lemma convert_KeyError_below_minimum_witness :
  convert (PyInt (-1000000000000000000000000000)) = Raise KeyError.
Proof.
  apply (convert_KeyError_below_minimum (-1000000000000000000000000000)).
  - unfold str_within_limit. vm_compute. reflexivity.
  - vm_compute. discriminate.
Defined.

Lemma decimal_string_isdigit (c : ascii) (s : string) :
  decimal_string (String c s) = true -> Py.isdigit (String c s) = true.
Proof.
  unfold Py.isdigit. apply all_chars_impl. intros x Hx.
  apply decimal_char_plain in Hx. unfold plain_char in Hx.
  rewrite !andb_true_iff in Hx. tauto.
Qed.

Lemma validate_number_decimal (c : ascii) (s : string) :
  decimal_string (String c s) = true ->
  (String.length (String c s) <= 27)%nat ->
  validate_number (PyStr (String c s)) = Ok (String c s).
Proof.
  intros Hdec Hlen.
  assert (plain_char c = true) as Hplain.
  { unfold decimal_string in Hdec. rewrite all_chars_cons in Hdec.
    apply andb_true_iff in Hdec as [Hd _]. apply decimal_char_plain. exact Hd. }
  assert (Py.strip (String c s) = String c s) as Hstrip.
  { apply strip_unchanged; [apply plain_char_not_isspace; exact Hplain|].
    apply decimal_string_none; [apply plain_char_not_isspace|exact Hdec]. }
  unfold validate_number. rewrite Hstrip.
  unfold Py.lstrip_chars. rewrite lstrip_by_head
    by (rewrite in_chars_single; apply plain_char_not; [reflexivity|exact Hplain]).
  rewrite (decimal_string_isdigit _ _ Hdec). cbn [negb].
  destruct (Z.gtb_spec (Py.len (String c s)) dc.MAX_SUPPORTED_NUMBER_LENGTH)
    as [Hlong|_]; [|reflexivity].
  unfold Py.len, dc.MAX_SUPPORTED_NUMBER_LENGTH in Hlong. lia.
Qed.

(** The first piece is translated with an empty cache: what it raises,
    [_create_text_from_number] raises. *)
Lemma _create_text_from_number_first_raises (self : attrs)
    (number_text first : string) (others : list string) (e : exn) :
  _cached_values self = ∅ ->
  Py.split_on " " number_text = first :: others ->
  _format_digits first = Raise e ->
  _create_text_from_number self number_text = Raise e.
Proof.
  intros Hcache Hsplit Hfirst. unfold _create_text_from_number.
  rewrite Hsplit. cbn [length].
  change (foldM (create_text_step (first :: others))
            (seq 0 (S (length others))) ([], self))
    with (st ← create_text_step (first :: others) ([], self) 0;
          foldM (create_text_step (first :: others)) (seq 1 (length others)) st).
  assert (create_text_step (first :: others) ([], self) 0 = Raise e) as ->;
    [|reflexivity].
  unfold create_text_step, Py.list_get. cbn [lookup list_lookup mbind result_bind].
  rewrite Hcache, lookup_empty, Hfirst. reflexivity.
Qed.

(** X13: a string of decimal digits whose value is not zero and whose
    first group, cut from the right, is one or two zeros passes validation
    and makes the conversion raise [IndexError]. *)
Theorem convert_IndexError_leading_zeros (k : nat) (rest : string) (v : Z) :
  k = 1%nat \/ k = 2%nat ->
  decimal_string rest = true ->
  (String.length rest mod 3)%nat = 0%nat ->
  (k + String.length rest <= 27)%nat ->
  Py.int (zeros k +:+ rest) = Ok v ->
  v <> 0 ->
  validate_number (PyStr (zeros k +:+ rest)) = Ok (zeros k +:+ rest)
  /\ convert (PyStr (zeros k +:+ rest)) = Raise IndexError.
Proof.
  intros Hk Hdec Hmod Hlen Hint Hv.
  assert (exists s0, zeros k +:+ rest = String "0" s0
                     /\ decimal_string (String "0" s0) = true
                     /\ (String.length (String "0" s0) <= 27)%nat
                     /\ groups_of (String "0" s0) = zeros k :: groups_of rest
                     /\ _format_digits (zeros k) = Raise IndexError)
    as (s0 & Heq & Hdec0 & Hlen0 & Hgroups & Hraise).
  { destruct Hk as [->| ->].
    - exists rest. split; [reflexivity|].
      split; [unfold decimal_string; rewrite all_chars_cons; exact Hdec|].
      split; [cbn [String.length] in *; lia|]. split; [|reflexivity].
      rewrite groups_of_cons, (proj2 (Nat.eqb_eq _ _) Hmod). reflexivity.
    - exists (String "0" rest). split; [reflexivity|].
      split; [unfold decimal_string; rewrite !all_chars_cons; exact Hdec|].
      split; [cbn [String.length] in *; lia|]. split; [|reflexivity].
      rewrite groups_of_cons.
      assert ((String.length (String "0" rest) mod 3 =? 0)%nat = false) as ->
        by (apply Nat.eqb_neq; cbn [String.length]; lia).
      rewrite groups_of_cons, (proj2 (Nat.eqb_eq _ _) Hmod). reflexivity. }
  rewrite Heq in *.
  pose proof (validate_number_decimal _ _ Hdec0 Hlen0) as Hvalid.
  split; [exact Hvalid|].
  destruct (_read_number_decimal (String "0" s0) v "0" s0)
    as (self2 & _ & Hcache & Hsplit & Hread);
    [exact Hint | exact Hv | reflexivity | exact Hdec0 |].
  unfold convert, __init__. use_bind Hvalid. rewrite Hread.
  rewrite Hgroups in *.
  rewrite (_create_text_from_number_first_raises self2 _ (zeros k)
             (groups_of rest) IndexError Hcache Hsplit Hraise).
  reflexivity.
Qed.

Lemma convert_IndexError_leading_zeros_witness :
  convert (PyStr "00123456") = Raise IndexError.
Proof.
  apply (convert_IndexError_leading_zeros 2 "123456" 123456);
    [right; reflexivity | reflexivity | reflexivity | vm_compute; lia
     | reflexivity | lia].
Defined.

(** ** Strings of zeros *)

Lemma zeros_length (k : nat) : String.length (zeros k) = k.
Proof. induction k as [|k IH]; [reflexivity|]. simpl. rewrite IH. reflexivity. Qed.

Lemma zeros_decimal (k : nat) : decimal_string (zeros k) = true.
Proof.
  induction k as [|k IH]; [reflexivity|].
  unfold decimal_string in *. cbn [zeros]. rewrite all_chars_cons, IH.
  reflexivity.
Qed.

Lemma int_digits_zeros (k : nat) : Py.int_digits 0 (zeros k) = Some 0.
Proof.
  induction k as [|k IH]; [reflexivity|]. cbn [zeros].
  rewrite (int_digits_decimal_cons 0 "0" (zeros k) 0) by reflexivity.
  change (0 * 10 + 0) with 0. exact IH.
Qed.

(** [int] of a string of decimal digits is [int_unsigned] of it. *)
Lemma int_decimal (c : ascii) (s : string) :
  decimal_string (String c s) = true ->
  Py.int (String c s)
  = match Py.int_unsigned (String c s) with
    | Some n => Ok n
    | None => Raise (Py.int_literal_error (String c s))
    end.
Proof.
  intros Hdec.
  assert (plain_char c = true) as Hplain.
  { unfold decimal_string in Hdec. rewrite all_chars_cons in Hdec.
    apply andb_true_iff in Hdec as [Hd _]. apply decimal_char_plain. exact Hd. }
  unfold Py.int.
  rewrite lstrip_by_head by (apply plain_char_not_int_space; exact Hplain).
  rewrite rstrip_by_none
    by (apply decimal_string_none; [apply plain_char_not_int_space | exact Hdec]).
  unfold plain_char in Hplain. rewrite !andb_true_iff, !negb_true_iff in Hplain.
  destruct Hplain as [[[[[[_ _] _] Hm] Hp] _] _]. rewrite Hm, Hp. reflexivity.
Qed.

Lemma int_zeros (k : nat) : Py.int (zeros (S k)) = Ok 0.
Proof.
  cbn [zeros]. rewrite int_decimal by apply (zeros_decimal (S k)).
  unfold Py.int_unsigned. change (Py.digit_val "0") with (Some 0).
  cbv iota. rewrite int_digits_zeros. reflexivity.
Qed.

(** X14: a string made of zeros only converts to "zero" when it has one to
    27 characters, and is rejected as too large when it has more. *)
Theorem convert_zeros (k : nat) :
  (1 <= k)%nat ->
  convert (PyStr (zeros k))
  = if (k <=? 27)%nat then Ok "zero" else Raise too_large_error.
Proof.
  intros Hk. destruct k as [|k]; [lia|].
  pose proof (zeros_decimal (S k)) as Hdec.
  pose proof (zeros_length (S k)) as Hlen.
  destruct (Nat.leb_spec (S k) 27) as [Hshort|Hlong].
  - unfold convert, __init__.
    use_bind (validate_number_decimal "0" (zeros k) Hdec ltac:(cbn [zeros] in Hlen; lia)).
    unfold _read_number. cbn [numerical_value].
    use_bind (int_zeros k). reflexivity.
  - unfold convert, __init__, validate_number.
    assert (Py.strip (zeros (S k)) = zeros (S k)) as ->.
    { apply (strip_unchanged "0" (zeros k)); [reflexivity|].
      apply decimal_string_none; [apply plain_char_not_isspace|exact Hdec]. }
    unfold Py.lstrip_chars. cbn [zeros]. rewrite lstrip_by_head by reflexivity.
    rewrite (decimal_string_isdigit "0" (zeros k) Hdec). cbn [negb].
    destruct (Z.gtb_spec (Py.len (String "0" (zeros k)))
                dc.MAX_SUPPORTED_NUMBER_LENGTH) as [_|Hle]; [reflexivity|].
    unfold Py.len, dc.MAX_SUPPORTED_NUMBER_LENGTH in Hle.
    cbn [zeros] in Hlen. lia.
Qed.

Lemma convert_zeros_witness :
  convert (PyStr "0000") = Ok "zero"
  /\ convert (PyStr (zeros 28)) = Raise too_large_error.
Proof.
  split.
  - apply (convert_zeros 4). lia.
  - apply (convert_zeros 28). lia.
Defined.

(** ** Integers and their decimal strings *)

Lemma int_and_str_agree_witness :
  convert (PyStr "-42") = convert (PyInt (-42)).
Proof.
  apply (int_and_str_agree (-42)). unfold dc.MAX_SUPPORTED_NUMBER.
  vm_compute. split; [reflexivity | discriminate].
Defined.

Lemma convert_returns_on_supported_integers_witness :
  exists text, convert (PyInt (-999999999999999999999999999)) = Ok text.
Proof.
  apply (convert_returns_on_supported_integers (-999999999999999999999999999)).
  vm_compute. split; discriminate.
Defined.

(** ** Whitespace and sign of a string *)

Lemma validate_number_str_idempotent (s validated : string) :
  validate_number (PyStr s) = Ok validated ->
  validate_number (PyStr validated) = Ok validated.
Proof.
  unfold validate_number.
  destruct (Py.isdigit (Py.lstrip_chars "-" (Py.strip s))) eqn:Hdigit;
    [|discriminate]. cbn [negb].
  destruct (Z.gtb_spec (Py.len s) dc.MAX_SUPPORTED_NUMBER_LENGTH) as [|Hlen];
    [discriminate|].
  intros H. injection H as <-.
  assert (Py.strip (Py.strip s) = Py.strip s) as Hidem
    by apply strip_by_idempotent.
  rewrite Hidem, Hdigit. cbn [negb].
  destruct (Z.gtb_spec (Py.len (Py.strip s)) dc.MAX_SUPPORTED_NUMBER_LENGTH)
    as [Hlong|_]; [|reflexivity].
  unfold Py.len, Py.strip in *.
  pose proof (rstrip_by_length Py.isspace (Py.lstrip_by Py.isspace s)).
  pose proof (lstrip_by_length Py.isspace s). lia.
Qed.

(** X17: whitespace around a string that validates does not change the
    outcome of the conversion, be it a text or an exception: the string
    converts as its stripped form does. *)
Theorem convert_ignores_surrounding_whitespace (s validated : string) :
  validate_number (PyStr s) = Ok validated ->
  validated = Py.strip s
  /\ convert (PyStr s) = convert (PyStr validated).
Proof.
  intros H. pose proof (validate_number_str_idempotent _ _ H) as Hidem.
  split.
  - unfold validate_number in H.
    destruct (negb (Py.isdigit (Py.lstrip_chars "-" (Py.strip s))));
      [discriminate|].
    destruct (Py.len s >? dc.MAX_SUPPORTED_NUMBER_LENGTH); [discriminate|].
    injection H as <-. reflexivity.
  - unfold convert, __init__. rewrite H, Hidem. reflexivity.
Qed.

Lemma convert_ignores_surrounding_whitespace_witness :
  convert (PyStr "  456  ") = convert (PyStr "456").
Proof.
  apply (convert_ignores_surrounding_whitespace "  456  " "456"). reflexivity.
Defined.

Lemma _create_text_from_number_cases (self : attrs) (number_text : string) :
  cache_sound (_cached_values self) ->
  match mapM _format_digits (Py.split_on " " number_text) with
  | Ok texts =>
      exists self',
        _create_text_from_number self number_text = Ok (texts, self')
        /\ is_negative_number self' = is_negative_number self
  | Raise e => _create_text_from_number self number_text = Raise e
  end.
Proof.
  intros Hsound. unfold _create_text_from_number.
  pose proof (create_text_loop (Py.split_on " " number_text)
                (length (Py.split_on " " number_text)) 0 [] self Hsound) as H.
  rewrite drop_0, take_ge in H by lia.
  destruct (mapM _format_digits (Py.split_on " " number_text)) as [texts|e].
  - destruct H as (self' & Hfold & Hneg & _); [lia|]. eauto.
  - apply H. lia.
Qed.

Lemma cache_sound_empty (self : attrs) :
  _cached_values self = ∅ -> cache_sound (_cached_values self).
Proof. intros -> key text H. rewrite lookup_empty in H. discriminate. Qed.

Lemma digit_val_range (c : ascii) (d : Z) :
  Py.digit_val c = Some d -> 0 <= d <= 9.
Proof.
  intros H. pose proof (digit_val_decimal _ _ H) as Hd.
  digit_cases Hd; vm_compute in H; injection H as <-; lia.
Qed.

Lemma int_digits_nonneg (s : string) :
  decimal_string s = true ->
  forall a n, 0 <= a -> Py.int_digits a s = Some n -> 0 <= n.
Proof.
  induction s as [|c s IH]; intros Hdec a n Ha H.
  - injection H as <-. exact Ha.
  - unfold decimal_string in Hdec. rewrite all_chars_cons in Hdec.
    apply andb_true_iff in Hdec as [Hc Hs].
    unfold decimal_char in Hc.
    destruct (Py.digit_val c) as [d|] eqn:Hd; [|discriminate].
    rewrite (int_digits_decimal_cons a c s d Hd) in H.
    pose proof (digit_val_range c d Hd).
    apply (IH Hs (a * 10 + d) n); [lia | exact H].
Qed.

Lemma int_decimal_nonneg (c : ascii) (s : string) (v : Z) :
  decimal_string (String c s) = true ->
  Py.int (String c s) = Ok v ->
  0 <= v /\ Py.int_unsigned (String c s) = Some v.
Proof.
  intros Hdec Hint. rewrite int_decimal in Hint by exact Hdec.
  destruct (Py.int_unsigned (String c s)) as [n|] eqn:Hu; [|discriminate].
  injection Hint as ->. split; [|reflexivity].
  unfold Py.int_unsigned in Hu.
  destruct (Py.digit_val c) as [d|] eqn:Hd; [|discriminate].
  pose proof (digit_val_range c d Hd).
  unfold decimal_string in Hdec. rewrite all_chars_cons in Hdec.
  apply andb_true_iff in Hdec as [_ Hs].
  apply (int_digits_nonneg s Hs d v); [lia | exact Hu].
Qed.

(** X18: a minus sign in front of a string of decimal digits whose value
    is not zero changes the outcome of the conversion in one way only: a
    text gets "minus, " in front, an exception stays the same. *)
Theorem convert_minus_sign_of_string (c : ascii) (s : string) (v : Z) :
  decimal_string (String c s) = true ->
  (String.length (String c s) <= 26)%nat ->
  Py.int (String c s) = Ok v ->
  v <> 0 ->
  convert (PyStr (String "-" (String c s)))
  = (fun text => "minus, " +:+ text) <$> convert (PyStr (String c s)).
Proof.
  intros Hdec Hlen Hint Hv.
  assert (plain_char c = true) as Hplain.
  { unfold decimal_string in Hdec. rewrite all_chars_cons in Hdec.
    apply andb_true_iff in Hdec as [Hd _]. apply decimal_char_plain. exact Hd. }
  assert (Py.lstrip_chars "-" (String c s) = String c s) as Hunsigned.
  { unfold Py.lstrip_chars. apply lstrip_by_head. rewrite in_chars_single.
    apply plain_char_not; [reflexivity|exact Hplain]. }
  assert (Py.lstrip_chars "-" (String "-" (String c s)) = String c s) as Hsigned.
  { unfold Py.lstrip_chars. rewrite lstrip_by_cons.
    change (Py.in_chars "-" "-") with true. cbn iota. exact Hunsigned. }
  assert (Py.int (String "-" (String c s)) = Ok (- v)) as Hint_neg.
  { destruct (int_decimal_nonneg c s v Hdec Hint) as [_ Hu]. unfold Py.int.
    rewrite lstrip_by_head by reflexivity.
    rewrite rstrip_by_none.
    - rewrite bool_decide_eq_true_2 by reflexivity. rewrite Hu. reflexivity.
    - rewrite all_chars_cons. apply andb_true_iff. split; [reflexivity|].
      apply decimal_string_none; [apply plain_char_not_int_space | exact Hdec]. }
  assert (validate_number (PyStr (String "-" (String c s)))
          = Ok (String "-" (String c s))) as Hvalid_neg.
  { unfold validate_number.
    assert (Py.strip (String "-" (String c s)) = String "-" (String c s)) as ->.
    { apply strip_unchanged; [reflexivity|].
      rewrite all_chars_cons. apply andb_true_iff. split; [reflexivity|].
      apply decimal_string_none; [apply plain_char_not_isspace | exact Hdec]. }
    rewrite Hsigned, (decimal_string_isdigit _ _ Hdec). cbn [negb].
    destruct (Z.gtb_spec (Py.len (String "-" (String c s)))
                dc.MAX_SUPPORTED_NUMBER_LENGTH) as [Hlong|_]; [|reflexivity].
    unfold Py.len, dc.MAX_SUPPORTED_NUMBER_LENGTH in Hlong.
    cbn [String.length] in *. lia. }
  destruct (int_decimal_nonneg c s v Hdec Hint) as [Hnonneg _].
  pose proof (validate_number_decimal c s Hdec ltac:(lia)) as Hvalid_pos.
  destruct (_read_number_decimal (String c s) v c s Hint Hv Hunsigned Hdec)
    as (self_pos & Hsign_pos & Hcache_pos & Hsplit & Hread_pos).
  destruct (_read_number_decimal (String "-" (String c s)) (- v) c s
              Hint_neg ltac:(lia) Hsigned Hdec)
    as (self_neg & Hsign_neg & Hcache_neg & _ & Hread_neg).
  unfold convert, __init__.
  use_bind Hvalid_neg. use_bind Hvalid_pos. rewrite Hread_pos, Hread_neg.
  pose proof (_create_text_from_number_cases self_pos
                (Py.join " " (groups_of (String c s)))
                (cache_sound_empty _ Hcache_pos)) as Hpos.
  pose proof (_create_text_from_number_cases self_neg
                (Py.join " " (groups_of (String c s)))
                (cache_sound_empty _ Hcache_neg)) as Hneg.
  destruct (mapM _format_digits
              (Py.split_on " " (Py.join " " (groups_of (String c s)))))
    as [texts|e].
  - destruct Hpos as (self_pos' & -> & Hflag_pos).
    destruct Hneg as (self_neg' & -> & Hflag_neg).
    cbn [mbind result_bind]. unfold _final_format.
    destruct (add_suffixes texts (groups_of (String c s)))
      as [[words additions]|e]; [|reflexivity].
    cbn [mbind result_bind fmap result_fmap __repr__ _text_value].
    rewrite (join_words_negative self_neg' self_pos'); [reflexivity| |].
    + rewrite Hflag_neg, Hsign_neg. apply Z.ltb_lt. lia.
    + rewrite Hflag_pos, Hsign_pos. apply Z.ltb_ge. lia.
  - rewrite Hpos, Hneg. reflexivity.
Qed.

Lemma convert_minus_sign_of_string_witness :
  convert (PyStr "-0123")
  = (fun text => "minus, " +:+ text) <$> convert (PyStr "0123").
Proof.
  apply (convert_minus_sign_of_string "0" "123" 123);
    [reflexivity | vm_compute; lia | reflexivity | discriminate].
Defined.

(** ** What the suffix loop needs *)

Lemma suffix_step_needs (total : nat) (groups : list string) (index : nat)
    (words words' : list string) (additions additions' : gset string) :
  suffix_step total groups (words, additions) index = Ok (words', additions') ->
  length words' = length words
  /\ (exists group value, groups !! index = Some group /\ Py.int group = Ok value)
  /\ (1 < Z.of_nat total - Z.of_nat index -> Z.of_nat total - Z.of_nat index <= 9).
Proof.
  intros H. unfold suffix_step in H.
  inv_bind H as g Hg. apply list_get_Ok_inv in Hg.
  inv_bind H as v Hv. inv_bind H as wanted Hwanted.
  split; [|split].
  - destruct wanted.
    + inv_bind H as suffix Hsuffix. inv_bind H as w Hw. injection H as <- <-.
      apply length_insert.
    + injection H as <- <-. reflexivity.
  - eauto.
  - intros Hgrade. unfold suffix_wanted in Hwanted.
    destruct (Z.ltb_spec 1 (Z.of_nat total - Z.of_nat index)) as [_|?]; [|lia].
    inv_bind Hwanted as large Hlarge. apply dict_get_Ok_inv in Hlarge.
    destruct (Z.leb_spec (Z.of_nat total - Z.of_nat index) 9) as [Hle|Hgt];
      [exact Hle|].
    rewrite LARGE_undefined in Hlarge by lia. discriminate.
Qed.

Lemma suffix_loop_needs (total : nat) (groups : list string) (count start : nat)
    (words words' : list string) (additions additions' : gset string) :
  foldM (suffix_step total groups) (seq start count) (words, additions)
  = Ok (words', additions') ->
  length words' = length words
  /\ forall index, (start <= index < start + count)%nat ->
       (exists group value,
           groups !! index = Some group /\ Py.int group = Ok value)
       /\ (1 < Z.of_nat total - Z.of_nat index
           -> Z.of_nat total - Z.of_nat index <= 9).
Proof.
  revert start words additions.
  induction count as [|count IH]; intros start words additions H.
  - injection H as <- <-. split; [reflexivity|]. intros index Hindex. lia.
  - cbn [seq foldM] in H. inv_bind H as st Hstep. destruct st as [words1 additions1].
    destruct (suffix_step_needs _ _ _ _ _ _ _ Hstep) as (Hlen1 & Hgroup & Hgrade).
    destruct (IH _ _ _ H) as (Hlen' & Hrest).
    split; [congruence|]. intros index Hindex.
    destruct (decide (index = start)) as [->|Hne].
    + split; assumption.
    + apply Hrest. lia.
Qed.

(** X19: [_final_format] returns only if there are at most nine words, at
    least as many digit groups as words, and [int] reads every group that
    stands at the position of a word; otherwise the loop over the words
    raises. *)
Theorem _final_format_needs (self : attrs) (words groups : list string)
    (text : string) :
  _final_format self words groups = Ok text ->
  (length words <= 9)%nat
  /\ (length words <= length groups)%nat
  /\ forall index, (index < length words)%nat ->
       exists group value,
         groups !! index = Some group /\ Py.int group = Ok value.
Proof.
  intros H. unfold _final_format in H. inv_bind H as st Hloop.
  destruct st as [words' additions']. unfold add_suffixes in Hloop.
  destruct (suffix_loop_needs _ _ _ _ _ _ _ _ Hloop) as (_ & Hneeds).
  split; [|split].
  - destruct (length words) as [|total] eqn:Htotal; [lia|].
    destruct (Hneeds 0%nat ltac:(lia)) as (_ & Hgrade). lia.
  - destruct (length words) as [|total] eqn:Htotal; [lia|].
    destruct (Hneeds total ltac:(lia)) as ((group & value & Hgroup & _) & _).
    apply lookup_lt_Some in Hgroup. lia.
  - intros index Hindex. apply Hneeds. lia.
Qed.

Lemma _final_format_needs_witness :
  (length ["one"; "two"] <= length ["1"; "002"])%nat.
Proof.
  apply (_final_format_needs (Attrs "1002" None false ∅) ["one"; "two"]
           ["1"; "002"] "one thousand and two").
  vm_compute. reflexivity.
Defined.

(** ** The attributes of the constructed object *)

(** X20: when the constructor returns, the object holds the validated
    string as [numerical_value]; [is_negative_number] tells whether [int]
    of it is negative; for zero the text is "zero", the split value is
    still [None] and the cache is empty; for every other number the split
    value is the grouped digits, behind "-" for a negative number. *)
Theorem init_sets_attributes (number : pyobj) (object : NumberToText) :
  __init__ number = Ok object ->
  exists value,
    validate_number number = Ok (numerical_value (attributes object))
    /\ Py.int (numerical_value (attributes object)) = Ok value
    /\ is_negative_number (attributes object) = (value <? 0)
    /\ (value = 0 ->
        numerical_split_value (attributes object) = None
        /\ _cached_values (attributes object) = ∅
        /\ _text_value object = "zero")
    /\ (value <> 0 ->
        exists formatted,
          _format_number_string
            (Py.lstrip_chars "-" (numerical_value (attributes object)))
          = Ok formatted
          /\ numerical_split_value (attributes object)
             = Some ((if value <? 0 then "-" else "")
                     +:+ Py.strip_chars " " formatted)).
Proof.
  intros H. unfold __init__ in H. inv_bind H as validated Hvalid.
  inv_bind H as read Hread. destruct read as [text self]. injection H as <-.
  cbn [attributes _text_value].
  unfold _read_number in Hread. cbn [numerical_value] in Hread.
  inv_bind Hread as value Hvalue. exists value.
  destruct (Z.eqb_spec value 0) as [Hzero|Hnonzero].
  - inv_bind Hread as zero Hz. apply dict_get_Ok_inv in Hz.
    injection Hz as <-. injection Hread as <- <-.
    cbn [numerical_value numerical_split_value is_negative_number _cached_values].
    subst value.
    split; [assumption|]. split; [assumption|]. split; [reflexivity|].
    split; [intros _; repeat split|]. intros Hfalse. contradiction.
  - inv_bind Hread as value' Hvalue'. rewrite Hvalue in Hvalue'.
    injection Hvalue' as <-.
    destruct (value <? 0) eqn:Hsign;
      cbn [set_is_negative_number numerical_value is_negative_number] in Hread.
    + inv_bind Hread as formatted Hformatted. inv_bind Hread as created Hcreated.
      destruct created as [words self']. inv_bind Hread as text' Htext.
      injection Hread as <- <-. unfold _create_text_from_number in Hcreated.
      destruct (create_text_loop_holds _ _ _ _ _ _ _ Hcreated)
        as (_ & _ & Hnv & Hsv & Hneg);
        [reflexivity | intros i key Hi; lia |].
      cbn [set_numerical_split_value numerical_value numerical_split_value
             is_negative_number] in Hnv, Hsv, Hneg.
      rewrite Hnv, Hsv, Hneg.
      split; [assumption|]. split; [assumption|]. split; [reflexivity|].
      split; [intros ?; contradiction|].
      intros _. exists formatted. split; [assumption|reflexivity].
    + inv_bind Hread as formatted Hformatted. inv_bind Hread as created Hcreated.
      destruct created as [words self']. inv_bind Hread as text' Htext.
      injection Hread as <- <-. unfold _create_text_from_number in Hcreated.
      destruct (create_text_loop_holds _ _ _ _ _ _ _ Hcreated)
        as (_ & _ & Hnv & Hsv & Hneg);
        [reflexivity | intros i key Hi; lia |].
      cbn [set_numerical_split_value numerical_value numerical_split_value
             is_negative_number] in Hnv, Hsv, Hneg.
      rewrite Hnv, Hsv, Hneg.
      split; [assumption|]. split; [assumption|]. split; [reflexivity|].
      split; [intros ?; contradiction|].
      intros _. exists formatted. split; [assumption|reflexivity].
Qed.

Lemma init_sets_attributes_witness :
  exists value, Py.int "-1002" = Ok value /\ true = (value <? 0).
Proof.
  destruct (init_sets_attributes (PyStr " -1002")
              (Object (Attrs "-1002" (Some "-1 002") true
                         (<["002" := "two"]> (<["1" := "one"]> ∅)))
                      "minus, one thousand and two"))
    as (value & _ & Hvalue & Hsign & _).
  - vm_compute. reflexivity.
  - exists value. split; assumption.
Defined.

(** ** The last digit *)

(** X21: [_add_singles] looks at the last character only: behind any
    prefix, a decimal digit gives its word in [SINGLES], the empty word
    for the digit zero; on the empty string the index [-1] raises. *)
Theorem _add_singles_reads_last (prefix : string) (c : ascii) (d : Z) :
  Py.digit_val c = Some d ->
  _add_singles (prefix +:+ String c "") = Ok (single_word d)
  /\ (d = 0 <-> single_word d = "")
  /\ _add_singles "" = Raise IndexError.
Proof.
  intros Hd. rewrite _add_singles_suffix by (unfold Py.len; cbn; lia).
  pose proof (digit_val_decimal _ _ Hd) as Hc.
  digit_cases Hc; vm_compute in Hd; injection Hd as <-;
    (split; [reflexivity|]; split; [|reflexivity]);
    vm_compute; split; intros H; (reflexivity || discriminate).
Qed.

Lemma _add_singles_reads_last_witness :
  _add_singles "1207" = Ok "seven".
Proof.
  apply (_add_singles_reads_last "120" "7" 7). reflexivity.
Defined.

(** * The plural rule, from the input to the text *)

Lemma isdigit_char_sign (c : ascii) :
  Py.isdigit_char c = true ->
  Py.int_space c = false /\ c <> "-"%char /\ c <> "+"%char /\ c <> "_"%char.
Proof.
  destruct c as [[] [] [] [] [] [] [] []]; vm_compute; intros H;
    first [discriminate H | repeat split; discriminate].
Qed.

(** What [int] accepts among the strings [str.isdigit] accepts is made of
    decimal digits. *)
Lemma int_digits_isdigit (s : string) :
  Py.all_chars Py.isdigit_char s = true ->
  forall a v, Py.int_digits a s = Some v -> decimal_string s = true.
Proof.
  induction s as [|c s IH]; intros Hall a v H; [reflexivity|].
  rewrite all_chars_cons in Hall. apply andb_true_iff in Hall as [Hc Hs].
  destruct (isdigit_char_sign c Hc) as (_ & _ & _ & Hunder).
  cbn [Py.int_digits] in H. rewrite (bool_decide_eq_false_2 _ Hunder) in H.
  unfold decimal_string. rewrite all_chars_cons. unfold decimal_char at 1.
  destruct (Py.digit_val c) as [d|]; [|discriminate].
  exact (IH Hs _ _ H).
Qed.

Lemma int_unsigned_isdigit (s : string) (v : Z) :
  Py.all_chars Py.isdigit_char s = true ->
  Py.int_unsigned s = Some v ->
  exists c r, s = String c r /\ decimal_string s = true.
Proof.
  intros Hall H. destruct s as [|c r]; [discriminate|].
  exists c, r. split; [reflexivity|].
  rewrite all_chars_cons in Hall. apply andb_true_iff in Hall as [_ Hr].
  unfold Py.int_unsigned in H. unfold decimal_string.
  rewrite all_chars_cons. unfold decimal_char at 1.
  destruct (Py.digit_val c) as [d|]; [|discriminate].
  exact (int_digits_isdigit r Hr _ _ H).
Qed.

Lemma int_Ok_decimal (value : string) (v : Z) :
  Py.isdigit (Py.lstrip_chars "-" value) = true ->
  Py.int value = Ok v ->
  exists c s, Py.lstrip_chars "-" value = String c s
              /\ decimal_string (String c s) = true.
Proof.
  intros Hdigit Hint.
  assert (forall s, Py.isdigit s = true -> Py.all_chars Py.isdigit_char s = true)
    as Hall by (intros [|x s] H; [discriminate | exact H]).
  assert (forall s, Py.all_chars Py.isdigit_char s = true ->
                    Py.all_chars (fun x => negb (Py.int_space x)) s = true)
    as Hspace.
  { intros s. apply all_chars_impl. intros x Hx.
    destruct (isdigit_char_sign x Hx) as [-> _]. reflexivity. }
  destruct value as [|a r]; [discriminate|].
  unfold Py.lstrip_chars in *. rewrite lstrip_by_cons, in_chars_single in *.
  case_bool_decide as Ha.
  - subst a. unfold Py.int in Hint.
    rewrite lstrip_by_head in Hint by reflexivity.
    destruct r as [|b r']; [discriminate|].
    rewrite lstrip_by_cons, in_chars_single in *.
    case_bool_decide as Hb.
    + subst b.
      destruct (rstrip_by_keeps_head Py.int_space "-" r' eq_refl) as (t & Ht).
      rewrite rstrip_by_cons in Hint. rewrite Ht in Hint.
      rewrite bool_decide_eq_true_2 in Hint by reflexivity.
      discriminate.
    + pose proof (Hall _ Hdigit) as Hchars.
      rewrite rstrip_by_none in Hint.
      * rewrite bool_decide_eq_true_2 in Hint by reflexivity.
        destruct (Py.int_unsigned (String b r')) as [u|] eqn:Hu; [|discriminate].
        destruct (int_unsigned_isdigit _ _ Hchars Hu) as (c & s & Heq & Hdec).
        exists c, s. rewrite <- Heq. split; [reflexivity|exact Hdec].
      * rewrite all_chars_cons. apply andb_true_iff. split; [reflexivity|].
        apply Hspace. exact Hchars.
  - pose proof (Hall _ Hdigit) as Hchars.
    pose proof Hchars as Hhead. rewrite all_chars_cons in Hhead.
    apply andb_true_iff in Hhead as [Hhead _].
    destruct (isdigit_char_sign a Hhead) as (Hsp & Hminus & Hplus & _).
    unfold Py.int in Hint.
    rewrite lstrip_by_head in Hint by exact Hsp.
    rewrite rstrip_by_none in Hint by (apply Hspace; exact Hchars).
    rewrite (bool_decide_eq_false_2 _ Hminus), (bool_decide_eq_false_2 _ Hplus)
      in Hint.
    destruct (Py.int_unsigned (String a r)) as [u|] eqn:Hu; [|discriminate].
    destruct (int_unsigned_isdigit _ _ Hchars Hu) as (c & s & Heq & Hdec).
    exists c, s. rewrite <- Heq. split; [reflexivity|exact Hdec].
Qed.

(** What [validate_number] returns is all digits behind its minus signs. *)
Lemma validate_number_digits (number : pyobj) (validated : string) :
  validate_number number = Ok validated ->
  Py.isdigit (Py.lstrip_chars "-" validated) = true.
Proof.
  destruct number as [n|s|]; unfold validate_number; intros H; [| |discriminate].
  - destruct (n >? dc.MAX_SUPPORTED_NUMBER); [discriminate|].
    injection H as <-.
    destruct (str_of_int_shape n) as (c & s & Heq & Hc & Hall).
    rewrite Heq, (strip_unchanged c s Hc Hall), <- Heq.
    assert (forall m, 0 <= m ->
              Py.isdigit (Py.lstrip_chars "-" (Py.digits m)) = true) as Hdigits.
    { intros m Hm. destruct (digits_nonempty m) as (x & r & Hx).
      pose proof (digits_decimal m Hm) as Hdec. rewrite Hx in *.
      assert (plain_char x = true) as Hplain.
      { unfold decimal_string in Hdec. rewrite all_chars_cons in Hdec.
        apply andb_true_iff in Hdec as [Hd _]. apply decimal_char_plain.
        exact Hd. }
      unfold Py.lstrip_chars. rewrite lstrip_by_head.
      - apply decimal_string_isdigit. exact Hdec.
      - rewrite in_chars_single. apply plain_char_not; [reflexivity|exact Hplain]. }
    unfold Py.str_of_int. destruct (Z.ltb_spec n 0) as [Hneg|Hpos].
    + unfold Py.lstrip_chars. rewrite lstrip_by_cons.
      change (Py.in_chars "-" "-") with true. cbn iota.
      apply (Hdigits (- n)). lia.
    + apply Hdigits. exact Hpos.
  - destruct (Py.isdigit (Py.lstrip_chars "-" (Py.strip s))) eqn:Hdigit;
      [|discriminate]. cbn [negb] in H.
    destruct (Py.len s >? dc.MAX_SUPPORTED_NUMBER_LENGTH); [discriminate|].
    injection H as <-. exact Hdigit.
Qed.

Lemma mapM_result_lookup {A B : Type} (f : A -> result B) (l : list A)
    (ys : list B) :
  mapM f l = Ok ys ->
  length ys = length l
  /\ forall i x, l !! i = Some x -> exists y, f x = Ok y /\ ys !! i = Some y.
Proof.
  revert ys. induction l as [|a l IH]; intros ys H.
  - injection H as <-. split; [reflexivity|]. intros i x Hx.
    rewrite lookup_nil in Hx. discriminate.
  - simpl in H. destruct (f a) as [b|e] eqn:Hb; [|discriminate]. simpl in H.
    destruct (mapM f l) as [bs|e]; [|discriminate]. simpl in H.
    injection H as <-. destruct (IH bs eq_refl) as (Hlen & Hlookup).
    split; [simpl; rewrite Hlen; reflexivity|].
    intros [|i] x Hx.
    + injection Hx as <-. exists b. split; [exact Hb|reflexivity].
    + apply (Hlookup i x Hx).
Qed.

(** The words the conversion joins follow [suffix_rule], group by group. *)
Lemma convert_follows_suffix_rule (number : pyobj) (text : string) :
  convert number = Ok text -> follows_suffix_rule number text.
Proof.
  intros H. unfold convert in H.
  apply fmap_Ok_inv in H as (object & Hinit & Hrepr).
  unfold __init__ in Hinit. inv_bind Hinit as validated Hvalid.
  inv_bind Hinit as read Hread. destruct read as [text' self].
  injection Hinit as <-. unfold __repr__ in Hrepr. cbn [_text_value] in Hrepr.
  subst text'.
  assert (exists value, Py.int validated = Ok value) as [value Hvalue].
  { unfold _read_number in Hread. cbn [numerical_value] in Hread.
    destruct (Py.int validated) as [value|e]; [eauto|discriminate]. }
  exists validated, value. split; [exact Hvalid|]. split; [exact Hvalue|].
  split.
  - intros ->. unfold _read_number in Hread. cbn [numerical_value] in Hread.
    rewrite Hvalue in Hread. cbn [mbind result_bind] in Hread.
    change (0 =? 0) with true in Hread. cbv iota in Hread.
    inv_bind Hread as zero Hzero. apply dict_get_Ok_inv in Hzero.
    injection Hzero as <-. injection Hread as <- _. reflexivity.
  - intros Hnonzero.
    destruct (int_Ok_decimal validated value
                (validate_number_digits _ _ Hvalid) Hvalue)
      as (c & s & Hstrip & Hdec).
    destruct (_read_number_decimal validated value c s Hvalue Hnonzero Hstrip Hdec)
      as (self2 & Hsign & Hcache & Hsplit & Hunfold).
    rewrite Hunfold in Hread. clear Hunfold. rewrite Hstrip.
    pose proof (_create_text_from_number_cases self2
                  (Py.join " " (groups_of (String c s)))
                  (cache_sound_empty _ Hcache)) as Hcreate.
    rewrite Hsplit in Hcreate.
    destruct (mapM _format_digits (groups_of (String c s))) as [texts|e] eqn:Htexts.
    + destruct Hcreate as (self3 & Hcreate & Hflag). rewrite Hcreate in Hread.
      cbn [mbind result_bind] in Hread. inv_bind Hread as final Hfinal.
      injection Hread as <- <-.
      unfold _final_format in Hfinal. inv_bind Hfinal as st Hloop.
      destruct st as [words additions]. injection Hfinal as <-.
      exists self3, words. split; [reflexivity|].
      split; [rewrite Hflag; exact Hsign|].
      destruct (mapM_result_lookup _ _ _ Htexts) as (Hlength & Hphrase).
      pose proof Hloop as Hneeds. unfold add_suffixes in Hneeds.
      apply suffix_loop_needs in Hneeds as (Hwords & Hneeds).
      split; [congruence|].
      intros index group Hgroup.
      destruct (Hphrase index group Hgroup) as (phrase & Hformat & Htext).
      destruct (Hneeds index) as ((group' & value' & Hgroup' & Hint) & _).
      { apply lookup_lt_Some in Htext. lia. }
      rewrite Hgroup in Hgroup'. injection Hgroup' as <-.
      destruct (add_suffixes_rule texts (groups_of (String c s)) words index
                  phrase group value') as (new_word & Hnew & Hrule);
        [rewrite Hloop; reflexivity | assumption..|].
      exists value', phrase, new_word.
      rewrite <- Hlength. repeat split; try assumption; apply Hrule.
    + rewrite Hcreate in Hread. discriminate.
Qed.

(** C7: for every input on which the conversion returns a text, the text
    is "zero" or is joined from one word per digit group of the validated
    number without its sign, and the word of a group that receives a
    magnitude suffix (grade above 1, group not all zeros) is the phrase of
    the group with the plural form exactly when the value of the group is
    greater than 1 and the grade is not 2, and with the singular form
    otherwise; the word of any other group is its phrase.  The conversion
    returns on every integer from -MAX to MAX.  One million is "one
    million" without "millions", two millions is "two millions", two
    thousand is "two thousand" without "thousands". *)
Theorem plural_suffix_rule :
  (forall (number : pyobj) (text : string),
     convert number = Ok text -> follows_suffix_rule number text)
  /\ (forall n : Z,
        - dc.MAX_SUPPORTED_NUMBER <= n <= dc.MAX_SUPPORTED_NUMBER ->
        exists text, convert (PyInt n) = Ok text)
  /\ (exists text, convert (PyInt 1000000) = Ok text
        /\ contains "one million" text = true
        /\ contains "millions" text = false)
  /\ (exists text, convert (PyInt 2000000) = Ok text
        /\ contains "two millions" text = true)
  /\ (exists text, convert (PyInt 2000) = Ok text
        /\ contains "two thousand" text = true
        /\ contains "thousands" text = false).
Proof.
  split; [exact convert_follows_suffix_rule|]. split.
  - intros n Hn. destruct (Z.lt_trichotomy n 0) as [Hneg|[->|Hpos]].
    + destruct (convert_supported (- n)) as (_ & self_neg & words & _ & H & _);
        [lia|]. rewrite Z.opp_involutive in H. eauto.
    + exists "zero". reflexivity.
    + destruct (convert_supported n) as (self_pos & _ & words & H & _); [lia|].
      eauto.
  - split; [|split]; eexists; (split; [vm_compute; reflexivity|]);
      vm_compute; repeat split; reflexivity.
Qed.

Lemma plural_suffix_rule_witness :
  follows_suffix_rule (PyInt (-2002000)) "minus, two millions, two thousand".
Proof.
  apply (proj1 plural_suffix_rule). vm_compute. reflexivity.
Defined.
